(** * task_tracker: the task entity, its three stores and the enrichment service

    A shallow embedding of [simple_backend/task_tracker/classes.py].

    Python objects that are mutated in place are modelled by explicit state
    passing: a computation takes the state of the object (or of the outside
    world: the file, the remote bin, the network) and returns its result
    together with the new state.  An exception leaves the state as it was
    at the moment it was raised. *)

From Stdlib Require Import ZArith List String Ascii Bool Lia Sorted Permutation.
Import ListNotations.
Local Open Scope string_scope.
Local Open Scope list_scope.
Local Open Scope Z_scope.

(** ** Exceptions

    The code raises [ValueError] with three different messages, and the enum
    constructor [TaskStatus(s)] raises [ValueError] too; transport problems
    are [RuntimeError].  Each constructor stands for one raise site (or one
    builtin failure). *)

Inductive Exception : Type :=
  | ValueError_title          (* Task.rename_title: empty or longer than 50 *)
  | ValueError_status         (* Task.change_status: not a TaskStatus *)
  | ValueError_id_not_found   (* the stores: "ID not found" *)
  | ValueError_enum (s : string)      (* TaskStatus(s), s not a member value *)
  | RuntimeError_request      (* BaseHTTPClient.request: RequestException *)
  | RuntimeError_status (code : Z)    (* BaseHTTPClient.json: unexpected status *)
  | RuntimeError_json         (* BaseHTTPClient.json: body is not JSON *)
  | KeyError (key : string)           (* d[key] on a missing key *)
  | AttributeError            (* .get on a value that is not a dict *)
  | FileNotFoundError.        (* open() on a missing file *)

(** The spec's names for the error kinds. *)
Definition is_ValidationError (e : Exception) : bool :=
  match e with ValueError_title | ValueError_status => true | _ => false end.


Definition is_TransportError (e : Exception) : bool :=
  match e with
  | RuntimeError_request | RuntimeError_status _ | RuntimeError_json => true
  | _ => false
  end.

Inductive Result (A : Type) : Type :=
  | Ok (a : A)
  | Raise (e : Exception).
Arguments Ok {A} a.
Arguments Raise {A} e.

(** ** Computations over a mutable state [W] *)

Definition M (W A : Type) : Type := W -> Result A * W.

Definition ret {W A} (a : A) : M W A := fun w => (Ok a, w).

Definition raise {W A} (e : Exception) : M W A := fun w => (Raise e, w).

Definition bind {W A B} (c : M W A) (k : A -> M W B) : M W B :=
  fun w =>
    match c w with
    | (Ok a, w') => k a w'
    | (Raise e, w') => (Raise e, w')
    end.

(** [try: c except Exception: h] *)
Definition try_except {W A} (c : M W A) (h : Exception -> M W A) : M W A :=
  fun w =>
    match c w with
    | (Ok a, w') => (Ok a, w')
    | (Raise e, w') => h e w'
    end.

Definition put_state {W} (w : W) : M W unit := fun _ => (Ok tt, w).

(** Lifting of a pure fallible value. *)
Definition lift {W A} (r : Result A) : M W A := fun w => (r, w).

Declare Scope py_scope.
Delimit Scope py_scope with py.
Notation "x <- c ;; k" := (bind c (fun x => k))
  (at level 61, c at next level, right associativity) : py_scope.
Notation "c ;;; k" := (bind c (fun _ => k))
  (at level 61, right associativity) : py_scope.

(** The same for pure code that can raise. *)
Definition rbind {A B} (r : Result A) (k : A -> Result B) : Result B :=
  match r with Ok a => k a | Raise e => Raise e end.

Fixpoint rmap {A B} (f : A -> Result B) (l : list A) : Result (list B) :=
  match l with
  | [] => Ok []
  | x :: l' =>
      rbind (f x) (fun y => rbind (rmap f l') (fun ys => Ok (y :: ys)))
  end.

(** ** Strings

    A [str] is modelled by [string]; a character is its code point, which
    limits the model to code points below 256.  [str.strip()] removes the
    characters for which [str.isspace] holds at both ends. *)

Definition isspace (c : ascii) : bool :=
  let n := N_of_ascii c in
  ((9 <=? n) && (n <=? 13) || (28 <=? n) && (n <=? 32)
   || (n =? 133) || (n =? 160))%N.

Fixpoint lstrip (s : string) : string :=
  match s with
  | EmptyString => EmptyString
  | String c s' => if isspace c then lstrip s' else s
  end.

Fixpoint rstrip (s : string) : string :=
  match s with
  | EmptyString => EmptyString
  | String c s' =>
      match rstrip s' with
      | EmptyString => if isspace c then EmptyString else String c EmptyString
      | r => String c r
      end
  end.

Definition strip (s : string) : string := rstrip (lstrip s).

(** [len(s)] *)
Definition len (s : string) : Z := Z.of_nat (String.length s).

(** Truth value of a string: [if s:] *)
Definition truthy (s : string) : bool :=
  match s with EmptyString => false | _ => true end.

(** ** TaskStatus *)

Inductive TaskStatus : Type := TODO | IN_PROGRESS | DONE.

(** [status.value] *)
Definition value (s : TaskStatus) : string :=
  match s with
  | TODO => "todo"
  | IN_PROGRESS => "in_progress"
  | DONE => "done"
  end.

(** [TaskStatus(s)]: lookup of a member by its value. *)
Definition TaskStatus_of (s : string) : Result TaskStatus :=
  if String.eqb s "todo" then Ok TODO
  else if String.eqb s "in_progress" then Ok IN_PROGRESS
  else if String.eqb s "done" then Ok DONE
  else Raise (ValueError_enum s).

(** What a caller may pass where a [TaskStatus] is expected:
    [isinstance(x, TaskStatus)] holds for the first constructor only. *)
Inductive StatusArg : Type :=
  | AStatus (s : TaskStatus)
  | AStr (s : string).

(** ** Task *)

Module Task.

Record t : Type := mk {
  id : Z;
  title : string;
  status : TaskStatus;
  notes : option string
}.

(** [__init__] *)
Definition init (id : Z) (title : string) (status : TaskStatus)
    (notes : option string) : t :=
  mk id (strip title) status notes.

(** The assignments [self.title = ..], [self.status = ..], [.notes = ..]. *)
Definition set_title (self : t) (s : string) : t :=
  mk (id self) s (status self) (notes self).
Definition set_status (self : t) (s : TaskStatus) : t :=
  mk (id self) (title self) s (notes self).
Definition set_notes (self : t) (n : option string) : t :=
  mk (id self) (title self) (status self) n.

(** The state is the task object itself. *)
Definition rename_title (new_title : string) : M t unit :=
  if negb (truthy (strip new_title)) || (50 <? len (strip new_title))
  then raise ValueError_title
  else fun self => (Ok tt, set_title self (strip new_title)).

Definition change_status (new_status : StatusArg) : M t unit :=
  match new_status with
  | AStr _ => raise ValueError_status
  | AStatus s => fun self => (Ok tt, set_status self s)
  end.

End Task.

(** ** Python lists and dicts *)

(** [for i, x in enumerate(l): if p(x): ...; break]: the first hit. *)
Fixpoint find_index {A} (p : A -> bool) (l : list A) : option (nat * A) :=
  match l with
  | [] => None
  | x :: l' =>
      if p x then Some (O, x)
      else match find_index p l' with
           | Some (i, y) => Some (S i, y)
           | None => None
           end
  end.

(** [l.pop(i)] for an index in range (the code pops only such). *)
Fixpoint pop {A} (i : nat) (l : list A) {struct l} : list A :=
  match l, i with
  | [], _ => []
  | _ :: l', O => l'
  | x :: l', S i' => x :: pop i' l'
  end.

(** [l[i] = x] for an index in range. *)
Fixpoint set_nth {A} (i : nat) (x : A) (l : list A) {struct l} : list A :=
  match l, i with
  | [], _ => []
  | _ :: l', O => x :: l'
  | y :: l', S i' => y :: set_nth i' x l'
  end.

(** [1 if not ids else max(ids) + 1] *)
Definition next_free_id (ids : list Z) : Z :=
  match ids with
  | [] => 1
  | x :: xs => fold_left Z.max xs x + 1
  end.

(** [sorted(l, key=lambda t: t.id)]: the stable sort by id. *)
Fixpoint insert_by_id (t : Task.t) (l : list Task.t) : list Task.t :=
  match l with
  | [] => [t]
  | u :: l' =>
      if Task.id t <=? Task.id u then t :: l else u :: insert_by_id t l'
  end.

Fixpoint sorted (l : list Task.t) : list Task.t :=
  match l with
  | [] => []
  | t :: l' => insert_by_id t (sorted l')
  end.

(** A [dict[int, Task]] keeps its keys in insertion order. *)
Definition dict : Type := list (Z * Task.t).

Fixpoint dict_get (k : Z) (d : dict) : option Task.t :=
  match d with
  | [] => None
  | (k', v) :: d' => if k' =? k then Some v else dict_get k d'
  end.

(** [d[k] = v]: in place for a key of the dict, at the end for a new one. *)
Fixpoint dict_set (k : Z) (v : Task.t) (d : dict) : dict :=
  match d with
  | [] => [(k, v)]
  | (k', v') :: d' =>
      if k' =? k then (k', v) :: d' else (k', v') :: dict_set k v d'
  end.

(** [del d[k]] *)
Fixpoint dict_del (k : Z) (d : dict) : dict :=
  match d with
  | [] => []
  | (k', v') :: d' => if k' =? k then d' else (k', v') :: dict_del k d'
  end.

(** [if title is not None: task.rename_title(title)] and the like. *)
Definition when_given {W A} (x : option A) (c : A -> M W unit) : M W unit :=
  match x with
  | Some a => c a
  | None => ret tt
  end.

(** ** The in-memory store *)

Module TaskStore.

Record t : Type := mk { tasks : dict; next_id : Z }.

(** [__init__] *)
Definition init : t := mk [] 1.

Definition get_all : M t (list Task.t) :=
  fun self => (Ok (map snd (tasks self)), self).

Definition create_task (title : string) (status : TaskStatus) : M t Task.t :=
  fun self =>
    let new_id := next_id self in
    let task := Task.init new_id title status None in
    (Ok task, mk (dict_set new_id task (tasks self)) (next_id self + 1)).

(** The task found in the dict is the stored object: what the setters do
    to it is done to the store, also when a later setter raises.
    [if title:] skips [None] and the empty string; [if status:] skips
    [None] only, a member of the enum being a non-empty string. *)
Definition update_task (id : Z) (title : option string)
    (status : option TaskStatus) : M t Task.t :=
  fun self =>
    match dict_get id (tasks self) with
    | None => (Raise ValueError_id_not_found, self)
    | Some task =>
        let setters : M Task.t unit :=
          ((match title with
            | Some s => if truthy s then Task.rename_title s else ret tt
            | None => ret tt
            end) ;;;
           when_given status (fun s => Task.change_status (AStatus s)))%py in
        match setters task with
        | (Ok _, task') =>
            (Ok task', mk (dict_set id task' (tasks self)) (next_id self))
        | (Raise e, task') =>
            (Raise e, mk (dict_set id task' (tasks self)) (next_id self))
        end
    end.

Definition delete_task (id : Z) : M t unit :=
  fun self =>
    match dict_get id (tasks self) with
    | None => (Raise ValueError_id_not_found, self)
    | Some _ => (Ok tt, mk (dict_del id (tasks self)) (next_id self))
    end.

End TaskStore.

(** ** The persisted document

    [{"schema_version": 1, "tasks": [{"id": .., "title": .., "status": ..,
    "notes": ..}, ...]}].  An item carries an integer id, a string title and
    a string status, as the stores write them; the status string is any
    string, and [item_notes = None] stands for a missing or null ["notes"].
    Either top-level key may be missing. *)

Record Item : Type := mkItem {
  item_id : Z;
  item_title : string;
  item_status : string;
  item_notes : option string
}.

Record Document : Type := mkDocument {
  schema_version : option Z;
  doc_tasks : option (list Item)
}.

(** [data.get("tasks", [])] *)
Definition get_tasks (data : Document) : list Item :=
  match doc_tasks data with
  | Some l => l
  | None => []
  end.

(** [payload["tasks"]] *)
Definition index_tasks (data : Document) : Result (list Item) :=
  match doc_tasks data with
  | Some l => Ok l
  | None => Raise (KeyError "tasks")
  end.

(** ** The file store *)

Module FileTaskStore.

(** The state is the file at [self.path]: absent, or a JSON document. *)
Definition file : Type := option Document.

(** The body of the loop of [get_all]. *)
Definition task_of_item (item : Item) : Result Task.t :=
  rbind (TaskStatus_of (item_status item)) (fun status =>
  Ok (Task.init (item_id item) (item_title item) status None)).

Definition get_all : M file (list Task.t) :=
  fun f =>
    match f with
    | None => (Raise FileNotFoundError, f)
    | Some data =>
        (rbind (rmap task_of_item (get_tasks data)) (fun result =>
         Ok (sorted result)), f)
    end.

Definition item_of_task (t : Task.t) : Item :=
  mkItem (Task.id t) (Task.title t) (value (Task.status t)) None.

(** The temporary file is written and renamed over the target. *)
Definition dump_all (tasks : list Task.t) : M file unit :=
  put_state (Some (mkDocument (Some 1) (Some (map item_of_task tasks)))).

Definition create_task (title : string) (status : TaskStatus) : M file Task.t :=
  (tasks <- get_all ;;
   let new_id := next_free_id (map Task.id tasks) in
   let new_task := Task.init new_id title status None in
   dump_all (tasks ++ [new_task]) ;;;
   ret new_task)%py.

Definition update_task (id : Z) (title : option string)
    (status : option TaskStatus) : M file Task.t :=
  (tasks <- get_all ;;
   match find_index (fun t => Task.id t =? id) tasks with
   | None => raise ValueError_id_not_found
   | Some (i, task) =>
       let setters : M Task.t unit :=
         (when_given title Task.rename_title ;;;
          when_given status (fun s => Task.change_status (AStatus s)))%py in
       match setters task with
       | (Raise e, _) => raise e
       | (Ok _, task') =>
           dump_all (set_nth i task' tasks) ;;;
           ret task'
       end
   end)%py.

(** [for index, task in enumerate(tasks): if task.id == id:
    tasks.pop(index)]: the list shrinks under the iterator, which goes on
    at [index + 1] of the list as it is then.  The loop ends when the
    index is out of range; [fuel] bounds the number of rounds. *)
Fixpoint delete_loop (fuel : nat) (id : Z) (index : nat)
    (tasks : list Task.t) : list Task.t :=
  match fuel with
  | O => tasks
  | S fuel' =>
      match nth_error tasks index with
      | None => tasks
      | Some task =>
          if Task.id task =? id
          then delete_loop fuel' id (S index) (pop index tasks)
          else delete_loop fuel' id (S index) tasks
      end
  end.

Definition delete_task (id : Z) : M file unit :=
  (tasks <- get_all ;;
   dump_all (delete_loop (S (List.length tasks)) id O tasks))%py.

End FileTaskStore.

(** ** HTTP

    [BaseHTTPClient.request] either returns a response (a status code and a
    body, which parses as JSON or does not) or raises. *)

Inductive Response (B : Type) : Type :=
  mkResponse (status_code : Z) (body : option B).
Arguments mkResponse {B} status_code body.

(** [BaseHTTPClient.json] *)
Definition json {B} (resp : Response B) (expected : list Z) : Result B :=
  match resp with
  | mkResponse status body =>
      if existsb (Z.eqb status) expected
      then match body with
           | Some b => Ok b
           | None => Raise RuntimeError_json
           end
      else Raise (RuntimeError_status status)
  end.

(** What happens to one request on its way to the remote bin. *)
Inductive NetEvent : Type :=
  | Delivered                 (* served, the response arrives *)
  | Dropped                   (* never reaches the server: RequestException *)
  | ReplyLost                 (* served, the response does not arrive *)
  | Rejected (code : Z).      (* not served: this status, no JSON body *)

Module JsonBinClient.

(** The bin on the server, and what the network does to the requests to
    come (an empty list: every request is delivered). *)
Record world : Type := mk { bin : Document; net : list NetEvent }.

Inductive Method : Type := GET | PUT (payload : Document).

Definition serve (m : Method) (bin : Document) : Document :=
  match m with
  | GET => bin
  | PUT payload => payload
  end.

(** [BaseHTTPClient.request] against the bin: the server answers a GET
    with the document (header X-Bin-Meta: false) and a PUT with status
    200 and a JSON record. *)
Definition request (m : Method) : M world (Response Document) :=
  fun w =>
    let (event, rest) := match net w with
                         | [] => (Delivered, [])
                         | e :: l => (e, l)
                         end in
    match event with
    | Delivered =>
        (Ok (mkResponse 200 (Some (serve m (bin w)))), mk (serve m (bin w)) rest)
    | Dropped => (Raise RuntimeError_request, mk (bin w) rest)
    | ReplyLost => (Raise RuntimeError_request, mk (serve m (bin w)) rest)
    | Rejected code => (Ok (mkResponse code None), mk (bin w) rest)
    end.

(** [tasks] of the document is a list by its type: the type check of
    [fetch_payload] never fails here. *)
Definition fetch_payload : M world Document :=
  (resp <- request GET ;;
   data <- lift (json resp [200]) ;;
   ret data)%py.

Definition push_payload (payload : Document) : M world unit :=
  (resp <- request (PUT payload) ;;
   _ <- lift (json resp [200; 201]) ;;
   ret tt)%py.

End JsonBinClient.

(** ** The remote store *)

Module RemoteTaskStore.

Import JsonBinClient.

Definition task_of_item (item : Item) : Result Task.t :=
  rbind (TaskStatus_of (item_status item)) (fun status =>
  Ok (Task.init (item_id item) (item_title item) status (item_notes item))).

Definition get_all : M world (list Task.t) :=
  (payload <- fetch_payload ;;
   lift (rmap task_of_item (get_tasks payload)))%py.

Definition with_tasks (payload : Document) (l : list Item) : Document :=
  mkDocument (schema_version payload) (Some l).

Definition create_task (title : string) (status : TaskStatus) : M world Task.t :=
  (payload <- fetch_payload ;;
   tasks_raw <- lift (index_tasks payload) ;;
   let new_id := next_free_id (map item_id tasks_raw) in
   let task := Task.init new_id title status None in
   let item := mkItem (Task.id task) (Task.title task)
                 (value (Task.status task)) None in
   push_payload (with_tasks payload (tasks_raw ++ [item])) ;;;
   ret task)%py.

Definition update_task (id : Z) (title : option string)
    (status : option TaskStatus) (notes : option string) : M world Task.t :=
  (payload <- fetch_payload ;;
   tasks_raw <- lift (index_tasks payload) ;;
   match find_index (fun t => item_id t =? id) tasks_raw with
   | None => raise ValueError_id_not_found
   | Some (i, task) =>
       obj <- lift (task_of_item task) ;;
       let setters : M Task.t unit :=
         (when_given title Task.rename_title ;;;
          when_given status (fun s => Task.change_status (AStatus s)))%py in
       match setters obj with
       | (Raise e, _) => raise e
       | (Ok _, obj) =>
           let obj := match notes with
                      | Some n => Task.set_notes obj (Some n)
                      | None => obj
                      end in
           let task := match notes with
                       | Some _ => mkItem (item_id task) (item_title task)
                                     (item_status task) (Task.notes obj)
                       | None => task
                       end in
           let task := mkItem (item_id task) (Task.title obj)
                         (value (Task.status obj)) (item_notes task) in
           push_payload (with_tasks payload (set_nth i task tasks_raw)) ;;;
           ret obj
       end
   end)%py.

Definition delete_task (id : Z) : M world unit :=
  (payload <- fetch_payload ;;
   tasks_raw <- lift (index_tasks payload) ;;
   match find_index (fun t => item_id t =? id) tasks_raw with
   | Some (index, _) =>
       push_payload (with_tasks payload (pop index tasks_raw))
   | None => raise ValueError_id_not_found
   end)%py.

End RemoteTaskStore.

(** ** The AI client *)

(** A value of [resp.json()].  Numbers are integers here. *)
#[local] Unset Elimination Schemes.
Inductive Json : Type :=
  | JNull
  | JBool (b : bool)
  | JNumber (n : Z)
  | JString (s : string)
  | JArray (l : list Json)
  | JObject (members : list (string * Json)).
#[local] Set Elimination Schemes.

(** [d.get(key)] on the members of an object. *)
Fixpoint member (key : string) (members : list (string * Json)) : option Json :=
  match members with
  | [] => None
  | (k, v) :: l => if String.eqb k key then Some v else member key l
  end.

Module CloudflareAIClient.

(** What the POST of a prompt comes back with: a response, or [None] for
    a [RequestException]. *)
Record t : Type := mk { post : string -> option (Response Json) }.

Section Str.

(** The builtin [str] on a JSON value. *)
Variable str : Json -> string.

(** A function that ends without [return] returns [None]. *)
Definition generate_plan (self : t) (prompt : string)
    : Result (option string) :=
  rbind (match post self prompt with
         | Some resp => Ok resp
         | None => Raise RuntimeError_request
         end) (fun resp =>
  rbind (json resp [200]) (fun data =>
  match data with
  | JObject members =>
      let result := match member "result" members with
                    | Some r => r
                    | None => JObject []
                    end in
      match result with
      | JObject fields =>
          match member "response" fields with
          | Some response => Ok (Some (strip (str response)))
          | None => Ok None
          end
      | _ => Ok None
      end
  | _ => Raise AttributeError
  end)).

End Str.

End CloudflareAIClient.

(** ** The enrichment service *)

Module TaskService.

Import JsonBinClient.

(** The text is kept as the bytes of its UTF-8 encoding. *)
Definition _build_prompt (title : string) : string :=
  ("Ты — сеньор-наставник по продуктивности. Задача: '" ++ title ++ "'.")%string.

Section Str.

Variable str : Json -> string.

(** [if plan:] holds for a non-empty string only.  The handler prints
    the exception and goes on. *)
Definition create_task_and_enrich (ai : CloudflareAIClient.t)
    (title : string) (status : TaskStatus) : M world Task.t :=
  (task <- RemoteTaskStore.create_task title status ;;
   try_except
     (plan <- lift (CloudflareAIClient.generate_plan str ai
                      (_build_prompt title)) ;;
      match plan with
      | Some p =>
          if truthy p
          then RemoteTaskStore.update_task (Task.id task) None None (Some p) ;;;
               ret (Task.set_notes task (Some p))
          else ret task
      | None => ret task
      end)
     (fun _ => ret task))%py.

End Str.

End TaskService.

(** ** URLs and headers of the HTTP clients *)

(** [c in chars] *)
Fixpoint char_in (c : ascii) (chars : string) : bool :=
  match chars with
  | EmptyString => false
  | String d chars' => Ascii.eqb c d || char_in c chars'
  end.

(** [s.lstrip(chars)] and [s.rstrip(chars)]: the characters of [chars] are
    removed at one end. *)
Fixpoint lstrip_chars (chars s : string) : string :=
  match s with
  | EmptyString => EmptyString
  | String c s' => if char_in c chars then lstrip_chars chars s' else s
  end.

Fixpoint rstrip_chars (chars s : string) : string :=
  match s with
  | EmptyString => EmptyString
  | String c s' =>
      match rstrip_chars chars s' with
      | EmptyString =>
          if char_in c chars then EmptyString else String c EmptyString
      | r => String c r
      end
  end.

(** [s.startswith(p)] *)
Definition startswith (s p : string) : bool := String.prefix p s.

(** A [dict[str, str]], its keys in insertion order. *)
Definition headers : Type := list (string * string).

Fixpoint headers_get (k : string) (d : headers) : option string :=
  match d with
  | [] => None
  | (k', v) :: d' => if String.eqb k' k then Some v else headers_get k d'
  end.

Fixpoint headers_set (k v : string) (d : headers) : headers :=
  match d with
  | [] => [(k, v)]
  | (k', v') :: d' =>
      if String.eqb k' k then (k', v) :: d' else (k', v') :: headers_set k v d'
  end.

Module BaseHTTPClient.

(** [__init__]; the timeout is left out. *)
Record t : Type := mk { base_url : string }.

Definition init (base_url : string) : t := mk (rstrip_chars "/" base_url).

Definition _url (self : t) (path : string) : string :=
  if negb (truthy path) then base_url self
  else if startswith path "http://" || startswith path "https://" then path
  else (base_url self ++ "/" ++ lstrip_chars "/" path)%string.

(** [{**self.auth_headers(), **(headers or {})}] in [request]: the entries
    of the second dict are set one after the other in a copy of the
    first. *)
Definition merged_headers (auth : headers) (extra : option headers) : headers :=
  fold_left (fun d kv => headers_set (fst kv) (snd kv) d)
    (match extra with Some h => h | None => [] end) auth.

End BaseHTTPClient.

(** The url and the headers of the requests of [JsonBinClient]. *)
Module JsonBinRequests.

Definition auth_headers (master_key : string) : headers :=
  [("X-Master-Key", master_key); ("Content-Type", "application/json")].

(** [fetch_payload] *)
Definition fetch_url (self : BaseHTTPClient.t) (bin_id : string) : string :=
  BaseHTTPClient._url self ("b/" ++ bin_id ++ "/latest")%string.

Definition fetch_headers (master_key : string) : headers :=
  BaseHTTPClient.merged_headers (auth_headers master_key)
    (Some [("X-Bin-Meta", "false")]).

(** [push_payload] *)
Definition push_url (self : BaseHTTPClient.t) (bin_id : string) : string :=
  BaseHTTPClient._url self ("b/" ++ bin_id)%string.

Definition push_headers (master_key : string) : headers :=
  BaseHTTPClient.merged_headers (auth_headers master_key) None.

End JsonBinRequests.

(** The url and the headers of the request of [CloudflareAIClient]. *)
Module CloudflareRequests.

Definition auth_headers (api_token : string) : headers :=
  [("Authorization", ("Bearer " ++ api_token)%string);
   ("Content-Type", "application/json")].

(** [generate_plan] *)
Definition generate_plan_url (self : BaseHTTPClient.t) : string :=
  BaseHTTPClient._url self "".

Definition generate_plan_headers (api_token : string) : headers :=
  BaseHTTPClient.merged_headers (auth_headers api_token) None.

End CloudflareRequests.

(** ** The schemas and the endpoints ([schemas.py], [main.py])

    A pydantic model keeps the fields it declares: [TaskScheme] declares
    no [notes], so the [notes] that [task_out] passes are dropped.  The
    endpoints are given bodies that have passed the validation of
    [TaskCreate] and [TaskUpdate]; an exception that an endpoint does not
    catch is its outcome (the framework answers with status 500). *)

Module TaskScheme.
Record t : Type := mk { id : Z; title : string; status : TaskStatus }.
End TaskScheme.

Module TaskCreate.
Record t : Type := mk { title : string; status : TaskStatus }.
End TaskCreate.

Module TaskUpdate.
Record t : Type := mk {
  title : option string;
  status : option TaskStatus;
  notes : option string
}.
End TaskUpdate.

Module main.

Definition task_out (task : Task.t) : TaskScheme.t :=
  TaskScheme.mk (Task.id task) (Task.title task) (Task.status task).

Section Str.

Variable str : Json -> string.

(** The store ([tracker]) is the remote store, the service works on it
    with the AI client [cf]. *)
Definition get_tasks : M JsonBinClient.world (list TaskScheme.t) :=
  (tasks <- RemoteTaskStore.get_all ;;
   ret (map task_out tasks))%py.

Definition create_task (cf : CloudflareAIClient.t) (payload : TaskCreate.t)
    : M JsonBinClient.world TaskScheme.t :=
  (task <- TaskService.create_task_and_enrich str cf
             (TaskCreate.title payload) (TaskCreate.status payload) ;;
   ret (task_out task))%py.

Definition update_task (task_id : Z) (payload : TaskUpdate.t)
    : M JsonBinClient.world TaskScheme.t :=
  (task <- RemoteTaskStore.update_task task_id (TaskUpdate.title payload)
             (TaskUpdate.status payload) (TaskUpdate.notes payload) ;;
   ret (task_out task))%py.

Definition delete_task (task_id : Z) : M JsonBinClient.world unit :=
  (RemoteTaskStore.delete_task task_id ;;;
   ret tt)%py.

End Str.

End main.

(** * Vocabulary of the properties *)

(** A stripped string is empty or starts with a character that is not a
    space. *)
Definition head_ok (s : string) : bool :=
  match s with
  | EmptyString => true
  | String c _ => negb (isspace c)
  end.

(** The bounds of a title, as [rename_title] checks them. *)
Definition title_ok (s : string) : Prop := 1 <= len s <= 50.

(** The invariant of a task: its title is trimmed and within bounds (its
    status is a member of the enum by its type). *)
Definition valid (t : Task.t) : Prop :=
  strip (Task.title t) = Task.title t /\ title_ok (Task.title t).

(** What [FileTaskStore.get_all] makes of a task that is written and read
    again: the title stripped once more, no notes. *)
Definition norm (t : Task.t) : Task.t :=
  Task.init (Task.id t) (Task.title t) (Task.status t) None.

(** The lists the file store works on: every task as [get_all] builds it,
    in ascending order of id. *)
Definition normal (l : list Task.t) : Prop :=
  Forall (fun t => norm t = t) l /\ Sorted Z.le (map Task.id l).

(** The file that [dump_all tasks] leaves. *)
Definition written (tasks : list Task.t) : FileTaskStore.file :=
  Some (mkDocument (Some 1) (Some (map FileTaskStore.item_of_task tasks))).

(** The two conditional setters of [update_task] in the file and the remote
    store, and what they make of a task when they do not raise. *)
Definition setters (title : option string) (status : option TaskStatus)
    : M Task.t unit :=
  (when_given title Task.rename_title ;;;
   when_given status (fun s => Task.change_status (AStatus s)))%py.

Definition updated (title : option string) (status : option TaskStatus)
    (t : Task.t) : Task.t :=
  let t1 := match title with
            | Some n => Task.set_title t (strip n)
            | None => t
            end in
  match status with
  | Some s => Task.set_status t1 s
  | None => t1
  end.

(** A title that is given is within bounds once stripped. *)
Definition title_arg_ok (title : option string) : Prop :=
  match title with
  | Some n => title_ok (strip n)
  | None => True
  end.

(** The in-memory store treats an empty title as no title: [if title:]. *)
Definition given (title : option string) : option string :=
  match title with
  | Some n => if truthy n then Some n else None
  | None => None
  end.

(** The calls on the in-memory store, and the states it can be in. *)
Inductive call : Type :=
  | Create (title : string) (status : TaskStatus)
  | Update (id : Z) (title : option string) (status : option TaskStatus)
  | Delete (id : Z).

Definition exec (c : call) (s : TaskStore.t) : TaskStore.t :=
  match c with
  | Create title status => snd (TaskStore.create_task title status s)
  | Update id title status => snd (TaskStore.update_task id title status s)
  | Delete id => snd (TaskStore.delete_task id s)
  end.

Inductive reachable : TaskStore.t -> Prop :=
  | reach_init : reachable TaskStore.init
  | reach_call c s : reachable s -> reachable (exec c s).

(** The next [n] requests to the bin are delivered. *)
Fixpoint reliable (n : nat) (net : list NetEvent) : bool :=
  match n, net with
  | O, _ => true
  | S _, [] => true
  | S n', Delivered :: rest => reliable n' rest
  | S _, _ :: _ => false
  end.

(** The task object [RemoteTaskStore.update_task] builds from the item it
    found, and the item it leaves in the payload. *)
Definition remote_obj (title : option string) (status : option TaskStatus)
    (notes : option string) (it : Item) (st : TaskStatus) : Task.t :=
  let obj := updated title status
               (Task.init (item_id it) (item_title it) st (item_notes it)) in
  match notes with
  | Some n => Task.set_notes obj (Some n)
  | None => obj
  end.

Definition remote_item (title : option string) (status : option TaskStatus)
    (notes : option string) (it : Item) (st : TaskStatus) : Item :=
  let obj := remote_obj title status notes it st in
  mkItem (item_id it) (Task.title obj) (value (Task.status obj)) (Task.notes obj).

(** The item [RemoteTaskStore.create_task] appends. *)
Definition new_item (t : Task.t) : Item :=
  mkItem (Task.id t) (Task.title t) (value (Task.status t)) None.

(** A value of the ["result"] field that gives no plan: not an object, or
    an object without ["response"]. *)
Definition lacks_response (result : Json) : Prop :=
  match result with
  | JObject fields => member "response" fields = None
  | _ => True
  end.

(** The store holds the task: an item with its id, title and status. *)
Definition holds (d : Document) (t : Task.t) : Prop :=
  exists item,
    In item (get_tasks d) /\ item_id item = Task.id t /\
    item_title item = Task.title t /\ item_status item = value (Task.status t).

(** ** Example data *)

(** A hand-written file: no schema version, ids out of order, a title with
    spaces around it. *)
Definition example_file : FileTaskStore.file :=
  Some (mkDocument None
          (Some [mkItem 2 " Learn Go " "done" None;
                 mkItem 1 "Buy milk" "todo" None])).

Definition example_tasks : list Task.t :=
  [Task.mk 1 "Buy milk" TODO None; Task.mk 2 "Learn Go" DONE None].

(** A bin with two tasks, and a network that delivers. *)
Definition example_items : list Item :=
  [mkItem 1 "Buy milk" "todo" None; mkItem 2 "Learn Go" "done" (Some "plan")].

Definition example_world : JsonBinClient.world :=
  JsonBinClient.mk (mkDocument (Some 1) (Some example_items)) [].

(** An in-memory store after two calls of [create_task]. *)
Definition example_store : TaskStore.t :=
  exec (Create "Learn Go" DONE) (exec (Create "Buy milk" TODO) TaskStore.init).

(** The file after three tasks were created in an empty document and the
    second was deleted: it holds the ids 1 and 3. *)
Definition gap_file : FileTaskStore.file :=
  snd ((FileTaskStore.create_task "a" TODO ;;;
        FileTaskStore.create_task "b" TODO ;;;
        FileTaskStore.create_task "c" TODO ;;;
        FileTaskStore.delete_task 2)%py (written [])).

(** An AI endpoint that answers every prompt with status 200 and this
    body, and one that cannot be reached. *)
Definition ai_answers (body : Json) : CloudflareAIClient.t :=
  CloudflareAIClient.mk (fun _ => Some (mkResponse 200 (Some body))).

Definition ai_down : CloudflareAIClient.t :=
  CloudflareAIClient.mk (fun _ => None).

(** A stand-in for the builtin [str]: exact on strings. *)
Definition example_str (j : Json) : string :=
  match j with
  | JString s => s
  | JNull => "None"
  | JBool true => "True"
  | JBool false => "False"
  | _ => "?"
  end.

(** ** Further vocabulary *)

(** The states of the in-memory store that calls lead to from [s0]. *)
Inductive reaches (s0 : TaskStore.t) : TaskStore.t -> Prop :=
  | reaches_here : reaches s0 s0
  | reaches_call c s : reaches s0 s -> reaches s0 (exec c s).

(** The keys of a dict, in its order. *)
Definition keys (d : dict) : list Z := map fst d.

(** A file with an item whose status is no member of the enum. *)
Definition bad_status_file : FileTaskStore.file :=
  Some (mkDocument (Some 1)
          (Some [mkItem 1 "Buy milk" "todo" None;
                 mkItem 2 "Learn Go" "doing" None])).

(** A file that holds the id 2 twice. *)
Definition twin_file : FileTaskStore.file :=
  written [Task.mk 1 "a" TODO None; Task.mk 2 "b" TODO None;
           Task.mk 2 "c" DONE None; Task.mk 3 "d" TODO None].

(** A bin whose document has no ["tasks"] key. *)
Definition keyless_world : JsonBinClient.world :=
  JsonBinClient.mk (mkDocument (Some 1) None) [].

(** ** The API as a whole *)

(** An item, a document and a world with the notes left out: what is left
    is all that [TaskScheme] can show. *)
Definition forget_item (i : Item) : Item :=
  mkItem (item_id i) (item_title i) (item_status i) None.

Definition forget_notes (d : Document) : Document :=
  mkDocument (schema_version d) (option_map (map forget_item) (doc_tasks d)).

Definition hide_notes (w : JsonBinClient.world) : JsonBinClient.world :=
  JsonBinClient.mk (forget_notes (JsonBinClient.bin w)) (JsonBinClient.net w).

(** Two worlds that differ in the stored notes at most. *)
Definition same_visible (w1 w2 : JsonBinClient.world) : Prop :=
  hide_notes w1 = hide_notes w2.

(** Two outcomes of computations on the bin: both return, values related
    by [Q], or both raise the same exception, and the worlds they leave
    differ in the stored notes at most. *)
Definition same_outcome {A B} (Q : A -> B -> Prop)
    (o1 : Result A * JsonBinClient.world)
    (o2 : Result B * JsonBinClient.world) : Prop :=
  same_visible (snd o1) (snd o2) /\
  match fst o1, fst o2 with
  | Ok a, Ok b => Q a b
  | Raise e1, Raise e2 => e1 = e2
  | _, _ => False
  end.

Definition sim {A B} (Q : A -> B -> Prop)
    (c1 : M JsonBinClient.world A) (c2 : M JsonBinClient.world B) : Prop :=
  forall w1 w2, same_visible w1 w2 -> same_outcome Q (c1 w1) (c2 w2).

(** A computation that keeps a property of the world. *)
Definition keeps {A} (P : JsonBinClient.world -> Prop)
    (c : M JsonBinClient.world A) : Prop :=
  forall w, P w -> P (snd (c w)).

(** A request to the API.  A POST carries the AI endpoint as it behaves
    while the request is served. *)
Inductive Call : Type :=
  | CGet
  | CPost (cf : CloudflareAIClient.t) (payload : TaskCreate.t)
  | CPut (task_id : Z) (payload : TaskUpdate.t)
  | CDelete (task_id : Z).

(** What the client gets: the body of the response, or the exception that
    the endpoint lets through. *)
Inductive Answer : Type :=
  | ATasks (l : list TaskScheme.t)
  | ATask (t : TaskScheme.t)
  | ANull
  | AError (e : Exception).

Definition answered {A} (f : A -> Answer) (o : Result A * JsonBinClient.world)
    : Answer * JsonBinClient.world :=
  match o with
  | (Ok a, w) => (f a, w)
  | (Raise e, w) => (AError e, w)
  end.

(** The call without the notes of its body, and without an AI endpoint
    that can be reached. *)
Definition without_notes (c : Call) : Call :=
  match c with
  | CPut task_id payload =>
      CPut task_id
        (TaskUpdate.mk (TaskUpdate.title payload) (TaskUpdate.status payload)
           None)
  | _ => c
  end.

Definition without_ai (c : Call) : Call :=
  match c with
  | CPost _ payload => CPost ai_down payload
  | _ => c
  end.

Section Serve.

Variable str : Json -> string.

(** The app serves one request, and a sequence of requests one after the
    other. *)
Definition serve_call (c : Call) (w : JsonBinClient.world)
    : Answer * JsonBinClient.world :=
  match c with
  | CGet => answered ATasks (main.get_tasks w)
  | CPost cf payload => answered ATask (main.create_task str cf payload w)
  | CPut task_id payload => answered ATask (main.update_task task_id payload w)
  | CDelete task_id => answered (fun _ => ANull) (main.delete_task task_id w)
  end.

Fixpoint serve_all (cs : list Call) (w : JsonBinClient.world) : list Answer :=
  match cs with
  | [] => []
  | c :: cs' => let (a, w') := serve_call c w in a :: serve_all cs' w'
  end.

End Serve.

(** The bin of [example_world] with other notes. *)
Definition noted_world : JsonBinClient.world :=
  JsonBinClient.mk
    (mkDocument (Some 1)
       (Some [mkItem 1 "Buy milk" "todo" (Some "today");
              mkItem 2 "Learn Go" "done" None]))
    [].

(** * Properties *)

(** ** The code at small inputs *)

Example strip_example : strip "  Learn  Go  " = "Learn  Go".
Proof. reflexivity. Qed.

Example rename_title_blank :
  Task.rename_title " " (Task.mk 1 "Learn Go" TODO None)
  = (Raise ValueError_title, Task.mk 1 "Learn Go" TODO None).
Proof. reflexivity. Qed.

Example rename_title_51 :
  Task.rename_title "123456789012345678901234567890123456789012345678901"
    (Task.mk 1 "Learn Go" TODO None)
  = (Raise ValueError_title, Task.mk 1 "Learn Go" TODO None).
Proof. reflexivity. Qed.

Example rename_title_50 :
  Task.rename_title "12345678901234567890123456789012345678901234567890"
    (Task.mk 1 "Learn Go" TODO None)
  = (Ok tt,
     Task.mk 1 "12345678901234567890123456789012345678901234567890" TODO None).
Proof. reflexivity. Qed.

(** The in-memory counter goes on after a delete. *)
Example mem_ids_not_reused :
  fst ((TaskStore.create_task "a" TODO ;;;
        TaskStore.delete_task 1 ;;;
        TaskStore.create_task "b" TODO)%py TaskStore.init)
  = Ok (Task.mk 2 "b" TODO None).
Proof. reflexivity. Qed.

(** The loop of [FileTaskStore.delete_task] skips the element that follows
    a removed one: of two neighbours with the id, the second stays. *)
Example delete_loop_skips :
  FileTaskStore.delete_loop 4 1 0
    [Task.mk 1 "a" TODO None; Task.mk 1 "b" TODO None; Task.mk 2 "c" TODO None]
  = [Task.mk 1 "b" TODO None; Task.mk 2 "c" TODO None].
Proof. reflexivity. Qed.

(** A PUT whose response is lost has replaced the bin all the same. *)
Example update_reply_lost :
  RemoteTaskStore.update_task 1 None (Some DONE) None
    (JsonBinClient.mk (mkDocument (Some 1) (Some [mkItem 1 "a" "todo" None]))
       [Delivered; ReplyLost])
  = (Raise RuntimeError_request,
     JsonBinClient.mk (mkDocument (Some 1) (Some [mkItem 1 "a" "done" None]))
       []).
Proof. reflexivity. Qed.

(** A body that is not an object makes [generate_plan] raise. *)
Example generate_plan_array :
  CloudflareAIClient.generate_plan example_str (ai_answers (JArray [])) "p"
  = Raise AttributeError.
Proof. reflexivity. Qed.

(** ** Strings *)

Lemma lstrip_head_ok (s : string) : head_ok (lstrip s) = true.
Proof.
  induction s as [|c s IH]; simpl; [reflexivity|].
  destruct (isspace c) eqn:E; [exact IH|].
  simpl. now rewrite E.
Qed.

Lemma lstrip_fixed (s : string) : head_ok s = true -> lstrip s = s.
Proof.
  destruct s as [|c s]; simpl; [reflexivity|].
  now destruct (isspace c).
Qed.

Lemma rstrip_head_ok (s : string) : head_ok s = true -> head_ok (rstrip s) = true.
Proof.
  destruct s as [|c s]; simpl; [reflexivity|].
  intros H. destruct (rstrip s); simpl.
  - destruct (isspace c) eqn:E; [discriminate|]. simpl. now rewrite E.
  - exact H.
Qed.

Lemma rstrip_idem (s : string) : rstrip (rstrip s) = rstrip s.
Proof.
  induction s as [|c s IH]; simpl; [reflexivity|].
  destruct (rstrip s) as [|d r] eqn:E.
  - destruct (isspace c) eqn:Ec; simpl; [reflexivity|]. now rewrite Ec.
  - change (rstrip (String c (String d r))) with
      (match rstrip (String d r) with
       | EmptyString => if isspace c then EmptyString else String c EmptyString
       | r' => String c r'
       end).
    now rewrite IH.
Qed.

Lemma strip_head_ok (s : string) : head_ok (strip s) = true.
Proof. apply rstrip_head_ok, lstrip_head_ok. Qed.

Lemma strip_idem (s : string) : strip (strip s) = strip s.
Proof.
  unfold strip at 1.
  rewrite (lstrip_fixed (strip s)) by apply strip_head_ok.
  apply rstrip_idem.
Qed.

(** ** The status enum *)

Lemma TaskStatus_of_value (s : TaskStatus) : TaskStatus_of (value s) = Ok s.
Proof. now destruct s. Qed.

Lemma value_TaskStatus_of (x : string) (s : TaskStatus) :
  TaskStatus_of x = Ok s -> value s = x.
Proof.
  unfold TaskStatus_of.
  destruct (String.eqb x "todo") eqn:E1;
    [apply String.eqb_eq in E1; intros [= <-]; now subst|].
  destruct (String.eqb x "in_progress") eqn:E2;
    [apply String.eqb_eq in E2; intros [= <-]; now subst|].
  destruct (String.eqb x "done") eqn:E3;
    [apply String.eqb_eq in E3; intros [= <-]; now subst|].
  discriminate.
Qed.

(** ** The task *)

Lemma rename_title_raises (t : Task.t) (new_title : string) :
  strip new_title = "" \/ 50 < len (strip new_title) ->
  Task.rename_title new_title t = (Raise ValueError_title, t).
Proof.
  intros H. unfold Task.rename_title.
  destruct H as [H|H].
  - rewrite H. reflexivity.
  - apply Z.ltb_lt in H. rewrite H, orb_true_r. reflexivity.
Qed.

Lemma rename_title_returns (t : Task.t) (new_title : string) :
  title_ok (strip new_title) ->
  Task.rename_title new_title t = (Ok tt, Task.set_title t (strip new_title)).
Proof.
  intros [H1 H2]. unfold Task.rename_title.
  destruct (strip new_title) as [|c r] eqn:E.
  - unfold len in H1. simpl in H1. lia.
  - simpl truthy. simpl negb. rewrite orb_false_l.
    destruct (50 <? len (String c r)) eqn:E'; [|reflexivity].
    apply Z.ltb_lt in E'. lia.
Qed.

Lemma title_ok_dec (s : string) :
  title_ok s \/ (s = "" \/ 50 < len s).
Proof.
  unfold title_ok. destruct s as [|c r].
  - right. now left.
  - assert (1 <= len (String c r)) by (unfold len; simpl; lia).
    destruct (Z_le_gt_dec (len (String c r)) 50); [left|right; right]; lia.
Qed.

(** ** Lists *)

Ltac run :=
  unfold bind, ret, raise, lift, put_state, try_except,
    when_given in *.

Lemma fold_left_max_ge (l : list Z) (a : Z) :
  a <= fold_left Z.max l a /\ forall x, In x l -> x <= fold_left Z.max l a.
Proof.
  revert a. induction l as [|b l IH]; intros a; simpl.
  - split; [lia|]. intros x [].
  - destruct (IH (Z.max a b)) as [H1 H2]. split; [lia|].
    intros x [<-|H]; [lia|]. now apply H2.
Qed.

Lemma next_free_id_gt (ids : list Z) (x : Z) :
  In x ids -> x < next_free_id ids.
Proof.
  destruct ids as [|a l]; simpl; [intros []|].
  destruct (fold_left_max_ge l a) as [H1 H2].
  intros [<-|H]; [lia|]. specialize (H2 _ H). lia.
Qed.

Lemma find_index_none {A} (p : A -> bool) (l : list A) :
  find_index p l = None <-> forall x, In x l -> p x = false.
Proof.
  induction l as [|a l IH]; simpl.
  - split; [intros _ x []|reflexivity].
  - destruct (p a) eqn:E.
    + split; [discriminate|]. intros H. specialize (H a (or_introl eq_refl)).
      congruence.
    + destruct (find_index p l) as [[i y]|].
      * split; [discriminate|]. intros H.
        assert (Some (i, y) = None) by (apply IH; intros x Hx; apply H; now right).
        discriminate.
      * split; [|reflexivity]. intros _ x [<-|Hx]; [exact E|].
        now apply (proj1 IH).
Qed.

Lemma find_index_some {A} (p : A -> bool) (l : list A) (i : nat) (x : A) :
  find_index p l = Some (i, x) ->
  nth_error l i = Some x /\ p x = true /\
  forall j y, (j < i)%nat -> nth_error l j = Some y -> p y = false.
Proof.
  revert i. induction l as [|a l IH]; intros i; simpl; [discriminate|].
  destruct (p a) eqn:E.
  - intros [= <- <-]. repeat split; [exact E|]. intros j y Hj. lia.
  - destruct (find_index p l) as [[i' y']|]; [|discriminate].
    intros [= <- <-]. destruct (IH _ eq_refl) as (H1 & H2 & H3).
    repeat split; [exact H1|exact H2|].
    intros [|j] y Hj; simpl; [now intros [= <-]|].
    apply H3. lia.
Qed.

Lemma find_index_app {A} (p : A -> bool) (l1 l2 : list A) (x : A) :
  (forall y, In y l1 -> p y = false) -> p x = true ->
  find_index p (l1 ++ x :: l2) = Some (List.length l1, x).
Proof.
  intros H Hx. induction l1 as [|a l1 IH]; simpl.
  - now rewrite Hx.
  - rewrite (H a (or_introl eq_refl)).
    rewrite IH; [reflexivity|]. intros y Hy. apply H. now right.
Qed.

Lemma pop_app {A} (l1 l2 : list A) (x : A) :
  pop (List.length l1) (l1 ++ x :: l2) = l1 ++ l2.
Proof. induction l1 as [|a l1 IH]; simpl; [reflexivity|]. now rewrite IH. Qed.

Lemma set_nth_app {A} (l1 l2 : list A) (x y : A) :
  set_nth (List.length l1) y (l1 ++ x :: l2) = l1 ++ y :: l2.
Proof. induction l1 as [|a l1 IH]; simpl; [reflexivity|]. now rewrite IH. Qed.

Lemma Forall_pop {A} (P : A -> Prop) (i : nat) (l : list A) :
  Forall P l -> Forall P (pop i l).
Proof.
  revert i. induction l as [|a l IH]; intros i H; simpl; [constructor|].
  inversion H; subst. destruct i; [assumption|]. constructor; auto.
Qed.

Lemma Forall_set_nth {A} (P : A -> Prop) (i : nat) (x : A) (l : list A) :
  P x -> Forall P l -> Forall P (set_nth i x l).
Proof.
  revert i. induction l as [|a l IH]; intros i Hx H; simpl; [constructor|].
  inversion H; subst. destruct i; constructor; auto.
Qed.

(** ** Sorting *)

Lemma insert_by_id_HdRel (a : Z) (t : Task.t) (l : list Task.t) :
  a <= Task.id t -> HdRel Z.le a (map Task.id l) ->
  HdRel Z.le a (map Task.id (insert_by_id t l)).
Proof.
  intros Ht H. destruct l as [|u l]; simpl; [now constructor|].
  destruct (Task.id t <=? Task.id u); simpl; constructor; [exact Ht|].
  now inversion H.
Qed.

Lemma insert_by_id_Sorted (t : Task.t) (l : list Task.t) :
  Sorted Z.le (map Task.id l) -> Sorted Z.le (map Task.id (insert_by_id t l)).
Proof.
  induction l as [|u l IH]; simpl; intros H.
  - repeat constructor.
  - destruct (Task.id t <=? Task.id u) eqn:E; simpl.
    + apply Z.leb_le in E. constructor; [exact H|now constructor].
    + apply Z.leb_gt in E. inversion H; subst.
      constructor; [now apply IH|].
      apply insert_by_id_HdRel; [lia|assumption].
Qed.

Lemma sorted_Sorted (l : list Task.t) : Sorted Z.le (map Task.id (sorted l)).
Proof.
  induction l as [|t l IH]; simpl; [constructor|].
  now apply insert_by_id_Sorted.
Qed.

Lemma sorted_fixed (l : list Task.t) :
  Sorted Z.le (map Task.id l) -> sorted l = l.
Proof.
  induction l as [|t l IH]; simpl; intros H; [reflexivity|].
  inversion H as [|? ? Hs Hh]; subst. rewrite (IH Hs).
  destruct l as [|u l]; simpl; [reflexivity|].
  inversion Hh; subst. now rewrite (proj2 (Z.leb_le _ _)).
Qed.

Lemma insert_by_id_perm (t : Task.t) (l : list Task.t) :
  Permutation (insert_by_id t l) (t :: l).
Proof.
  induction l as [|u l IH]; simpl; [reflexivity|].
  destruct (Task.id t <=? Task.id u); [reflexivity|].
  rewrite IH. apply perm_swap.
Qed.

Lemma sorted_perm (l : list Task.t) : Permutation (sorted l) l.
Proof.
  induction l as [|t l IH]; simpl; [reflexivity|].
  rewrite insert_by_id_perm. now constructor.
Qed.

Lemma sorted_Forall (P : Task.t -> Prop) (l : list Task.t) :
  Forall P l <-> Forall P (sorted l).
Proof.
  split; intros H; eapply Permutation_Forall; try exact H;
    [symmetry|]; apply sorted_perm.
Qed.

(** ** Pure code that raises *)

Lemma rmap_app {A B} (f : A -> Result B) (l1 l2 : list A) (r1 r2 : list B) :
  rmap f l1 = Ok r1 -> rmap f l2 = Ok r2 -> rmap f (l1 ++ l2) = Ok (r1 ++ r2).
Proof.
  revert r1. induction l1 as [|a l1 IH]; simpl; intros r1.
  - now intros [= <-].
  - destruct (f a) as [b|e]; simpl; [|discriminate].
    destruct (rmap f l1) as [r|e]; simpl; [|discriminate].
    intros [= <-] H2. now rewrite (IH r eq_refl H2).
Qed.

Lemma rmap_map {A B C} (f : A -> Result B) (g : C -> A) (h : C -> B)
    (l : list C) :
  (forall x, f (g x) = Ok (h x)) -> rmap f (map g l) = Ok (map h l).
Proof.
  intros H. induction l as [|c l IH]; simpl; [reflexivity|].
  now rewrite H, IH.
Qed.

Lemma rmap_Forall2 {A B} (f : A -> Result B) (l : list A) (r : list B) :
  rmap f l = Ok r <-> Forall2 (fun x y => f x = Ok y) l r.
Proof.
  revert r. induction l as [|a l IH]; simpl; intros r.
  - split; [intros [= <-]; constructor|]. intros H. now inversion H.
  - split.
    + destruct (f a) as [b|e] eqn:E; simpl; [|discriminate].
      destruct (rmap f l) as [r'|e]; simpl; [|discriminate].
      intros [= <-]. constructor; [exact E|]. now apply IH.
    + intros H. inversion H as [|? b ? r' Hb Hr]; subst.
      rewrite Hb. simpl. now rewrite (proj2 (IH r') Hr).
Qed.

Lemma rmap_Forall {A B} (f : A -> Result B) (P : B -> Prop) (l : list A)
    (r : list B) :
  (forall x y, f x = Ok y -> P y) -> rmap f l = Ok r -> Forall P r.
Proof.
  intros H Hr. apply rmap_Forall2 in Hr.
  induction Hr; constructor; eauto.
Qed.

(** ** The setters *)

Lemma setters_ok (title : option string) (status : option TaskStatus)
    (t : Task.t) :
  title_arg_ok title -> setters title status t = (Ok tt, updated title status t).
Proof.
  unfold setters, updated, title_arg_ok. intros H. run.
  destruct title as [n|]; [rewrite (rename_title_returns t n H)|];
    now destruct status.
Qed.

Lemma setters_raise (n : string) (status : option TaskStatus) (t : Task.t) :
  ~ title_ok (strip n) ->
  setters (Some n) status t = (Raise ValueError_title, t).
Proof.
  intros H. unfold setters. run.
  destruct (title_ok_dec (strip n)) as [H'|H']; [contradiction|].
  now rewrite (rename_title_raises t n H').
Qed.

Lemma title_arg_ok_dec (title : option string) :
  title_arg_ok title \/ exists n, title = Some n /\ ~ title_ok (strip n).
Proof.
  destruct title as [n|]; [|now left]. simpl.
  destruct (title_ok_dec (strip n)) as [H|H]; [now left|right].
  exists n. split; [reflexivity|]. unfold title_ok. intros [H1 H2].
  destruct H as [H|H]; [|lia]. rewrite H in H1. unfold len in H1.
  simpl in H1. lia.
Qed.

Lemma updated_id title status t : Task.id (updated title status t) = Task.id t.
Proof. now destruct title, status. Qed.

Lemma updated_notes title status t :
  Task.notes (updated title status t) = Task.notes t.
Proof. now destruct title, status. Qed.

Lemma updated_title_None status t :
  Task.title (updated None status t) = Task.title t.
Proof. now destruct status. Qed.

Lemma updated_title_Some n status t :
  Task.title (updated (Some n) status t) = strip n.
Proof. now destruct status. Qed.

Lemma updated_valid title status t :
  title_arg_ok title -> valid t -> valid (updated title status t).
Proof.
  unfold valid. intros Ha [H1 H2].
  destruct title as [n|]; simpl in Ha.
  - rewrite updated_title_Some. split; [apply strip_idem|exact Ha].
  - rewrite updated_title_None. now split.
Qed.

Lemma norm_fixed_iff (t : Task.t) :
  norm t = t <-> strip (Task.title t) = Task.title t /\ Task.notes t = None.
Proof.
  destruct t as [i ti st no]. unfold norm, Task.init. simpl. split.
  - intros [= H1 H2]. now split.
  - intros [-> ->]. reflexivity.
Qed.

Lemma updated_norm title status t : norm t = t -> norm (updated title status t) = updated title status t.
Proof.
  rewrite !norm_fixed_iff. intros [H1 H2].
  rewrite updated_notes. split; [|exact H2].
  destruct title as [n|].
  - rewrite updated_title_Some. apply strip_idem.
  - now rewrite updated_title_None.
Qed.

Lemma init_norm i ti st : norm (Task.init i ti st None) = Task.init i ti st None.
Proof. apply norm_fixed_iff. split; [apply strip_idem|reflexivity]. Qed.

(** ** The file store *)

Lemma file_task_of_item_norm item t :
  FileTaskStore.task_of_item item = Ok t -> norm t = t.
Proof.
  unfold FileTaskStore.task_of_item.
  destruct (TaskStatus_of (item_status item)); simpl; [|discriminate].
  intros [= <-]. apply init_norm.
Qed.

Lemma file_task_of_item_of_task t :
  FileTaskStore.task_of_item (FileTaskStore.item_of_task t) = Ok (norm t).
Proof.
  unfold FileTaskStore.task_of_item, FileTaskStore.item_of_task. simpl.
  now rewrite TaskStatus_of_value.
Qed.

(** What [get_all] returns is in normal form. *)
Lemma file_get_all_normal f ts f' :
  FileTaskStore.get_all f = (Ok ts, f') -> normal ts.
Proof.
  unfold FileTaskStore.get_all. destruct f as [data|]; [|discriminate].
  destruct (rmap FileTaskStore.task_of_item (get_tasks data)) as [raw|e] eqn:E;
    simpl; [|discriminate].
  intros [= <- _]. split; [|apply sorted_Sorted].
  apply (proj1 (sorted_Forall _ raw)).
  eapply rmap_Forall; [|exact E]. apply file_task_of_item_norm.
Qed.

(** A list in normal form is read back as it was written. *)
Lemma file_get_all_written (l : list Task.t) :
  normal l -> FileTaskStore.get_all (written l) = (Ok l, written l).
Proof.
  intros [Hn Hs]. unfold FileTaskStore.get_all, written, get_tasks. simpl.
  rewrite (rmap_map _ _ norm) by apply file_task_of_item_of_task. simpl.
  assert (map norm l = l) as ->.
  { clear Hs. induction Hn as [|t l Ht _ IH]; simpl; [reflexivity|].
    now rewrite Ht, IH. }
  now rewrite sorted_fixed.
Qed.

Lemma Sorted_snoc (l : list Z) (x : Z) :
  Sorted Z.le l -> (forall y, In y l -> y <= x) -> Sorted Z.le (l ++ [x]).
Proof.
  induction l as [|a l IH]; simpl; intros Hs Hx; [repeat constructor|].
  inversion Hs as [|? ? Hs' Hh]; subst.
  constructor; [apply IH; auto|].
  destruct l as [|b l]; simpl; constructor.
  - apply Hx. now left.
  - now inversion Hh.
Qed.

Lemma normal_snoc (ts : list Task.t) title status :
  normal ts ->
  normal (ts ++ [Task.init (next_free_id (map Task.id ts)) title status None]).
Proof.
  intros [Hn Hs]. split.
  - apply Forall_app. split; [exact Hn|]. constructor; [|constructor].
    apply init_norm.
  - rewrite map_app. simpl. apply Sorted_snoc; [exact Hs|].
    intros y Hy. apply next_free_id_gt in Hy. lia.
Qed.

Lemma map_id_set_nth (i : nat) (t t' : Task.t) (l : list Task.t) :
  nth_error l i = Some t -> Task.id t' = Task.id t ->
  map Task.id (set_nth i t' l) = map Task.id l.
Proof.
  revert i. induction l as [|a l IH]; intros i; simpl; [reflexivity|].
  destruct i; simpl.
  - intros [= ->] ->. reflexivity.
  - intros H1 H2. now rewrite (IH _ H1 H2).
Qed.

Lemma normal_set_nth (i : nat) (t t' : Task.t) (l : list Task.t) :
  nth_error l i = Some t -> Task.id t' = Task.id t -> norm t' = t' ->
  normal l -> normal (set_nth i t' l).
Proof.
  intros Hi Hid Hn [H1 H2]. split.
  - now apply Forall_set_nth.
  - now rewrite (map_id_set_nth i t t' l Hi Hid).
Qed.

Lemma Sorted_pop (i : nat) (l : list Z) :
  Sorted Z.le l -> Sorted Z.le (pop i l).
Proof.
  intros H. apply Sorted_StronglySorted in H; [|intros x y z; apply Z.le_trans].
  apply StronglySorted_Sorted. revert i.
  induction H as [|a l Hs IH Hf]; intros i; simpl; [constructor|].
  destruct i; [exact Hs|]. constructor; [apply IH|].
  now apply Forall_pop.
Qed.

Lemma map_pop {A B} (f : A -> B) (i : nat) (l : list A) :
  map f (pop i l) = pop i (map f l).
Proof.
  revert i. induction l as [|a l IH]; intros i; simpl; [reflexivity|].
  destruct i; simpl; [reflexivity|]. now rewrite IH.
Qed.

Lemma normal_pop (i : nat) (l : list Task.t) : normal l -> normal (pop i l).
Proof.
  intros [H1 H2]. split; [now apply Forall_pop|].
  rewrite map_pop. now apply Sorted_pop.
Qed.

(** The loop of [delete_task] keeps what [pop] keeps. *)
Lemma delete_loop_keeps (P : list Task.t -> Prop) :
  (forall i l, P l -> P (pop i l)) ->
  forall fuel id i l, P l -> P (FileTaskStore.delete_loop fuel id i l).
Proof.
  intros HP fuel id. induction fuel as [|fuel IH]; intros i l H; simpl;
    [exact H|].
  destruct (nth_error l i) as [t|]; [|exact H].
  destruct (Task.id t =? id); apply IH; auto.
Qed.

Lemma length_pop_le {A} (i : nat) (l : list A) :
  (List.length (pop i l) <= List.length l)%nat.
Proof.
  revert i. induction l as [|a l IH]; intros i; simpl; [lia|].
  destruct i; simpl; [lia|]. specialize (IH i). lia.
Qed.

(** The loop ends because the index leaves the list, not because the fuel
    runs out: with the fuel that [delete_task] gives, more fuel changes
    nothing. *)
Lemma delete_loop_enough_fuel (fuel fuel' : nat) (id : Z) (index : nat)
    (l : list Task.t) :
  (List.length l - index < fuel)%nat -> (List.length l - index < fuel')%nat ->
  FileTaskStore.delete_loop fuel id index l
  = FileTaskStore.delete_loop fuel' id index l.
Proof.
  revert fuel' index l.
  induction fuel as [|fuel IH]; intros fuel' index l H1 H2; [lia|].
  destruct fuel' as [|fuel']; [lia|]. simpl.
  destruct (nth_error l index) as [t|] eqn:E; [|reflexivity].
  assert (index < List.length l)%nat as Hi
    by (apply nth_error_Some; congruence).
  pose proof (length_pop_le index l) as Hp.
  destruct (Task.id t =? id); apply IH; lia.
Qed.

(** It changes nothing when the id does not occur from [index] on. *)
Lemma delete_loop_absent (fuel : nat) (id : Z) (index : nat)
    (l : list Task.t) :
  (forall j t, (index <= j)%nat -> nth_error l j = Some t -> Task.id t <> id) ->
  FileTaskStore.delete_loop fuel id index l = l.
Proof.
  revert index. induction fuel as [|fuel IH]; intros index H; simpl;
    [reflexivity|].
  destruct (nth_error l index) as [t|] eqn:E; [|reflexivity].
  destruct (Z.eqb_spec (Task.id t) id) as [He|_].
  - now destruct (H index t (le_n _) E).
  - apply IH. intros j u Hj. apply H. lia.
Qed.

(** It removes the task with this id when there is one such task. *)
Lemma delete_loop_once (id : Z) (l1 l2 : list Task.t) (t : Task.t) :
  Task.id t = id ->
  (forall u, In u (l1 ++ l2) -> Task.id u <> id) ->
  forall fuel index,
    (index <= List.length l1)%nat -> (List.length l1 - index < fuel)%nat ->
    FileTaskStore.delete_loop fuel id index (l1 ++ t :: l2) = l1 ++ l2.
Proof.
  intros Ht Hother. induction fuel as [|fuel IH]; intros index Hi Hf; [lia|].
  simpl. destruct (Nat.eq_dec index (List.length l1)) as [->|Hne].
  - rewrite nth_error_app2, Nat.sub_diag by lia. simpl.
    rewrite Ht, Z.eqb_refl, pop_app.
    apply delete_loop_absent. intros j u _ Hj.
    apply Hother. eapply nth_error_In, Hj.
  - assert (index < List.length l1)%nat as Hlt by lia.
    rewrite nth_error_app1 by exact Hlt.
    destruct (nth_error l1 index) as [u|] eqn:E;
      [|apply nth_error_None in E; lia].
    assert (Task.id u <> id) as Hu.
    { apply Hother, in_or_app. left. eapply nth_error_In, E. }
    apply Z.eqb_neq in Hu. rewrite Hu. apply IH; lia.
Qed.

Lemma file_create_task f ts title status :
  FileTaskStore.get_all f = (Ok ts, f) ->
  let new_task := Task.init (next_free_id (map Task.id ts)) title status None in
  FileTaskStore.create_task title status f
  = (Ok new_task, written (ts ++ [new_task])).
Proof.
  intros H. unfold FileTaskStore.create_task. run. now rewrite H.
Qed.

Lemma file_update_task_missing f ts id title status :
  FileTaskStore.get_all f = (Ok ts, f) ->
  find_index (fun t => Task.id t =? id) ts = None ->
  FileTaskStore.update_task id title status f
  = (Raise ValueError_id_not_found, f).
Proof.
  intros H Hf. unfold FileTaskStore.update_task. run. now rewrite H, Hf.
Qed.

Lemma file_update_task_ok f ts id i t title status :
  FileTaskStore.get_all f = (Ok ts, f) ->
  find_index (fun t => Task.id t =? id) ts = Some (i, t) ->
  title_arg_ok title ->
  FileTaskStore.update_task id title status f
  = (Ok (updated title status t),
     written (set_nth i (updated title status t) ts)).
Proof.
  intros H Hf Ha. unfold FileTaskStore.update_task. unfold bind at 1.
  rewrite H, Hf. fold (setters title status).
  now rewrite (setters_ok title status t Ha).
Qed.

Lemma file_update_task_raise f ts id i t n status :
  FileTaskStore.get_all f = (Ok ts, f) ->
  find_index (fun t => Task.id t =? id) ts = Some (i, t) ->
  ~ title_ok (strip n) ->
  FileTaskStore.update_task id (Some n) status f = (Raise ValueError_title, f).
Proof.
  intros H Hf Ha. unfold FileTaskStore.update_task. unfold bind at 1.
  rewrite H, Hf. fold (setters (Some n) status).
  now rewrite (setters_raise n status t Ha).
Qed.

Lemma file_delete_task f ts id :
  FileTaskStore.get_all f = (Ok ts, f) ->
  FileTaskStore.delete_task id f
  = (Ok tt, written (FileTaskStore.delete_loop (S (List.length ts)) id O ts)).
Proof.
  intros H. unfold FileTaskStore.delete_task. run. now rewrite H.
Qed.

(** ** The in-memory store *)

Lemma dict_get_set_same k v d : dict_get k (dict_set k v d) = Some v.
Proof.
  induction d as [|[k' v'] d IH]; simpl; [now rewrite Z.eqb_refl|].
  destruct (k' =? k) eqn:E; simpl; now rewrite E.
Qed.

Lemma dict_set_same_value k v d : dict_get k d = Some v -> dict_set k v d = d.
Proof.
  induction d as [|[k' v'] d IH]; simpl; [discriminate|].
  destruct (Z.eqb_spec k' k) as [->|H0].
  - now intros [= ->].
  - intros H. now rewrite IH.
Qed.

Lemma dict_get_In k v d : dict_get k d = Some v -> In (k, v) d.
Proof.
  induction d as [|[k' v'] d IH]; simpl; [discriminate|].
  destruct (Z.eqb_spec k' k) as [->|H0]; [intros [= ->]; now left|].
  intros H. right. now apply IH.
Qed.

Lemma dict_set_Forall (P : Z * Task.t -> Prop) k v d :
  P (k, v) -> Forall P d -> Forall P (dict_set k v d).
Proof.
  intros Hv. induction d as [|[k' v'] d IH]; simpl; intros H.
  - now constructor.
  - inversion H; subst.
    destruct (Z.eqb_spec k' k) as [->|H0]; constructor; auto.
Qed.

Lemma dict_del_Forall (P : Z * Task.t -> Prop) k d :
  Forall P d -> Forall P (dict_del k d).
Proof.
  induction d as [|[k' v'] d IH]; simpl; intros H; [constructor|].
  inversion H; subst. destruct (k' =? k); [assumption|]. constructor; auto.
Qed.

Lemma mem_update_task_setters s id title status :
  TaskStore.update_task id title status s
  = match dict_get id (TaskStore.tasks s) with
    | None => (Raise ValueError_id_not_found, s)
    | Some task =>
        match setters (given title) status task with
        | (Ok _, task') =>
            (Ok task',
             TaskStore.mk (dict_set id task' (TaskStore.tasks s))
               (TaskStore.next_id s))
        | (Raise e, task') =>
            (Raise e,
             TaskStore.mk (dict_set id task' (TaskStore.tasks s))
               (TaskStore.next_id s))
        end
    end.
Proof.
  unfold TaskStore.update_task.
  destruct (dict_get id (TaskStore.tasks s)); [|reflexivity].
  destruct title as [n|]; [|reflexivity].
  unfold given. now destruct (truthy n).
Qed.

Lemma mem_update_task_ok s id t title status :
  dict_get id (TaskStore.tasks s) = Some t ->
  title_arg_ok (given title) ->
  TaskStore.update_task id title status s
  = (Ok (updated (given title) status t),
     TaskStore.mk (dict_set id (updated (given title) status t)
                     (TaskStore.tasks s))
       (TaskStore.next_id s)).
Proof.
  intros H Ha. rewrite mem_update_task_setters, H.
  now rewrite (setters_ok _ status t Ha).
Qed.

Lemma mem_update_task_raise s id t n status :
  dict_get id (TaskStore.tasks s) = Some t ->
  truthy n = true -> ~ title_ok (strip n) ->
  TaskStore.update_task id (Some n) status s = (Raise ValueError_title, s).
Proof.
  intros H Hn Ha. rewrite mem_update_task_setters, H.
  unfold given. rewrite Hn, (setters_raise n status t Ha).
  rewrite (dict_set_same_value _ _ _ H). now destruct s.
Qed.

(** Every key of a reachable store is below the counter. *)
Lemma reachable_keys_below (s : TaskStore.t) :
  reachable s ->
  Forall (fun kv => fst kv < TaskStore.next_id s) (TaskStore.tasks s).
Proof.
  induction 1 as [|c s _ IH]; [constructor|].
  destruct c as [title status|id title status|id]; simpl.
  - apply dict_set_Forall; simpl; [lia|].
    eapply Forall_impl; [|exact IH]. simpl. intros kv H. lia.
  - rewrite mem_update_task_setters.
    destruct (dict_get id (TaskStore.tasks s)) as [t|] eqn:E; [|exact IH].
    assert (id < TaskStore.next_id s) as Hid.
    { apply dict_get_In in E.
      exact (proj1 (Forall_forall _ _) IH _ E). }
    match goal with
    | |- context [let (_, _) := ?c in _] => destruct c as [[[]|e] t']
    end; simpl; now apply dict_set_Forall.
  - unfold TaskStore.delete_task.
    destruct (dict_get id (TaskStore.tasks s)); [|exact IH].
    simpl. now apply dict_del_Forall.
Qed.

(** ** The remote bin *)

Lemma reliable_S n net :
  reliable (S n) net = true ->
  reliable n (tl net) = true /\
  (net = [] \/ exists rest, net = Delivered :: rest).
Proof.
  destruct net as [|[| | |code] rest]; simpl; try discriminate.
  - intros _. split; [now destruct n|now left].
  - intros H. split; [exact H|right; now exists rest].
Qed.

Lemma reliable_le n m net :
  (m <= n)%nat -> reliable n net = true -> reliable m net = true.
Proof.
  revert m net. induction n as [|n IH]; intros m net Hm H.
  - now replace m with O by lia.
  - destruct m as [|m]; [reflexivity|].
    destruct net as [|[| | |code] rest]; simpl in *; try discriminate;
      [reflexivity|]. apply IH; [lia|exact H].
Qed.

Lemma fetch_payload_delivered w :
  reliable 1 (JsonBinClient.net w) = true ->
  JsonBinClient.fetch_payload w
  = (Ok (JsonBinClient.bin w),
     JsonBinClient.mk (JsonBinClient.bin w) (tl (JsonBinClient.net w))).
Proof.
  intros H. apply reliable_S in H. destruct H as [_ [H|[rest H]]];
    unfold JsonBinClient.fetch_payload, JsonBinClient.request; run;
    now rewrite H.
Qed.

Lemma push_payload_delivered payload w :
  reliable 1 (JsonBinClient.net w) = true ->
  JsonBinClient.push_payload payload w
  = (Ok tt, JsonBinClient.mk payload (tl (JsonBinClient.net w))).
Proof.
  intros H. apply reliable_S in H. destruct H as [_ [H|[rest H]]];
    unfold JsonBinClient.push_payload, JsonBinClient.request; run;
    now rewrite H.
Qed.

(** A GET never changes the bin, and what it returns is the bin. *)
Lemma fetch_payload_effect w r w' :
  JsonBinClient.fetch_payload w = (r, w') ->
  JsonBinClient.bin w' = JsonBinClient.bin w /\
  JsonBinClient.net w' = tl (JsonBinClient.net w) /\
  (r = Ok (JsonBinClient.bin w) \/
   exists e, r = Raise e /\ is_TransportError e = true).
Proof.
  unfold JsonBinClient.fetch_payload, JsonBinClient.request. run.
  destruct (JsonBinClient.net w) as [|[| | |code] rest]; simpl.
  1-4: intros [= <- <-]; simpl; repeat split; eauto.
  destruct (code =? 200); simpl; intros [= <- <-]; simpl;
    repeat split; eauto.
Qed.

(** A PUT that returns has replaced the bin; one that raises has replaced
    it or left it. *)
Lemma push_payload_effect payload w r w' :
  JsonBinClient.push_payload payload w = (r, w') ->
  JsonBinClient.net w' = tl (JsonBinClient.net w) /\
  ((r = Ok tt /\ JsonBinClient.bin w' = payload) \/
   (exists e, r = Raise e /\ is_TransportError e = true) /\
   (JsonBinClient.bin w' = JsonBinClient.bin w \/
    JsonBinClient.bin w' = payload)).
Proof.
  unfold JsonBinClient.push_payload, JsonBinClient.request. run.
  destruct (JsonBinClient.net w) as [|[| | |code] rest]; simpl.
  1-4: intros [= <- <-]; simpl; split; eauto 6.
  destruct (code =? 200), (code =? 201); simpl; intros [= <- <-]; simpl;
    split; eauto 6.
Qed.

(** ** The remote store *)

Ltac fold_remote_item title status notes it st :=
  match goal with
  | |- context [set_nth _ ?x _] =>
      replace x with (remote_item title status notes it st)
        by (unfold remote_item, remote_obj; destruct notes; simpl;
            [reflexivity|f_equal; now rewrite updated_notes])
  end;
  match goal with
  | |- context [ret ?x] =>
      change x with (remote_obj title status notes it st)
  end.

Lemma remote_update_task_effect id title status notes w r w' :
  RemoteTaskStore.update_task id title status notes w = (r, w') ->
  (JsonBinClient.bin w' = JsonBinClient.bin w /\ exists e, r = Raise e) \/
  exists items i it st,
    doc_tasks (JsonBinClient.bin w) = Some items /\
    find_index (fun t => item_id t =? id) items = Some (i, it) /\
    TaskStatus_of (item_status it) = Ok st /\
    title_arg_ok title /\
    JsonBinClient.bin w'
    = RemoteTaskStore.with_tasks (JsonBinClient.bin w)
        (set_nth i (remote_item title status notes it st) items) /\
    (r = Ok (remote_obj title status notes it st) \/ exists e, r = Raise e).
Proof.
  unfold RemoteTaskStore.update_task. unfold bind at 1.
  destruct (JsonBinClient.fetch_payload w) as [r0 w0] eqn:E0.
  apply fetch_payload_effect in E0 as (Hb0 & Hn0 & Hr0).
  destruct Hr0 as [->|(e & -> & _)]; [|intros [= <- <-]; left; eauto].
  unfold bind at 1. unfold lift, index_tasks.
  destruct (doc_tasks (JsonBinClient.bin w)) as [items|] eqn:Ed;
    [|intros [= <- <-]; left; eauto].
  destruct (find_index (fun t => item_id t =? id) items) as [[i it]|] eqn:Ef;
    [|unfold raise; intros [= <- <-]; left; eauto].
  unfold bind at 1. unfold RemoteTaskStore.task_of_item.
  destruct (TaskStatus_of (item_status it)) as [st|e] eqn:Es; simpl rbind;
    [|intros [= <- <-]; left; eauto].
  fold (setters title status).
  destruct (title_arg_ok_dec title) as [Ha|(n & -> & Hbad)].
  - rewrite (setters_ok title status _ Ha).
    fold_remote_item title status notes it st.
    unfold bind at 1.
    destruct (JsonBinClient.push_payload _ w0) as [r1 w1] eqn:E1.
    apply push_payload_effect in E1 as (Hn1 & [[-> Hb1]|[(e & -> & _) Hb1]]).
    + intros [= <- <-]. right. exists items, i, it, st. auto 10.
    + intros [= <- <-]. destruct Hb1 as [Hb1|Hb1].
      * left. split; [congruence|eauto].
      * right. exists items, i, it, st. repeat split; eauto.
  - rewrite (setters_raise n status _ Hbad). intros [= <- <-]. left. eauto.
Qed.

Lemma reliable_2 net :
  reliable 2 net = true ->
  reliable 1 net = true /\ reliable 1 (tl net) = true.
Proof.
  intros H. split; [apply (reliable_le 2); [lia|exact H]|].
  now apply reliable_S in H.
Qed.

Lemma remote_get_all_delivered w :
  reliable 1 (JsonBinClient.net w) = true ->
  RemoteTaskStore.get_all w
  = (rmap RemoteTaskStore.task_of_item (get_tasks (JsonBinClient.bin w)),
     JsonBinClient.mk (JsonBinClient.bin w) (tl (JsonBinClient.net w))).
Proof.
  intros H. unfold RemoteTaskStore.get_all. unfold bind.
  now rewrite (fetch_payload_delivered w H).
Qed.

Lemma remote_create_task_delivered title status w items :
  reliable 2 (JsonBinClient.net w) = true ->
  doc_tasks (JsonBinClient.bin w) = Some items ->
  let task := Task.init (next_free_id (map item_id items)) title status None in
  RemoteTaskStore.create_task title status w
  = (Ok task,
     JsonBinClient.mk
       (RemoteTaskStore.with_tasks (JsonBinClient.bin w)
          (items ++ [new_item task]))
       (tl (tl (JsonBinClient.net w)))).
Proof.
  intros H Hd. apply reliable_2 in H as [H1 H2].
  unfold RemoteTaskStore.create_task. unfold bind at 1.
  rewrite (fetch_payload_delivered w H1). cbv beta iota.
  unfold bind at 1. unfold lift, index_tasks. simpl JsonBinClient.bin.
  rewrite Hd. unfold bind.
  now rewrite push_payload_delivered.
Qed.

Lemma remote_create_task_effect title status w r w' :
  RemoteTaskStore.create_task title status w = (r, w') ->
  (JsonBinClient.bin w' = JsonBinClient.bin w /\ exists e, r = Raise e) \/
  exists items,
    doc_tasks (JsonBinClient.bin w) = Some items /\
    let task := Task.init (next_free_id (map item_id items)) title status None in
    JsonBinClient.bin w'
    = RemoteTaskStore.with_tasks (JsonBinClient.bin w)
        (items ++ [new_item task]) /\
    (r = Ok task \/ exists e, r = Raise e).
Proof.
  unfold RemoteTaskStore.create_task. unfold bind at 1.
  destruct (JsonBinClient.fetch_payload w) as [r0 w0] eqn:E0.
  apply fetch_payload_effect in E0 as (Hb0 & Hn0 & Hr0).
  destruct Hr0 as [->|(e & -> & _)]; [|intros [= <- <-]; left; eauto].
  unfold bind at 1. unfold lift, index_tasks.
  destruct (doc_tasks (JsonBinClient.bin w)) as [items|] eqn:Ed;
    [|intros [= <- <-]; left; eauto].
  unfold bind at 1.
  destruct (JsonBinClient.push_payload _ w0) as [r1 w1] eqn:E1.
  apply push_payload_effect in E1 as (Hn1 & [[-> Hb1]|[(e & -> & _) Hb1]]).
  - intros [= <- <-]. right. exists items. auto.
  - intros [= <- <-]. destruct Hb1 as [Hb1|Hb1].
    + left. split; [congruence|eauto].
    + right. exists items. repeat split; eauto.
Qed.

Lemma remote_update_task_delivered id title status notes w items i it st :
  reliable 2 (JsonBinClient.net w) = true ->
  doc_tasks (JsonBinClient.bin w) = Some items ->
  find_index (fun t => item_id t =? id) items = Some (i, it) ->
  TaskStatus_of (item_status it) = Ok st ->
  title_arg_ok title ->
  RemoteTaskStore.update_task id title status notes w
  = (Ok (remote_obj title status notes it st),
     JsonBinClient.mk
       (RemoteTaskStore.with_tasks (JsonBinClient.bin w)
          (set_nth i (remote_item title status notes it st) items))
       (tl (tl (JsonBinClient.net w)))).
Proof.
  intros H Hd Hf Hs Ha. apply reliable_2 in H as [H1 H2].
  unfold RemoteTaskStore.update_task. unfold bind at 1.
  rewrite (fetch_payload_delivered w H1). cbv beta iota.
  unfold bind at 1. unfold lift, index_tasks. simpl JsonBinClient.bin.
  rewrite Hd, Hf. cbv beta iota.
  unfold bind at 1. unfold RemoteTaskStore.task_of_item.
  rewrite Hs. simpl rbind. cbv beta iota. fold (setters title status).
  rewrite (setters_ok title status _ Ha).
  fold_remote_item title status notes it st.
  unfold bind. now rewrite push_payload_delivered.
Qed.

Lemma remote_update_task_raise id n status notes w items i it st :
  reliable 1 (JsonBinClient.net w) = true ->
  doc_tasks (JsonBinClient.bin w) = Some items ->
  find_index (fun t => item_id t =? id) items = Some (i, it) ->
  TaskStatus_of (item_status it) = Ok st ->
  ~ title_ok (strip n) ->
  RemoteTaskStore.update_task id (Some n) status notes w
  = (Raise ValueError_title,
     JsonBinClient.mk (JsonBinClient.bin w) (tl (JsonBinClient.net w))).
Proof.
  intros H1 Hd Hf Hs Ha.
  unfold RemoteTaskStore.update_task. unfold bind at 1.
  rewrite (fetch_payload_delivered w H1). cbv beta iota.
  unfold bind at 1. unfold lift, index_tasks. simpl JsonBinClient.bin.
  rewrite Hd, Hf. cbv beta iota.
  unfold bind at 1. unfold RemoteTaskStore.task_of_item.
  rewrite Hs. simpl rbind. cbv beta iota. fold (setters (Some n) status).
  now rewrite (setters_raise n status _ Ha).
Qed.

Lemma remote_delete_task_delivered id w items i it :
  reliable 2 (JsonBinClient.net w) = true ->
  doc_tasks (JsonBinClient.bin w) = Some items ->
  find_index (fun t => item_id t =? id) items = Some (i, it) ->
  RemoteTaskStore.delete_task id w
  = (Ok tt,
     JsonBinClient.mk
       (RemoteTaskStore.with_tasks (JsonBinClient.bin w) (pop i items))
       (tl (tl (JsonBinClient.net w)))).
Proof.
  intros H Hd Hf. apply reliable_2 in H as [H1 H2].
  unfold RemoteTaskStore.delete_task. unfold bind at 1.
  rewrite (fetch_payload_delivered w H1).
  unfold bind at 1. unfold lift, index_tasks. simpl JsonBinClient.bin.
  rewrite Hd, Hf. now rewrite push_payload_delivered.
Qed.

Lemma remote_delete_task_missing id w items :
  reliable 1 (JsonBinClient.net w) = true ->
  doc_tasks (JsonBinClient.bin w) = Some items ->
  find_index (fun t => item_id t =? id) items = None ->
  RemoteTaskStore.delete_task id w
  = (Raise ValueError_id_not_found,
     JsonBinClient.mk (JsonBinClient.bin w) (tl (JsonBinClient.net w))).
Proof.
  intros H1 Hd Hf.
  unfold RemoteTaskStore.delete_task. unfold bind at 1.
  rewrite (fetch_payload_delivered w H1). cbv beta iota.
  unfold bind at 1. unfold lift, index_tasks. simpl JsonBinClient.bin.
  now rewrite Hd, Hf.
Qed.

Lemma remote_delete_task_effect id w r w' :
  RemoteTaskStore.delete_task id w = (r, w') ->
  (JsonBinClient.bin w' = JsonBinClient.bin w /\ exists e, r = Raise e) \/
  exists items i it,
    doc_tasks (JsonBinClient.bin w) = Some items /\
    find_index (fun t => item_id t =? id) items = Some (i, it) /\
    JsonBinClient.bin w'
    = RemoteTaskStore.with_tasks (JsonBinClient.bin w) (pop i items) /\
    (r = Ok tt \/ exists e, r = Raise e).
Proof.
  unfold RemoteTaskStore.delete_task. unfold bind at 1.
  destruct (JsonBinClient.fetch_payload w) as [r0 w0] eqn:E0.
  apply fetch_payload_effect in E0 as (Hb0 & Hn0 & Hr0).
  destruct Hr0 as [->|(e & -> & _)]; [|intros [= <- <-]; left; eauto].
  unfold bind at 1. unfold lift, index_tasks.
  destruct (doc_tasks (JsonBinClient.bin w)) as [items|] eqn:Ed;
    [|intros [= <- <-]; left; eauto].
  destruct (find_index (fun t => item_id t =? id) items) as [[i it]|] eqn:Ef;
    [|unfold raise; intros [= <- <-]; left; eauto].
  destruct (JsonBinClient.push_payload _ w0) as [r1 w1] eqn:E1.
  apply push_payload_effect in E1 as (Hn1 & [[-> Hb1]|[(e & -> & _) Hb1]]).
  - intros [= <- <-]. right. exists items, i, it. auto.
  - intros [= <- <-]. destruct Hb1 as [Hb1|Hb1].
    + left. split; [congruence|eauto].
    + right. exists items, i, it. repeat split; eauto.
Qed.

(** * Main results *)

(** ** Task.rename_title *)

(** C5: for every task and every string [new_title], [rename_title] raises
    the validation error and leaves the task as it is (so its title is
    unchanged) when the stripped [new_title] is empty or longer than 50
    characters; otherwise it raises nothing and replaces the title with the
    stripped value, the other fields staying as they are. *)
Theorem rename_title_spec (t : Task.t) (new_title : string) :
  (strip new_title = "" \/ 50 < len (strip new_title) ->
   exists e, is_ValidationError e = true /\
     Task.rename_title new_title t = (Raise e, t)) /\
  (~ (strip new_title = "" \/ 50 < len (strip new_title)) ->
   Task.rename_title new_title t
   = (Ok tt, Task.mk (Task.id t) (strip new_title) (Task.status t)
               (Task.notes t))).
Proof.
  split.
  - intros H. exists ValueError_title. split; [reflexivity|].
    now apply rename_title_raises.
  - intros H. destruct (title_ok_dec (strip new_title)) as [Hok|Hbad];
      [|contradiction].
    now apply rename_title_returns.
Qed.

Lemma rename_title_spec_witness :
  (exists e, is_ValidationError e = true /\
     Task.rename_title "   " (Task.mk 1 "Learn Go" TODO None)
     = (Raise e, Task.mk 1 "Learn Go" TODO None)) /\
  Task.rename_title "  Learn Rust " (Task.mk 1 "Learn Go" TODO None)
  = (Ok tt, Task.mk 1 "Learn Rust" TODO None).
Proof.
  split.
  - apply (proj1 (rename_title_spec (Task.mk 1 "Learn Go" TODO None) "   ")).
    left. reflexivity.
  - apply (proj2 (rename_title_spec (Task.mk 1 "Learn Go" TODO None)
                    "  Learn Rust ")).
    intros [H|H]; [discriminate H|]. vm_compute in H. discriminate H.
Defined.

(** ** The round trip of the file store *)

(** C8: for every document that [get_all] reads, writing what it returned
    with [dump_all] and reading again with [get_all] returns the same tasks
    (the same list, so the same ids, titles and statuses), and this list is
    in ascending order of id. *)
Theorem file_round_trip (f : FileTaskStore.file) (ts : list Task.t) :
  FileTaskStore.get_all f = (Ok ts, f) ->
  exists f',
    FileTaskStore.dump_all ts f = (Ok tt, f') /\
    FileTaskStore.get_all f' = (Ok ts, f') /\
    Sorted Z.le (map Task.id ts).
Proof.
  intros H. exists (written ts). split; [reflexivity|].
  pose proof (file_get_all_normal _ _ _ H) as Hn.
  split; [now apply file_get_all_written|apply Hn].
Qed.

Lemma file_round_trip_witness :
  exists f',
    FileTaskStore.dump_all example_tasks example_file = (Ok tt, f') /\
    FileTaskStore.get_all f' = (Ok example_tasks, f') /\
    Sorted Z.le (map Task.id example_tasks).
Proof. apply (file_round_trip example_file example_tasks). reflexivity. Defined.

(** ** Deleting an id that is not there *)

Lemma find_index_absent {A} (key : A -> Z) (id : Z) (l : list A) :
  (forall x, In x l -> key x <> id) ->
  find_index (fun x => key x =? id) l = None.
Proof.
  intros H. apply find_index_none. intros x Hx. now apply Z.eqb_neq, H.
Qed.




(** ** Updating with an empty title *)

Lemma title_ok_empty : ~ title_ok (strip "").
Proof. unfold title_ok. vm_compute. intros [H _]. now apply H. Qed.

(** C9: an update of an existing id with the empty string as title.  The
    in-memory store does not raise and leaves the title of the task as it
    is: the empty string counts as no title.  The file store and the remote
    store (its GET delivered, the status of the stored task a member of the
    enum) raise the validation error, and what they persist stays as it
    is. *)
Theorem update_empty_title (id : Z) (status : option TaskStatus) :
  (forall s t,
     dict_get id (TaskStore.tasks s) = Some t ->
     exists t' s',
       TaskStore.update_task id (Some "") status s = (Ok t', s') /\
       Task.title t' = Task.title t /\
       dict_get id (TaskStore.tasks s') = Some t') /\
  (forall f ts i t,
     FileTaskStore.get_all f = (Ok ts, f) ->
     find_index (fun t => Task.id t =? id) ts = Some (i, t) ->
     is_ValidationError ValueError_title = true /\
     FileTaskStore.update_task id (Some "") status f
     = (Raise ValueError_title, f)) /\
  (forall notes w items i it st,
     reliable 1 (JsonBinClient.net w) = true ->
     doc_tasks (JsonBinClient.bin w) = Some items ->
     find_index (fun t => item_id t =? id) items = Some (i, it) ->
     TaskStatus_of (item_status it) = Ok st ->
     exists w',
       RemoteTaskStore.update_task id (Some "") status notes w
       = (Raise ValueError_title, w') /\
       JsonBinClient.bin w' = JsonBinClient.bin w).
Proof.
  split; [|split].
  - intros s t H. eexists. eexists. split.
    + apply (mem_update_task_ok s id t (Some "") status H). exact I.
    + simpl given. split; [apply updated_title_None|].
      simpl. apply dict_get_set_same.
  - intros f ts i t H Hf. split; [reflexivity|].
    apply (file_update_task_raise f ts id i t "" status H Hf).
    apply title_ok_empty.
  - intros notes w items i it st Hr Hd Hf Hs. eexists. split.
    + apply (remote_update_task_raise id "" status notes w items i it st
               Hr Hd Hf Hs).
      apply title_ok_empty.
    + reflexivity.
Qed.

Lemma update_empty_title_witness :
  (exists t' s',
     TaskStore.update_task 2 (Some "") None example_store = (Ok t', s') /\
     Task.title t' = "Learn Go" /\
     dict_get 2 (TaskStore.tasks s') = Some t') /\
  FileTaskStore.update_task 2 (Some "") None example_file
  = (Raise ValueError_title, example_file) /\
  (exists w',
     RemoteTaskStore.update_task 2 (Some "") None None example_world
     = (Raise ValueError_title, w') /\
     JsonBinClient.bin w' = JsonBinClient.bin example_world).
Proof.
  destruct (update_empty_title 2 None) as (Hm & Hf & Hr). split; [|split].
  - apply (Hm example_store (Task.mk 2 "Learn Go" DONE None)). reflexivity.
  - apply (Hf example_file example_tasks 1%nat (Task.mk 2 "Learn Go" DONE None));
      reflexivity.
  - apply (Hr None example_world example_items 1%nat
             (mkItem 2 "Learn Go" "done" (Some "plan")) DONE); reflexivity.
Defined.

(** ** Updating one field *)

Lemma set_nth_same {A} (i : nat) (x : A) (l : list A) :
  nth_error l i = Some x -> set_nth i x l = l.
Proof.
  revert i. induction l as [|a l IH]; intros i; simpl; [reflexivity|].
  destruct i; simpl; [now intros [= ->]|]. intros H. now rewrite IH.
Qed.

Lemma remote_task_of_item_inv it t :
  RemoteTaskStore.task_of_item it = Ok t ->
  exists st,
    TaskStatus_of (item_status it) = Ok st /\
    t = Task.init (item_id it) (item_title it) st (item_notes it).
Proof.
  unfold RemoteTaskStore.task_of_item.
  destruct (TaskStatus_of (item_status it)) as [st|e]; simpl; [|discriminate].
  intros [= <-]. now exists st.
Qed.

Lemma remote_obj_id title status notes it st :
  Task.id (remote_obj title status notes it st) = item_id it.
Proof.
  unfold remote_obj. destruct notes; simpl; now rewrite updated_id.
Qed.

Lemma remote_obj_title_stripped title status notes it st :
  strip (Task.title (remote_obj title status notes it st))
  = Task.title (remote_obj title status notes it st).
Proof.
  unfold remote_obj.
  assert (forall t, strip (Task.title t) = Task.title t ->
                    strip (Task.title (updated title status t))
                    = Task.title (updated title status t)) as H.
  { intros t Ht. destruct title as [n|].
    - rewrite updated_title_Some. apply strip_idem.
    - now rewrite updated_title_None. }
  destruct notes; simpl; apply H; apply strip_idem.
Qed.

(** The item that [update_task] leaves in the payload is read back as the
    task it returns. *)
Lemma remote_item_decodes title status notes it st :
  RemoteTaskStore.task_of_item (remote_item title status notes it st)
  = Ok (remote_obj title status notes it st).
Proof.
  unfold RemoteTaskStore.task_of_item, remote_item. simpl.
  rewrite TaskStatus_of_value. simpl. unfold Task.init.
  rewrite remote_obj_title_stripped.
  rewrite <- (remote_obj_id title status notes it st).
  now destruct (remote_obj title status notes it st).
Qed.

Lemma file_get_all_updated f ts id i t title status :
  FileTaskStore.get_all f = (Ok ts, f) ->
  find_index (fun t => Task.id t =? id) ts = Some (i, t) ->
  let l := set_nth i (updated title status t) ts in
  FileTaskStore.get_all (written l) = (Ok l, written l).
Proof.
  intros H Hf. apply find_index_some in Hf as (Hn & _ & _).
  pose proof (file_get_all_normal _ _ _ H) as Hnorm.
  apply file_get_all_written.
  apply (normal_set_nth i t); [exact Hn|apply updated_id| |exact Hnorm].
  apply updated_norm.
  exact (proj1 (Forall_forall _ _) (proj1 Hnorm) t (nth_error_In _ _ Hn)).
Qed.

(** C6: an update of an existing task with only the status given leaves its
    title and notes as they are, and one with only the title given leaves
    its status and notes as they are, in each of the three stores.  With
    only the title given the call either returns the task, or raises the
    validation error and changes nothing.  The file store is taken at a
    file that [get_all] reads, the remote store with its two requests
    delivered and at an item that decodes to a task; what the store holds
    after the call is the task that the call returns. *)
Theorem update_leaves_omitted_fields (id : Z) :
  (forall s t,
     dict_get id (TaskStore.tasks s) = Some t ->
     (forall st, exists t' s',
        TaskStore.update_task id None (Some st) s = (Ok t', s') /\
        dict_get id (TaskStore.tasks s') = Some t' /\
        Task.title t' = Task.title t /\ Task.notes t' = Task.notes t /\
        Task.status t' = st) /\
     (forall n, exists r t' s',
        TaskStore.update_task id (Some n) None s = (r, s') /\
        dict_get id (TaskStore.tasks s') = Some t' /\
        Task.status t' = Task.status t /\ Task.notes t' = Task.notes t /\
        (r = Ok t' /\
         Task.title t' = (if truthy n then strip n else Task.title t) \/
         r = Raise ValueError_title /\ t' = t))) /\
  (forall f ts i t,
     FileTaskStore.get_all f = (Ok ts, f) ->
     find_index (fun t => Task.id t =? id) ts = Some (i, t) ->
     (forall st, exists t' f',
        FileTaskStore.update_task id None (Some st) f = (Ok t', f') /\
        FileTaskStore.get_all f' = (Ok (set_nth i t' ts), f') /\
        Task.title t' = Task.title t /\ Task.notes t' = Task.notes t /\
        Task.status t' = st) /\
     (forall n, exists r t' f',
        FileTaskStore.update_task id (Some n) None f = (r, f') /\
        FileTaskStore.get_all f' = (Ok (set_nth i t' ts), f') /\
        Task.status t' = Task.status t /\ Task.notes t' = Task.notes t /\
        (r = Ok t' /\ Task.title t' = strip n \/
         r = Raise ValueError_title /\ t' = t))) /\
  (forall w items i it t,
     reliable 2 (JsonBinClient.net w) = true ->
     doc_tasks (JsonBinClient.bin w) = Some items ->
     find_index (fun t => item_id t =? id) items = Some (i, it) ->
     RemoteTaskStore.task_of_item it = Ok t ->
     (forall st, exists t' it' w',
        RemoteTaskStore.update_task id None (Some st) None w = (Ok t', w') /\
        doc_tasks (JsonBinClient.bin w') = Some (set_nth i it' items) /\
        RemoteTaskStore.task_of_item it' = Ok t' /\
        Task.title t' = Task.title t /\ Task.notes t' = Task.notes t /\
        Task.status t' = st) /\
     (forall n, exists r t' it' w',
        RemoteTaskStore.update_task id (Some n) None None w = (r, w') /\
        doc_tasks (JsonBinClient.bin w') = Some (set_nth i it' items) /\
        RemoteTaskStore.task_of_item it' = Ok t' /\
        Task.status t' = Task.status t /\ Task.notes t' = Task.notes t /\
        (r = Ok t' /\ Task.title t' = strip n \/
         r = Raise ValueError_title /\ t' = t))).
Proof.
  split; [|split].
  - intros s t H. split.
    + intros st. eexists. eexists. split.
      * apply (mem_update_task_ok s id t None (Some st) H). exact I.
      * simpl. rewrite dict_get_set_same. auto.
    + intros n. destruct (truthy n) eqn:En.
      * destruct (title_ok_dec (strip n)) as [Hok|Hbad].
        -- exists (Ok (updated (Some n) None t)). eexists. eexists. split.
           ++ pose proof (mem_update_task_ok s id t (Some n) None H) as Hu.
              unfold given in Hu. rewrite En in Hu. apply Hu. exact Hok.
           ++ simpl. rewrite dict_get_set_same. auto 6.
        -- exists (Raise ValueError_title), t, s. split.
           ++ apply (mem_update_task_raise s id t n None H En).
              unfold title_ok. intros [H1 H2].
              destruct Hbad as [Hb|Hb]; [|lia].
              rewrite Hb in H1. unfold len in H1. simpl in H1. lia.
           ++ auto 6.
      * exists (Ok t). eexists. eexists. split.
        -- pose proof (mem_update_task_ok s id t (Some n) None H) as Hu.
           unfold given in Hu. rewrite En in Hu. apply Hu. exact I.
        -- simpl. rewrite dict_get_set_same. auto 6.
  - intros f ts i t H Hf. split.
    + intros st. eexists. eexists. split.
      * apply (file_update_task_ok f ts id i t None (Some st) H Hf). exact I.
      * split; [apply (file_get_all_updated f ts id i t None (Some st) H Hf)|].
        simpl. auto.
    + intros n. destruct (title_arg_ok_dec (Some n)) as [Hok|(n' & [= <-] & Hbad)].
      * exists (Ok (updated (Some n) None t)). eexists. eexists. split.
        -- apply (file_update_task_ok f ts id i t (Some n) None H Hf Hok).
        -- split; [apply (file_get_all_updated f ts id i t (Some n) None H Hf)|].
           simpl. auto 6.
      * exists (Raise ValueError_title), t, f. split.
        -- apply (file_update_task_raise f ts id i t n None H Hf Hbad).
        -- rewrite set_nth_same by (now apply find_index_some in Hf).
           auto 6.
  - intros w items i it t Hr Hd Hf Ht.
    apply remote_task_of_item_inv in Ht as Hinv. destruct Hinv as (st0 & Hs & ->).
    split.
    + intros st. eexists. eexists. eexists. split.
      * apply (remote_update_task_delivered id None (Some st) None w items i
                 it st0 Hr Hd Hf Hs). exact I.
      * simpl. split; [reflexivity|]. split; [apply remote_item_decodes|].
        auto.
    + intros n. destruct (title_arg_ok_dec (Some n)) as [Hok|(n' & [= <-] & Hbad)].
      * exists (Ok (remote_obj (Some n) None None it st0)).
        eexists. eexists. eexists. split.
        -- apply (remote_update_task_delivered id (Some n) None None w items
                    i it st0 Hr Hd Hf Hs Hok).
        -- simpl. split; [reflexivity|]. split; [apply remote_item_decodes|].
           auto 6.
      * exists (Raise ValueError_title). eexists. exists it. eexists. split.
        -- apply (remote_update_task_raise id n None None w items i it st0);
             try assumption.
           now apply (reliable_le 2); [lia|].
        -- simpl. rewrite set_nth_same by (now apply find_index_some in Hf).
           split; [exact Hd|]. split; [exact Ht|]. auto 6.
Qed.

Lemma update_leaves_omitted_fields_witness :
  (exists t' s',
     TaskStore.update_task 2 None (Some TODO) example_store = (Ok t', s') /\
     dict_get 2 (TaskStore.tasks s') = Some t' /\
     Task.title t' = "Learn Go" /\ Task.notes t' = None /\
     Task.status t' = TODO) /\
  (exists t' f',
     FileTaskStore.update_task 2 None (Some TODO) example_file = (Ok t', f') /\
     FileTaskStore.get_all f' = (Ok (set_nth 1 t' example_tasks), f') /\
     Task.title t' = "Learn Go" /\ Task.notes t' = None /\
     Task.status t' = TODO) /\
  (exists t' it' w',
     RemoteTaskStore.update_task 2 None (Some TODO) None example_world
     = (Ok t', w') /\
     doc_tasks (JsonBinClient.bin w') = Some (set_nth 1 it' example_items) /\
     RemoteTaskStore.task_of_item it' = Ok t' /\
     Task.title t' = "Learn Go" /\ Task.notes t' = Some "plan" /\
     Task.status t' = TODO).
Proof.
  destruct (update_leaves_omitted_fields 2) as (Hm & Hf & Hr).
  split; [|split].
  - apply (Hm example_store (Task.mk 2 "Learn Go" DONE None)). reflexivity.
  - apply (Hf example_file example_tasks 1%nat
             (Task.mk 2 "Learn Go" DONE None)); reflexivity.
  - apply (Hr example_world example_items 1%nat
             (mkItem 2 "Learn Go" "done" (Some "plan"))
             (Task.mk 2 "Learn Go" DONE (Some "plan"))); reflexivity.
Defined.

(** ** The id of a new task *)

Lemma reliable_tl n net : reliable (S n) net = true -> reliable n (tl net) = true.
Proof. intros H. now apply reliable_S in H. Qed.

Lemma file_delete_max_create f l1 tm l2 title status :
  FileTaskStore.get_all f = (Ok (l1 ++ tm :: l2), f) ->
  (forall u, In u (l1 ++ l2) -> Task.id u < Task.id tm) ->
  exists f1 f2 t,
    FileTaskStore.delete_task (Task.id tm) f = (Ok tt, f1) /\
    FileTaskStore.get_all f1 = (Ok (l1 ++ l2), f1) /\
    FileTaskStore.create_task title status f1 = (Ok t, f2) /\
    Task.id t = next_free_id (map Task.id (l1 ++ l2)).
Proof.
  intros H Hmax.
  assert (FileTaskStore.get_all (written (l1 ++ l2))
          = (Ok (l1 ++ l2), written (l1 ++ l2))) as Hg.
  { apply file_get_all_written. rewrite <- (pop_app l1 l2 tm).
    eapply normal_pop, file_get_all_normal, H. }
  exists (written (l1 ++ l2)). eexists. eexists. split; [|split; [exact Hg|]].
  - rewrite (file_delete_task f _ (Task.id tm) H). do 2 f_equal.
    apply delete_loop_once;
      [reflexivity| |lia|rewrite length_app; simpl; lia].
    intros u Hu. specialize (Hmax u Hu). lia.
  - split; [apply (file_create_task _ _ title status Hg)|reflexivity].
Qed.

Lemma remote_delete_max_create w l1 im l2 title status :
  reliable 4 (JsonBinClient.net w) = true ->
  doc_tasks (JsonBinClient.bin w) = Some (l1 ++ im :: l2) ->
  (forall u, In u (l1 ++ l2) -> item_id u < item_id im) ->
  exists w1 w2 t,
    RemoteTaskStore.delete_task (item_id im) w = (Ok tt, w1) /\
    doc_tasks (JsonBinClient.bin w1) = Some (l1 ++ l2) /\
    JsonBinClient.net w1 = tl (tl (JsonBinClient.net w)) /\
    RemoteTaskStore.create_task title status w1 = (Ok t, w2) /\
    Task.id t = next_free_id (map item_id (l1 ++ l2)).
Proof.
  intros Hr Hd Hmax.
  assert (find_index (fun t => item_id t =? item_id im) (l1 ++ im :: l2)
          = Some (List.length l1, im)) as Hf.
  { apply find_index_app; [|apply Z.eqb_refl].
    intros y Hy. apply Z.eqb_neq.
    assert (item_id y < item_id im) by (apply Hmax, in_or_app; now left).
    lia. }
  eexists. eexists. eexists. split.
  - apply (remote_delete_task_delivered _ w _ _ _
             (reliable_le 4 2 _ ltac:(lia) Hr) Hd Hf).
  - rewrite pop_app. simpl. split; [reflexivity|]. split; [reflexivity|].
    split.
    + apply (remote_create_task_delivered title status _ (l1 ++ l2));
        [|reflexivity].
      cbn [JsonBinClient.net]. now apply reliable_tl, reliable_tl.
    + reflexivity.
Qed.

(** C1, as amended.  In the file store and in the remote store the id of a
    new task is computed from the document as it is: 1 when it holds no
    task, the largest id plus 1 otherwise.  So after the task with the
    largest id is deleted, the next created task gets the largest remaining
    id plus 1 (1 when nothing remains), and a task that is created, deleted
    and created again gets the same id both times.  In the in-memory store,
    in every state that calls of the store lead to, deleting a task and
    creating one gives the new task an id above the deleted one and above
    every id in the store. *)
Theorem next_id_after_delete (title : string) (status : TaskStatus) :
  (forall f l1 tm l2,
     FileTaskStore.get_all f = (Ok (l1 ++ tm :: l2), f) ->
     (forall u, In u (l1 ++ l2) -> Task.id u < Task.id tm) ->
     exists f1 f2 t,
       FileTaskStore.delete_task (Task.id tm) f = (Ok tt, f1) /\
       FileTaskStore.get_all f1 = (Ok (l1 ++ l2), f1) /\
       FileTaskStore.create_task title status f1 = (Ok t, f2) /\
       Task.id t = next_free_id (map Task.id (l1 ++ l2))) /\
  (forall f ts title0 status0,
     FileTaskStore.get_all f = (Ok ts, f) ->
     exists t0 f0 f1 f2 t,
       FileTaskStore.create_task title0 status0 f = (Ok t0, f0) /\
       FileTaskStore.delete_task (Task.id t0) f0 = (Ok tt, f1) /\
       FileTaskStore.create_task title status f1 = (Ok t, f2) /\
       Task.id t = Task.id t0) /\
  (forall w l1 im l2,
     reliable 4 (JsonBinClient.net w) = true ->
     doc_tasks (JsonBinClient.bin w) = Some (l1 ++ im :: l2) ->
     (forall u, In u (l1 ++ l2) -> item_id u < item_id im) ->
     exists w1 w2 t,
       RemoteTaskStore.delete_task (item_id im) w = (Ok tt, w1) /\
       doc_tasks (JsonBinClient.bin w1) = Some (l1 ++ l2) /\
       RemoteTaskStore.create_task title status w1 = (Ok t, w2) /\
       Task.id t = next_free_id (map item_id (l1 ++ l2))) /\
  (forall w items title0 status0,
     reliable 6 (JsonBinClient.net w) = true ->
     doc_tasks (JsonBinClient.bin w) = Some items ->
     exists t0 w0 w1 w2 t,
       RemoteTaskStore.create_task title0 status0 w = (Ok t0, w0) /\
       RemoteTaskStore.delete_task (Task.id t0) w0 = (Ok tt, w1) /\
       RemoteTaskStore.create_task title status w1 = (Ok t, w2) /\
       Task.id t = Task.id t0) /\
  (forall s id t0,
     reachable s ->
     dict_get id (TaskStore.tasks s) = Some t0 ->
     exists s1 s2 t,
       TaskStore.delete_task id s = (Ok tt, s1) /\
       TaskStore.create_task title status s1 = (Ok t, s2) /\
       id < Task.id t /\
       forall k v, In (k, v) (TaskStore.tasks s) -> k < Task.id t).
Proof.
  split; [|split; [|split; [|split]]].
  - intros f l1 tm l2. apply file_delete_max_create.
  - intros f ts title0 status0 H.
    set (t0 := Task.init (next_free_id (map Task.id ts)) title0 status0 None).
    assert (FileTaskStore.get_all (written (ts ++ [t0]))
            = (Ok (ts ++ [t0]), written (ts ++ [t0]))) as Hg.
    { apply file_get_all_written, normal_snoc.
      eapply file_get_all_normal, H. }
    destruct (file_delete_max_create _ ts t0 [] title status Hg)
      as (f1 & f2 & t & H1 & _ & H2 & H3).
    { rewrite app_nil_r. intros u Hu.
      apply (next_free_id_gt (map Task.id ts)), in_map, Hu. }
    exists t0, (written (ts ++ [t0])), f1, f2, t.
    split; [apply (file_create_task f ts title0 status0 H)|].
    split; [exact H1|]. split; [exact H2|].
    now rewrite H3, app_nil_r.
  - intros w l1 im l2 Hr Hd Hmax.
    destruct (remote_delete_max_create w l1 im l2 title status Hr Hd Hmax)
      as (w1 & w2 & t & H1 & H2 & _ & H3 & H4).
    exists w1, w2, t. auto.
  - intros w items title0 status0 Hr Hd.
    set (t0 := Task.init (next_free_id (map item_id items)) title0 status0 None).
    pose proof (remote_create_task_delivered title0 status0 w items
                  (reliable_le 6 2 _ ltac:(lia) Hr) Hd) as Hc.
    cbv zeta in Hc. fold t0 in Hc.
    match type of Hc with _ = (_, ?x) => set (w0 := x) in * end.
    destruct (remote_delete_max_create w0 items (new_item t0) [] title status)
      as (w1 & w2 & t & H1 & _ & _ & H2 & H3).
    { subst w0. cbn [JsonBinClient.net].
      apply (reliable_le 4); [lia|]. now apply reliable_tl, reliable_tl. }
    { reflexivity. }
    { rewrite app_nil_r. intros u Hu. simpl.
      apply (next_free_id_gt (map item_id items)), in_map, Hu. }
    exists t0, w0, w1, w2, t.
    split; [exact Hc|]. split; [exact H1|]. split; [exact H2|].
    now rewrite H3, app_nil_r.
  - intros s id t0 Hs Hg.
    pose proof (reachable_keys_below s Hs) as Hk.
    unfold TaskStore.delete_task. rewrite Hg.
    eexists. eexists. eexists. split; [reflexivity|]. split; [reflexivity|].
    simpl. split.
    + apply dict_get_In in Hg.
      exact (proj1 (Forall_forall _ _) Hk _ Hg).
    + intros k v Hin. exact (proj1 (Forall_forall _ _) Hk _ Hin).
Qed.

(** C1, where the ids have a gap: with the ids 1 and 3 in the file,
    deleting 3 and creating a task gives the new task the id 2, not the
    freed id. *)
Lemma freed_id_not_reassigned :
  FileTaskStore.get_all gap_file
  = (Ok [Task.mk 1 "a" TODO None; Task.mk 3 "c" TODO None], gap_file) /\
  exists f1 f2 t,
    FileTaskStore.delete_task 3 gap_file = (Ok tt, f1) /\
    FileTaskStore.create_task "d" TODO f1 = (Ok t, f2) /\
    Task.id t = 2 /\ Task.id t <> 3.
Proof.
  split; [reflexivity|].
  eexists. eexists. eexists.
  split; [cbv; reflexivity|]. split; [cbv; reflexivity|].
  split; [reflexivity|discriminate].
Qed.

Lemma example_store_reachable : reachable example_store.
Proof. unfold example_store. repeat constructor. Qed.

Lemma next_id_after_delete_witness :
  (exists f1 f2 t,
     FileTaskStore.delete_task 3 gap_file = (Ok tt, f1) /\
     FileTaskStore.get_all f1 = (Ok [Task.mk 1 "a" TODO None], f1) /\
     FileTaskStore.create_task "d" TODO f1 = (Ok t, f2) /\
     Task.id t = 2) /\
  (exists w1 w2 t,
     RemoteTaskStore.delete_task 2 example_world = (Ok tt, w1) /\
     doc_tasks (JsonBinClient.bin w1) = Some [mkItem 1 "Buy milk" "todo" None] /\
     RemoteTaskStore.create_task "d" TODO w1 = (Ok t, w2) /\
     Task.id t = 2) /\
  (exists s1 s2 t,
     TaskStore.delete_task 2 example_store = (Ok tt, s1) /\
     TaskStore.create_task "d" TODO s1 = (Ok t, s2) /\
     2 < Task.id t /\
     forall k v, In (k, v) (TaskStore.tasks example_store) -> k < Task.id t).
Proof.
  destruct (next_id_after_delete "d" TODO) as (Hf & _ & Hr & _ & Hm).
  split; [|split].
  - apply (Hf gap_file [Task.mk 1 "a" TODO None] (Task.mk 3 "c" TODO None) []).
    + reflexivity.
    + intros u [<-|[]]. reflexivity.
  - apply (Hr example_world [mkItem 1 "Buy milk" "todo" None]
             (mkItem 2 "Learn Go" "done" (Some "plan")) []).
    + reflexivity.
    + reflexivity.
    + intros u [<-|[]]. reflexivity.
  - apply (Hm example_store 2 (Task.mk 2 "Learn Go" DONE None)).
    + exact example_store_reachable.
    + reflexivity.
Defined.

(** ** The enrichment service *)

Section Enrichment.

Variable str : Json -> string.

Lemma remote_create_task_notes title status w task w' :
  RemoteTaskStore.create_task title status w = (Ok task, w') ->
  Task.notes task = None /\ Task.title task = strip title /\
  Task.status task = status /\ holds (JsonBinClient.bin w') task.
Proof.
  intros H. apply remote_create_task_effect in H.
  destruct H as [[_ [e He]]|(items & Hd & Hb & [Hr|[e He]])]; try discriminate.
  injection Hr as ->. repeat split.
  exists (new_item (Task.init (next_free_id (map item_id items)) title status None)).
  rewrite Hb. unfold get_tasks. simpl. split; [|auto].
  apply in_or_app. right. now left.
Qed.

Lemma generate_plan_no_response ai prompt members :
  CloudflareAIClient.post ai prompt
  = Some (mkResponse 200 (Some (JObject members))) ->
  member "result" members = None \/
  (exists result, member "result" members = Some result /\
                  lacks_response result) ->
  CloudflareAIClient.generate_plan str ai prompt = Ok None.
Proof.
  intros Hp H. unfold CloudflareAIClient.generate_plan. rewrite Hp. simpl.
  destruct H as [->|(result & -> & H)]; [reflexivity|].
  destruct result as [| | | | |fields]; try reflexivity.
  unfold lacks_response in H. now rewrite H.
Qed.

(** C10: when the AI endpoint answers with status 200 and a JSON object
    whose ["result"] is missing, is not an object, or has no ["response"],
    [generate_plan] returns [None] and raises nothing; then
    [create_task_and_enrich] does what [create_task] of the store does and
    nothing more (no further request goes to the bin), and the task it
    returns has no notes. *)
Theorem missing_response_gives_no_notes (ai : CloudflareAIClient.t)
    (title : string) (status : TaskStatus) (members : list (string * Json)) :
  CloudflareAIClient.post ai (TaskService._build_prompt title)
  = Some (mkResponse 200 (Some (JObject members))) ->
  member "result" members = None \/
  (exists result, member "result" members = Some result /\
                  lacks_response result) ->
  CloudflareAIClient.generate_plan str ai (TaskService._build_prompt title)
  = Ok None /\
  forall w,
    TaskService.create_task_and_enrich str ai title status w
    = RemoteTaskStore.create_task title status w /\
    forall task w',
      TaskService.create_task_and_enrich str ai title status w = (Ok task, w') ->
      Task.notes task = None.
Proof.
  intros Hp H.
  pose proof (generate_plan_no_response ai _ members Hp H) as Hg.
  split; [exact Hg|]. intros w.
  assert (TaskService.create_task_and_enrich str ai title status w
          = RemoteTaskStore.create_task title status w) as Heq.
  { unfold TaskService.create_task_and_enrich. unfold bind at 1.
    destruct (RemoteTaskStore.create_task title status w) as [[task|e] w1];
      [|reflexivity].
    unfold try_except, bind, lift. now rewrite Hg. }
  split; [exact Heq|]. intros task w'. rewrite Heq. intros Hc.
  now apply remote_create_task_notes in Hc.
Qed.

Lemma generate_plan_response ai prompt members fields response :
  CloudflareAIClient.post ai prompt
  = Some (mkResponse 200 (Some (JObject members))) ->
  member "result" members = Some (JObject fields) ->
  member "response" fields = Some response ->
  CloudflareAIClient.generate_plan str ai prompt
  = Ok (Some (strip (str response))).
Proof.
  intros Hp Hr Hf. unfold CloudflareAIClient.generate_plan.
  rewrite Hp. simpl. now rewrite Hr, Hf.
Qed.

Lemma remote_obj_of_new_item (task : Task.t) (p : string) (status : TaskStatus) :
  Task.notes task = None ->
  strip (Task.title task) = Task.title task ->
  Task.status task = status ->
  remote_obj None None (Some p) (new_item task) status
  = Task.set_notes task (Some p).
Proof.
  destruct task as [i ti st no]. simpl. intros -> Hs ->.
  unfold remote_obj, new_item, updated, Task.set_notes, Task.init. simpl.
  now rewrite Hs.
Qed.

(** C7: when the endpoint answers the prompt with status 200 and a body
    whose ["result"]["response"] is a string (as in
    [{"result": {"response": "Step 1..."}}]) that is not empty once
    stripped, and the requests to the bin are delivered, then
    [create_task_and_enrich] returns the created task with the stripped
    string as its notes, and a [get_all] that follows returns the tasks of
    the document with this task, notes included, at the end. *)
Theorem enrichment_attaches_notes (ai : CloudflareAIClient.t)
    (title : string) (status : TaskStatus) (members fields : list (string * Json))
    (response : string) (w : JsonBinClient.world) (items : list Item)
    (ts : list Task.t) :
  str (JString response) = response ->
  CloudflareAIClient.post ai (TaskService._build_prompt title)
  = Some (mkResponse 200 (Some (JObject members))) ->
  member "result" members = Some (JObject fields) ->
  member "response" fields = Some (JString response) ->
  truthy (strip response) = true ->
  reliable 5 (JsonBinClient.net w) = true ->
  doc_tasks (JsonBinClient.bin w) = Some items ->
  rmap RemoteTaskStore.task_of_item items = Ok ts ->
  exists task w' w'',
    TaskService.create_task_and_enrich str ai title status w = (Ok task, w') /\
    Task.notes task = Some (strip response) /\
    Task.title task = strip title /\ Task.status task = status /\
    RemoteTaskStore.get_all w' = (Ok (ts ++ [task]), w'').
Proof.
  intros Hstr Hp Hres Hresp Htruthy Hr Hd Hts.
  set (task0 := Task.init (next_free_id (map item_id items)) title status None).
  set (p := strip response).
  pose proof (remote_create_task_delivered title status w items
                (reliable_le 5 2 _ ltac:(lia) Hr) Hd) as Hc.
  cbv zeta in Hc. fold task0 in Hc.
  match type of Hc with _ = (_, ?x) => set (w1 := x) in * end.
  assert (CloudflareAIClient.generate_plan str ai
            (TaskService._build_prompt title) = Ok (Some p)) as Hg.
  { rewrite (generate_plan_response ai _ members fields (JString response)
               Hp Hres Hresp). now rewrite Hstr. }
  assert (find_index (fun t => item_id t =? Task.id task0)
            (items ++ [new_item task0])
          = Some (List.length items, new_item task0)) as Hf.
  { apply find_index_app; [|apply Z.eqb_refl].
    intros y Hy. apply Z.eqb_neq.
    pose proof (next_free_id_gt (map item_id items) _ (in_map item_id _ _ Hy)).
    simpl. lia. }
  pose proof (remote_update_task_delivered (Task.id task0) None None (Some p)
                w1 (items ++ [new_item task0]) (List.length items)
                (new_item task0) status) as Hu.
  specialize (Hu ltac:(subst w1; cbn [JsonBinClient.net];
                       apply (reliable_le 3); [lia|];
                       now apply reliable_tl, reliable_tl)
                 eq_refl Hf (TaskStatus_of_value status) I).
  rewrite set_nth_app in Hu.
  assert (remote_obj None None (Some p) (new_item task0) status
          = Task.set_notes task0 (Some p)) as Hobj
    by (apply remote_obj_of_new_item;
        [reflexivity|apply strip_idem|reflexivity]).
  rewrite Hobj in Hu.
  match type of Hu with _ = (_, ?x) => set (w2 := x) in * end.
  exists (Task.set_notes task0 (Some p)), w2. eexists. split; [|split; [|split; [|split]]].
  - unfold TaskService.create_task_and_enrich. unfold bind at 1.
    rewrite Hc. unfold try_except. unfold bind at 1. unfold lift.
    rewrite Hg. fold p in Htruthy. rewrite Htruthy.
    unfold bind. now rewrite Hu.
  - reflexivity.
  - reflexivity.
  - reflexivity.
  - rewrite remote_get_all_delivered.
    + subst w2. cbn [JsonBinClient.bin]. unfold get_tasks. simpl doc_tasks.
      cbv beta iota. apply f_equal2; [|reflexivity].
      apply (rmap_app _ items _ ts _ Hts).
      cbn [rmap]. rewrite remote_item_decodes. cbn [rbind].
      now rewrite Hobj.
    + subst w2 w1. cbn [JsonBinClient.net].
      now apply reliable_tl, reliable_tl, reliable_tl, reliable_tl.
Qed.

Lemma set_nth_In_or {A} (i : nat) (x y : A) (l : list A) :
  In x l -> In x (set_nth i y l) \/ nth_error l i = Some x.
Proof.
  revert i. induction l as [|a l IH]; intros i; simpl; [intros []|].
  destruct i; simpl.
  - intros [->|H]; [now right|left; now right].
  - intros [->|H]; [left; now left|].
    destruct (IH i H) as [H'|H']; [left; now right|now right].
Qed.

Lemma set_nth_In_new {A} (i : nat) (x y : A) (l : list A) :
  nth_error l i = Some x -> In y (set_nth i y l).
Proof.
  revert i. induction l as [|a l IH]; intros i; simpl;
    [destruct i; discriminate|].
  destruct i; simpl; [now left|]. intros H. right. now apply IH.
Qed.

(** An update that gives no title and no status keeps every task that the
    document holds with a stripped title. *)
Lemma remote_update_task_holds id notes w r w' t :
  RemoteTaskStore.update_task id None None notes w = (r, w') ->
  strip (Task.title t) = Task.title t ->
  holds (JsonBinClient.bin w) t -> holds (JsonBinClient.bin w') t.
Proof.
  intros Hu Hstrip (item & Hin & Hi & Hti & Hst).
  apply remote_update_task_effect in Hu.
  destruct Hu as [[Hb _]|(items & i & it & st & Hd & Hf & Hs & _ & Hb & _)].
  - rewrite Hb. now exists item.
  - unfold get_tasks in Hin. rewrite Hd in Hin.
    unfold holds, get_tasks. rewrite Hb. simpl.
    apply find_index_some in Hf as (Hn & _ & _).
    destruct (set_nth_In_or i item (remote_item None None notes it st) items Hin)
      as [H|H].
    + exists item. auto.
    + assert (it = item) as -> by congruence.
      exists (remote_item None None notes item st).
      split; [eapply set_nth_In_new, Hn|].
      unfold remote_item, remote_obj. simpl.
      apply value_TaskStatus_of in Hs.
      destruct notes; simpl; rewrite Hti, Hstrip, Hs; auto.
Qed.

(** C2: when [create_task] of the store has returned the task, and then
    [generate_plan] raises, or it returns a plan and the update that
    attaches it raises (whatever the exception), [create_task_and_enrich]
    raises nothing: it returns the created task, whose notes are [None],
    and the bin holds the created task afterwards. *)
Theorem enrichment_failure_is_swallowed (ai : CloudflareAIClient.t)
    (title : string) (status : TaskStatus) (w w1 : JsonBinClient.world)
    (task : Task.t) :
  RemoteTaskStore.create_task title status w = (Ok task, w1) ->
  (exists e,
     CloudflareAIClient.generate_plan str ai (TaskService._build_prompt title)
     = Raise e) \/
  (exists p e w2,
     CloudflareAIClient.generate_plan str ai (TaskService._build_prompt title)
     = Ok (Some p) /\
     truthy p = true /\
     RemoteTaskStore.update_task (Task.id task) None None (Some p) w1
     = (Raise e, w2)) ->
  exists w',
    TaskService.create_task_and_enrich str ai title status w = (Ok task, w') /\
    Task.notes task = None /\
    holds (JsonBinClient.bin w') task.
Proof.
  intros Hc H.
  destruct (remote_create_task_notes _ _ _ _ _ Hc) as (Hn & Ht & _ & Hh).
  unfold TaskService.create_task_and_enrich. unfold bind at 1. rewrite Hc.
  unfold try_except. unfold bind at 1. unfold lift.
  destruct H as [(e & ->)|(p & e & w2 & -> & Hp & Hu)].
  - exists w1. auto.
  - rewrite Hp. unfold bind. rewrite Hu. exists w2.
    split; [reflexivity|]. split; [exact Hn|].
    apply (remote_update_task_holds _ _ _ _ _ task Hu); [|exact Hh].
    rewrite Ht. apply strip_idem.
Qed.

End Enrichment.

Lemma missing_response_gives_no_notes_witness :
  CloudflareAIClient.generate_plan example_str
    (ai_answers (JObject [("result", JObject [("text", JString "hello")])]))
    (TaskService._build_prompt "Learn Go")
  = Ok None /\
  forall w,
    TaskService.create_task_and_enrich example_str
      (ai_answers (JObject [("result", JObject [("text", JString "hello")])]))
      "Learn Go" TODO w
    = RemoteTaskStore.create_task "Learn Go" TODO w /\
    forall task w',
      TaskService.create_task_and_enrich example_str
        (ai_answers (JObject [("result", JObject [("text", JString "hello")])]))
        "Learn Go" TODO w = (Ok task, w') ->
      Task.notes task = None.
Proof.
  apply (missing_response_gives_no_notes example_str
           (ai_answers (JObject [("result", JObject [("text", JString "hello")])]))
           "Learn Go" TODO [("result", JObject [("text", JString "hello")])]).
  - reflexivity.
  - right. exists (JObject [("text", JString "hello")]). split; reflexivity.
Defined.

Lemma enrichment_attaches_notes_witness :
  exists task w' w'',
    TaskService.create_task_and_enrich example_str
      (ai_answers (JObject [("result", JObject [("response", JString "Step 1...")])]))
      "Learn Go" TODO example_world = (Ok task, w') /\
    Task.notes task = Some "Step 1..." /\
    Task.title task = "Learn Go" /\ Task.status task = TODO /\
    RemoteTaskStore.get_all w'
    = (Ok ([Task.mk 1 "Buy milk" TODO None;
            Task.mk 2 "Learn Go" DONE (Some "plan")] ++ [task]), w'').
Proof.
  apply (enrichment_attaches_notes example_str
           (ai_answers (JObject [("result", JObject [("response", JString "Step 1...")])]))
           "Learn Go" TODO
           [("result", JObject [("response", JString "Step 1...")])]
           [("response", JString "Step 1...")]
           "Step 1..." example_world example_items); reflexivity.
Defined.

Lemma enrichment_failure_is_swallowed_witness :
  exists w',
    TaskService.create_task_and_enrich example_str ai_down "Learn Go" TODO
      example_world
    = (Ok (Task.mk 3 "Learn Go" TODO None), w') /\
    Task.notes (Task.mk 3 "Learn Go" TODO None) = None /\
    holds (JsonBinClient.bin w') (Task.mk 3 "Learn Go" TODO None).
Proof.
  apply (enrichment_failure_is_swallowed example_str ai_down "Learn Go" TODO
           example_world
           (JsonBinClient.mk
              (mkDocument (Some 1)
                 (Some (example_items ++ [mkItem 3 "Learn Go" "todo" None])))
              [])).
  - reflexivity.
  - left. exists RuntimeError_request. reflexivity.
Defined.

(** ** The invariant of a task *)

Lemma rename_title_valid n t r t' :
  valid t -> Task.rename_title n t = (r, t') -> valid t'.
Proof.
  intros Hv. destruct (title_ok_dec (strip n)) as [Hok|Hbad].
  - rewrite (rename_title_returns t n Hok). intros [= _ <-].
    split; [apply strip_idem|exact Hok].
  - rewrite (rename_title_raises t n Hbad). now intros [= _ <-].
Qed.

Lemma change_status_valid a t r t' :
  valid t -> Task.change_status a t = (r, t') -> valid t'.
Proof.
  intros Hv. destruct a as [s|s]; simpl; unfold raise; now intros [= _ <-].
Qed.

Lemma init_valid i ti st no :
  strip (Task.title (Task.init i ti st no)) = Task.title (Task.init i ti st no) /\
  (valid (Task.init i ti st no) <-> title_ok (strip ti)).
Proof.
  unfold valid. simpl. split; [apply strip_idem|]. split; [now intros [_ H]|].
  intros H. split; [apply strip_idem|exact H].
Qed.

Lemma setters_valid title status t r t' :
  valid t -> setters title status t = (r, t') -> valid t'.
Proof.
  intros Hv. destruct (title_arg_ok_dec title) as [Hok|(n & -> & Hbad)].
  - rewrite (setters_ok title status t Hok). intros [= _ <-].
    now apply updated_valid.
  - rewrite (setters_raise n status t Hbad). now intros [= _ <-].
Qed.

Lemma Forall_valid_dict (d : dict) :
  Forall valid (map snd d) <-> Forall (fun kv => valid (snd kv)) d.
Proof. apply Forall_map. Qed.

Lemma mem_update_task_valid s id title status r s' :
  Forall valid (map snd (TaskStore.tasks s)) ->
  TaskStore.update_task id title status s = (r, s') ->
  Forall valid (map snd (TaskStore.tasks s')) /\
  forall t, r = Ok t -> valid t.
Proof.
  intros Hv. rewrite mem_update_task_setters.
  destruct (dict_get id (TaskStore.tasks s)) as [t|] eqn:E.
  - assert (valid t) as Ht.
    { apply dict_get_In in E. apply Forall_valid_dict in Hv.
      exact (proj1 (Forall_forall _ _) Hv _ E). }
    destruct (setters (given title) status t) as [[[]|e] t'] eqn:Es;
      apply (setters_valid _ _ _ _ _ Ht) in Es; intros [= <- <-]; simpl;
      (split; [|congruence]); apply Forall_valid_dict, dict_set_Forall;
      try assumption; now apply Forall_valid_dict.
  - intros [= <- <-]. split; [exact Hv|discriminate].
Qed.

Lemma mem_delete_task_valid s id r s' :
  Forall valid (map snd (TaskStore.tasks s)) ->
  TaskStore.delete_task id s = (r, s') ->
  Forall valid (map snd (TaskStore.tasks s')).
Proof.
  intros Hv. unfold TaskStore.delete_task.
  destruct (dict_get id (TaskStore.tasks s)); intros [= <- <-]; [|exact Hv].
  simpl. apply Forall_valid_dict, dict_del_Forall. now apply Forall_valid_dict.
Qed.

Lemma mem_create_task_valid s title status :
  Forall valid (map snd (TaskStore.tasks s)) ->
  exists t s',
    TaskStore.create_task title status s = (Ok t, s') /\
    strip (Task.title t) = Task.title t /\
    (valid t <-> title_ok (strip title)) /\
    (title_ok (strip title) -> Forall valid (map snd (TaskStore.tasks s'))).
Proof.
  intros Hv. eexists. eexists. split; [reflexivity|].
  destruct (init_valid (TaskStore.next_id s) title status None) as [H1 H2].
  split; [exact H1|]. split; [exact H2|]. intros Hok. simpl.
  apply Forall_valid_dict, dict_set_Forall; [now apply H2|].
  now apply Forall_valid_dict.
Qed.

Lemma file_update_task_valid f ts id title status r f' :
  FileTaskStore.get_all f = (Ok ts, f) -> Forall valid ts ->
  FileTaskStore.update_task id title status f = (r, f') ->
  exists ts',
    FileTaskStore.get_all f' = (Ok ts', f') /\ Forall valid ts' /\
    forall t, r = Ok t -> valid t.
Proof.
  intros H Hv.
  destruct (find_index (fun t => Task.id t =? id) ts) as [[i t]|] eqn:Ef.
  - assert (valid t) as Ht.
    { apply find_index_some in Ef as (Hn & _ & _).
      exact (proj1 (Forall_forall _ _) Hv t (nth_error_In _ _ Hn)). }
    destruct (title_arg_ok_dec title) as [Hok|(n & -> & Hbad)].
    + rewrite (file_update_task_ok f ts id i t title status H Ef Hok).
      intros [= <- <-]. eexists. split.
      * apply (file_get_all_updated f ts id i t title status H Ef).
      * pose proof (updated_valid title status t Hok Ht) as Hu.
        split; [now apply Forall_set_nth|]. now intros t' [= <-].
    + rewrite (file_update_task_raise f ts id i t n status H Ef Hbad).
      intros [= <- <-]. exists ts.
      split; [exact H|]. split; [exact Hv|discriminate].
  - rewrite (file_update_task_missing f ts id title status H Ef).
    intros [= <- <-]. exists ts.
      split; [exact H|]. split; [exact Hv|discriminate].
Qed.

Lemma file_delete_task_valid f ts id r f' :
  FileTaskStore.get_all f = (Ok ts, f) -> Forall valid ts ->
  FileTaskStore.delete_task id f = (r, f') ->
  exists ts', FileTaskStore.get_all f' = (Ok ts', f') /\ Forall valid ts'.
Proof.
  intros H Hv. rewrite (file_delete_task f ts id H). intros [= <- <-].
  eexists. split.
  - apply file_get_all_written.
    apply (delete_loop_keeps normal normal_pop (S (List.length ts)) id O ts).
    eapply file_get_all_normal, H.
  - apply (delete_loop_keeps (Forall valid) (Forall_pop valid)
             (S (List.length ts)) id O ts Hv).
Qed.

Lemma file_create_task_valid f ts title status :
  FileTaskStore.get_all f = (Ok ts, f) ->
  exists t f',
    FileTaskStore.create_task title status f = (Ok t, f') /\
    strip (Task.title t) = Task.title t /\
    (valid t <-> title_ok (strip title)) /\
    FileTaskStore.get_all f' = (Ok (ts ++ [t]), f').
Proof.
  intros H. eexists. eexists.
  split; [apply (file_create_task f ts title status H)|].
  destruct (init_valid (next_free_id (map Task.id ts)) title status None)
    as [H1 H2].
  split; [exact H1|]. split; [exact H2|].
  apply file_get_all_written, normal_snoc. eapply file_get_all_normal, H.
Qed.

Lemma rmap_nth_error {A B} (f : A -> Result B) (l : list A) (r : list B)
    (i : nat) (x : A) :
  rmap f l = Ok r -> nth_error l i = Some x ->
  exists y, f x = Ok y /\ nth_error r i = Some y.
Proof.
  intros H. apply rmap_Forall2 in H. revert i.
  induction H as [|a b l r Hab _ IH]; intros i; [destruct i; discriminate|].
  destruct i; simpl; [intros [= <-]; now exists b|apply IH].
Qed.

Lemma rmap_set_nth {A B} (f : A -> Result B) (l : list A) (r : list B)
    (i : nat) (y : A) (z : B) :
  rmap f l = Ok r -> f y = Ok z ->
  rmap f (set_nth i y l) = Ok (set_nth i z r).
Proof.
  intros H Hy. apply rmap_Forall2. apply rmap_Forall2 in H. revert i.
  induction H as [|a b l r Hab Hlr IH]; intros i; simpl; [constructor|].
  destruct i; constructor; auto.
Qed.

Lemma rmap_pop {A B} (f : A -> Result B) (l : list A) (r : list B) (i : nat) :
  rmap f l = Ok r -> rmap f (pop i l) = Ok (pop i r).
Proof.
  intros H. apply rmap_Forall2. apply rmap_Forall2 in H. revert i.
  induction H as [|a b l r Hab Hlr IH]; intros i; simpl; [constructor|].
  destruct i; [exact Hlr|]. constructor; auto.
Qed.

Lemma remote_new_item_decodes i ti st :
  RemoteTaskStore.task_of_item (new_item (Task.init i ti st None))
  = Ok (Task.init i ti st None).
Proof.
  unfold RemoteTaskStore.task_of_item, new_item. simpl.
  rewrite TaskStatus_of_value. simpl. unfold Task.init.
  now rewrite strip_idem.
Qed.

Lemma remote_obj_valid title status notes it st :
  title_arg_ok title ->
  valid (Task.init (item_id it) (item_title it) st (item_notes it)) ->
  valid (remote_obj title status notes it st).
Proof.
  intros Hok Hv. unfold remote_obj.
  pose proof (updated_valid title status _ Hok Hv) as Hu.
  now destruct notes.
Qed.

Lemma remote_update_task_valid w ts id title status notes r w' :
  rmap RemoteTaskStore.task_of_item (get_tasks (JsonBinClient.bin w)) = Ok ts ->
  Forall valid ts ->
  RemoteTaskStore.update_task id title status notes w = (r, w') ->
  exists ts',
    rmap RemoteTaskStore.task_of_item (get_tasks (JsonBinClient.bin w'))
    = Ok ts' /\
    Forall valid ts' /\
    forall t, r = Ok t -> valid t.
Proof.
  intros H Hv Hu. apply remote_update_task_effect in Hu.
  destruct Hu as [[Hb [e ->]]|(items & i & it & st & Hd & Hf & Hs & Hok & Hb & Hr)].
  - exists ts. rewrite Hb. split; [exact H|]. split; [exact Hv|discriminate].
  - unfold get_tasks in H. rewrite Hd in H.
    apply find_index_some in Hf as (Hn & _ & _).
    destruct (rmap_nth_error _ _ _ _ _ H Hn) as (t & Ht & Hnt).
    apply remote_task_of_item_inv in Ht as (st' & Hs' & ->).
    assert (st' = st) as -> by congruence.
    assert (valid (remote_obj title status notes it st)) as Hobj.
    { apply remote_obj_valid; [exact Hok|].
      exact (proj1 (Forall_forall _ _) Hv _ (nth_error_In _ _ Hnt)). }
    exists (set_nth i (remote_obj title status notes it st) ts).
    rewrite Hb. unfold get_tasks. simpl. split.
    + apply (rmap_set_nth _ _ _ _ _ _ H), remote_item_decodes.
    + split; [now apply Forall_set_nth|].
      destruct Hr as [->|[e ->]]; [now intros t' [= <-]|discriminate].
Qed.

Lemma remote_delete_task_valid w ts id r w' :
  rmap RemoteTaskStore.task_of_item (get_tasks (JsonBinClient.bin w)) = Ok ts ->
  Forall valid ts ->
  RemoteTaskStore.delete_task id w = (r, w') ->
  exists ts',
    rmap RemoteTaskStore.task_of_item (get_tasks (JsonBinClient.bin w'))
    = Ok ts' /\
    Forall valid ts'.
Proof.
  intros H Hv Hu. apply remote_delete_task_effect in Hu.
  destruct Hu as [[Hb _]|(items & i & it & Hd & _ & Hb & _)].
  - exists ts. rewrite Hb. now split.
  - unfold get_tasks in H. rewrite Hd in H.
    exists (pop i ts). rewrite Hb. unfold get_tasks. simpl.
    split; [now apply rmap_pop|now apply Forall_pop].
Qed.

Lemma remote_create_task_valid w ts title status t w' :
  rmap RemoteTaskStore.task_of_item (get_tasks (JsonBinClient.bin w)) = Ok ts ->
  RemoteTaskStore.create_task title status w = (Ok t, w') ->
  strip (Task.title t) = Task.title t /\
  (valid t <-> title_ok (strip title)) /\
  rmap RemoteTaskStore.task_of_item (get_tasks (JsonBinClient.bin w'))
  = Ok (ts ++ [t]).
Proof.
  intros H Hc. apply remote_create_task_effect in Hc.
  destruct Hc as [[_ [e He]]|(items & Hd & Hb & [Hr|[e He]])]; try discriminate.
  injection Hr as ->.
  destruct (init_valid (next_free_id (map item_id items)) title status None)
    as [H1 H2].
  split; [exact H1|]. split; [exact H2|].
  unfold get_tasks in H. rewrite Hd in H.
  rewrite Hb. unfold get_tasks. simpl.
  apply (rmap_app _ _ _ _ _ H). cbn [rmap].
  now rewrite remote_new_item_decodes.
Qed.

(** C4, as amended.  The status of a task is a member of the enum, and the
    title of a task that [Task.__init__] built is stripped.  A task whose
    title is stripped and has between 1 and 50 characters keeps this under
    [rename_title] and [change_status], whether they return or raise; in
    each store, when every task it holds is such a task, this is still so
    after [update_task] and [delete_task], whatever their outcome, and a
    task that [update_task] returns is such a task.  [create_task] strips
    the title and checks nothing: the task it creates is within the bounds
    exactly when the stripped title it was given is, and the tasks that were
    there stay as they are. *)
Theorem task_invariant :
  (forall t n r t',
     valid t -> Task.rename_title n t = (r, t') -> valid t') /\
  (forall t a r t',
     valid t -> Task.change_status a t = (r, t') -> valid t') /\
  (forall s,
     Forall valid (map snd (TaskStore.tasks s)) ->
     (forall id title status r s',
        TaskStore.update_task id title status s = (r, s') ->
        Forall valid (map snd (TaskStore.tasks s')) /\
        forall t, r = Ok t -> valid t) /\
     (forall id r s',
        TaskStore.delete_task id s = (r, s') ->
        Forall valid (map snd (TaskStore.tasks s'))) /\
     (forall title status, exists t s',
        TaskStore.create_task title status s = (Ok t, s') /\
        strip (Task.title t) = Task.title t /\
        (valid t <-> title_ok (strip title)) /\
        (title_ok (strip title) ->
         Forall valid (map snd (TaskStore.tasks s'))))) /\
  (forall f ts,
     FileTaskStore.get_all f = (Ok ts, f) ->
     Forall valid ts ->
     (forall id title status r f',
        FileTaskStore.update_task id title status f = (r, f') ->
        exists ts',
          FileTaskStore.get_all f' = (Ok ts', f') /\ Forall valid ts' /\
          forall t, r = Ok t -> valid t) /\
     (forall id r f',
        FileTaskStore.delete_task id f = (r, f') ->
        exists ts',
          FileTaskStore.get_all f' = (Ok ts', f') /\ Forall valid ts') /\
     (forall title status, exists t f',
        FileTaskStore.create_task title status f = (Ok t, f') /\
        strip (Task.title t) = Task.title t /\
        (valid t <-> title_ok (strip title)) /\
        FileTaskStore.get_all f' = (Ok (ts ++ [t]), f'))) /\
  (forall w ts,
     rmap RemoteTaskStore.task_of_item (get_tasks (JsonBinClient.bin w))
     = Ok ts ->
     Forall valid ts ->
     (forall id title status notes r w',
        RemoteTaskStore.update_task id title status notes w = (r, w') ->
        exists ts',
          rmap RemoteTaskStore.task_of_item (get_tasks (JsonBinClient.bin w'))
          = Ok ts' /\
          Forall valid ts' /\
          forall t, r = Ok t -> valid t) /\
     (forall id r w',
        RemoteTaskStore.delete_task id w = (r, w') ->
        exists ts',
          rmap RemoteTaskStore.task_of_item (get_tasks (JsonBinClient.bin w'))
          = Ok ts' /\
          Forall valid ts') /\
     (forall title status t w',
        RemoteTaskStore.create_task title status w = (Ok t, w') ->
        strip (Task.title t) = Task.title t /\
        (valid t <-> title_ok (strip title)) /\
        rmap RemoteTaskStore.task_of_item (get_tasks (JsonBinClient.bin w'))
        = Ok (ts ++ [t]))).
Proof.
  split; [|split; [|split; [|split]]].
  - intros t n r t'. apply rename_title_valid.
  - intros t a r t'. apply change_status_valid.
  - intros s Hv. split; [|split].
    + intros id title status r s'. now apply mem_update_task_valid.
    + intros id r s'. now apply mem_delete_task_valid.
    + intros title status. now apply mem_create_task_valid.
  - intros f ts H Hv. split; [|split].
    + intros id title status r f'. now apply (file_update_task_valid f ts).
    + intros id r f'. now apply (file_delete_task_valid f ts).
    + intros title status. now apply file_create_task_valid.
  - intros w ts H Hv. split; [|split].
    + intros id title status notes r w'.
      now apply (remote_update_task_valid w ts).
    + intros id r w'. now apply (remote_delete_task_valid w ts).
    + intros title status t w'. now apply remote_create_task_valid.
Qed.

(** C4, at construction: each store creates a task from a title of
    spaces, and the title of the task is empty. *)
Lemma create_task_empty_title :
  exists s f w,
    TaskStore.create_task "   " TODO TaskStore.init
    = (Ok (Task.mk 1 "" TODO None), s) /\
    FileTaskStore.create_task "   " TODO (written [])
    = (Ok (Task.mk 1 "" TODO None), f) /\
    RemoteTaskStore.create_task "   " TODO
      (JsonBinClient.mk (mkDocument (Some 1) (Some [])) [])
    = (Ok (Task.mk 1 "" TODO None), w) /\
    len (Task.title (Task.mk 1 "" TODO None)) = 0.
Proof.
  eexists. eexists. eexists.
  split; [cbv; reflexivity|]. split; [cbv; reflexivity|].
  split; [cbv; reflexivity|reflexivity].
Qed.

Lemma example_tasks_valid : Forall valid example_tasks.
Proof.
  repeat constructor; unfold title_ok, len; simpl; lia.
Qed.

Lemma task_invariant_witness :
  valid (Task.mk 1 "Learn Rust" TODO None) /\
  (exists ts',
     FileTaskStore.get_all
       (snd (FileTaskStore.update_task 2 (Some " Learn Rocq ") None example_file))
     = (Ok ts',
        snd (FileTaskStore.update_task 2 (Some " Learn Rocq ") None example_file)) /\
     Forall valid ts') /\
  (exists ts',
     FileTaskStore.get_all (snd (FileTaskStore.delete_task 1 example_file))
     = (Ok ts', snd (FileTaskStore.delete_task 1 example_file)) /\
     Forall valid ts').
Proof.
  destruct task_invariant as (Hrename & _ & _ & Hfile & _).
  destruct (Hfile example_file example_tasks eq_refl example_tasks_valid)
    as (Hupdate & Hdelete & _).
  split; [|split].
  - apply (Hrename (Task.mk 1 "Learn Go" TODO None) "  Learn Rust " (Ok tt)).
    + split; [reflexivity|]. unfold title_ok, len. simpl. lia.
    + reflexivity.
  - destruct (Hupdate 2 (Some " Learn Rocq ") None _ _
                (surjective_pairing _)) as (ts' & H1 & H2 & _).
    now exists ts'.
  - exact (Hdelete 1 _ _ (surjective_pairing _)).
Defined.

(** * Further properties *)

(** ** The in-memory store: order and identity of the tasks *)

Lemma dict_get_None_iff k d : dict_get k d = None <-> ~ In k (keys d).
Proof.
  unfold keys. induction d as [|[k' v'] d IH]; simpl.
  - split; [intros _ []|reflexivity].
  - destruct (Z.eqb_spec k' k) as [->|Hne].
    + split; [discriminate|]. intros H. destruct H. now left.
    + rewrite IH. split; [intros H [H'|H']; [congruence|auto]|auto].
Qed.

Lemma dict_set_keys k v d :
  keys (dict_set k v d)
  = match dict_get k d with
    | Some _ => keys d
    | None => keys d ++ [k]
    end.
Proof.
  unfold keys. induction d as [|[k' v'] d IH]; simpl; [reflexivity|].
  destruct (Z.eqb_spec k' k) as [->|Hne]; simpl; [reflexivity|].
  rewrite IH. now destruct (dict_get k d).
Qed.

Lemma dict_set_new k v d :
  dict_get k d = None -> dict_set k v d = d ++ [(k, v)].
Proof.
  induction d as [|[k' v'] d IH]; simpl; [reflexivity|].
  destruct (Z.eqb_spec k' k) as [->|Hne]; [discriminate|].
  intros H. now rewrite IH.
Qed.

Lemma dict_get_set_other k k' v d :
  k <> k' -> dict_get k' (dict_set k v d) = dict_get k' d.
Proof.
  intros Hne. induction d as [|[k0 v0] d IH]; simpl.
  - now rewrite (proj2 (Z.eqb_neq k k') Hne).
  - destruct (Z.eqb_spec k0 k) as [->|H0]; simpl.
    + now rewrite (proj2 (Z.eqb_neq k k') Hne).
    + now rewrite IH.
Qed.

Lemma dict_del_keys_In k k' d : In k' (keys (dict_del k d)) -> In k' (keys d).
Proof.
  unfold keys. induction d as [|[k0 v0] d IH]; simpl; [intros []|].
  destruct (k0 =? k); simpl; [now right|].
  intros [H|H]; [now left|right; auto].
Qed.

Lemma dict_del_keys_sorted k d :
  StronglySorted Z.lt (keys d) -> StronglySorted Z.lt (keys (dict_del k d)).
Proof.
  unfold keys. induction d as [|[k0 v0] d IH]; simpl; intros H; [constructor|].
  inversion H as [|? ? Hs Hf]; subst.
  destruct (k0 =? k); simpl; [exact Hs|]. constructor; [now apply IH|].
  apply Forall_forall. intros x Hx.
  exact (proj1 (Forall_forall _ _) Hf x (dict_del_keys_In k x d Hx)).
Qed.

Lemma dict_del_gone k d :
  StronglySorted Z.lt (keys d) -> dict_get k (dict_del k d) = None.
Proof.
  unfold keys. induction d as [|[k0 v0] d IH]; simpl; intros H; [reflexivity|].
  inversion H as [|? ? Hs Hf]; subst.
  destruct (Z.eqb_spec k0 k) as [->|Hne]; simpl.
  - apply dict_get_None_iff. intros Hin.
    pose proof (proj1 (Forall_forall _ _) Hf k Hin). lia.
  - rewrite (proj2 (Z.eqb_neq k0 k) Hne). now apply IH.
Qed.

Lemma dict_del_other k k' d :
  k <> k' -> dict_get k' (dict_del k d) = dict_get k' d.
Proof.
  intros Hne. induction d as [|[k0 v0] d IH]; simpl; [reflexivity|].
  destruct (Z.eqb_spec k0 k) as [->|H0]; simpl.
  - now rewrite (proj2 (Z.eqb_neq k k') Hne).
  - now rewrite IH.
Qed.

Lemma StronglySorted_snoc (l : list Z) (x : Z) :
  StronglySorted Z.lt l -> (forall y, In y l -> y < x) ->
  StronglySorted Z.lt (l ++ [x]).
Proof.
  induction l as [|a l IH]; simpl; intros Hs Hx; [repeat constructor|].
  inversion Hs as [|? ? Hs' Hf]; subst.
  constructor; [apply IH; auto|].
  apply Forall_app. split; [exact Hf|]. constructor; [|constructor]. auto.
Qed.

Lemma setters_id title status t r t' :
  setters title status t = (r, t') -> Task.id t' = Task.id t.
Proof.
  destruct (title_arg_ok_dec title) as [Hok|(n & -> & Hbad)].
  - rewrite (setters_ok title status t Hok). intros [= _ <-]. apply updated_id.
  - rewrite (setters_raise n status t Hbad). now intros [= _ <-].
Qed.

(** What every call keeps: the keys ascend strictly and stay below the
    counter, and a task is stored under its own id. *)
Lemma reachable_ordered (s : TaskStore.t) :
  reachable s ->
  StronglySorted Z.lt (keys (TaskStore.tasks s)) /\
  Forall (fun kv => fst kv < TaskStore.next_id s /\ Task.id (snd kv) = fst kv)
    (TaskStore.tasks s).
Proof.
  induction 1 as [|c s _ [IHs IHf]]; [split; constructor|].
  destruct c as [title status|id title status|id]; simpl.
  - assert (dict_get (TaskStore.next_id s) (TaskStore.tasks s) = None) as Hn.
    { apply dict_get_None_iff. unfold keys. intros Hin.
      apply in_map_iff in Hin as (kv & Hk & Hin).
      destruct (proj1 (Forall_forall _ _) IHf kv Hin) as [H1 _].
      simpl in H1. lia. }
    split.
    + rewrite dict_set_keys, Hn. apply StronglySorted_snoc; [exact IHs|].
      unfold keys. intros y Hin. apply in_map_iff in Hin as (kv & <- & Hin).
      exact (proj1 (proj1 (Forall_forall _ _) IHf kv Hin)).
    + apply dict_set_Forall; simpl; [split; [lia|reflexivity]|].
      eapply Forall_impl; [|exact IHf]. simpl. intros kv [H1 H2]. split; [lia|exact H2].
  - rewrite mem_update_task_setters.
    destruct (dict_get id (TaskStore.tasks s)) as [t|] eqn:E; [|now split].
    pose proof (dict_get_In _ _ _ E) as Hin.
    pose proof (proj1 (Forall_forall _ _) IHf _ Hin) as [Hlt Hid]. simpl in Hlt, Hid.
    destruct (setters (given title) status t) as [r t'] eqn:Es.
    apply setters_id in Es.
    assert (StronglySorted Z.lt (keys (dict_set id t' (TaskStore.tasks s))) /\
            Forall (fun kv => fst kv < TaskStore.next_id s /\
                              Task.id (snd kv) = fst kv)
              (dict_set id t' (TaskStore.tasks s))) as Hgoal.
    { split; [now rewrite dict_set_keys, E|].
      apply dict_set_Forall; [simpl; split; [exact Hlt|congruence]|exact IHf]. }
    now destruct r as [[]|e].
  - unfold TaskStore.delete_task.
    destruct (dict_get id (TaskStore.tasks s)); [|now split].
    simpl. split; [now apply dict_del_keys_sorted|now apply dict_del_Forall].
Qed.

(** X1: in every state that calls lead to from the empty store, [get_all]
    returns the tasks in strictly ascending order of id (so no two tasks
    share an id), each stored under its own id and with an id below the
    counter. *)
Theorem mem_get_all_ascending (s : TaskStore.t) :
  reachable s ->
  exists ts,
    TaskStore.get_all s = (Ok ts, s) /\
    StronglySorted Z.lt (map Task.id ts) /\
    NoDup (map Task.id ts) /\
    forall t, In t ts ->
      Task.id t < TaskStore.next_id s /\
      dict_get (Task.id t) (TaskStore.tasks s) = Some t.
Proof.
  intros Hr. destruct (reachable_ordered s Hr) as [Hs Hf].
  exists (map snd (TaskStore.tasks s)). split; [reflexivity|].
  assert (map Task.id (map snd (TaskStore.tasks s)) = keys (TaskStore.tasks s))
    as Hk.
  { unfold keys. rewrite map_map. apply map_ext_in. intros kv Hin.
    exact (proj2 (proj1 (Forall_forall _ _) Hf kv Hin)). }
  rewrite Hk. split; [exact Hs|]. split.
  - clear Hk Hf. induction Hs as [|a l Hs IH Hfa]; constructor; [|exact IH].
    intros Hin. pose proof (proj1 (Forall_forall _ _) Hfa a Hin). lia.
  - intros t Hin. apply in_map_iff in Hin as ([k v] & <- & Hin).
    destruct (proj1 (Forall_forall _ _) Hf _ Hin) as [H1 H2]. simpl in *.
    split; [lia|]. rewrite H2.
    clear Hk Hf H1 H2.
    induction (TaskStore.tasks s) as [|[k0 v0] d IH]; [destruct Hin|].
    simpl in *. inversion Hs as [|? ? Hs' Hfa]; subst.
    destruct Hin as [[= -> ->]|Hin]; [now rewrite Z.eqb_refl|].
    destruct (Z.eqb_spec k0 k) as [->|Hne]; [|now apply IH].
    assert (In k (keys d)) as Hk by (unfold keys; apply in_map_iff; now exists (k, v)).
    pose proof (proj1 (Forall_forall _ _) Hfa k Hk). lia.
Qed.

Lemma mem_get_all_ascending_witness :
  exists ts,
    TaskStore.get_all example_store = (Ok ts, example_store) /\
    StronglySorted Z.lt (map Task.id ts) /\
    NoDup (map Task.id ts) /\
    forall t, In t ts ->
      Task.id t < TaskStore.next_id example_store /\
      dict_get (Task.id t) (TaskStore.tasks example_store) = Some t.
Proof. apply (mem_get_all_ascending example_store example_store_reachable). Defined.

Lemma reaches_reachable s0 s : reachable s0 -> reaches s0 s -> reachable s.
Proof. intros H0. induction 1; [exact H0|now constructor]. Qed.

Lemma mem_delete_task_found s id t :
  dict_get id (TaskStore.tasks s) = Some t ->
  TaskStore.delete_task id s
  = (Ok tt, TaskStore.mk (dict_del id (TaskStore.tasks s)) (TaskStore.next_id s)).
Proof. intros H. unfold TaskStore.delete_task. now rewrite H. Qed.

(** After a delete, no call brings the id back. *)
Lemma mem_id_stays_gone s0 id s :
  dict_get id (TaskStore.tasks s0) = None -> id < TaskStore.next_id s0 ->
  reaches s0 s ->
  dict_get id (TaskStore.tasks s) = None /\ id < TaskStore.next_id s.
Proof.
  intros H0 Hlt. induction 1 as [|c s _ [IHn IHlt]]; [now split|].
  destruct c as [title status|k title status|k]; simpl.
  - split; [|lia]. rewrite dict_get_set_other by lia. exact IHn.
  - rewrite mem_update_task_setters.
    destruct (dict_get k (TaskStore.tasks s)) as [t|] eqn:E; [|now split].
    assert (k <> id) as Hne by congruence.
    destruct (setters (given title) status t) as [[[]|e] t']; simpl;
      (split; [|exact IHlt]); now rewrite dict_get_set_other.
  - unfold TaskStore.delete_task.
    destruct (dict_get k (TaskStore.tasks s)) as [t|] eqn:E; [|now split].
    simpl. split; [|exact IHlt].
    apply dict_get_None_iff. intros Hin. apply dict_del_keys_In in Hin.
    now apply dict_get_None_iff in IHn.
Qed.

(** X2: once a task of the in-memory store is deleted, its id is gone for
    good: whatever calls follow, no task is stored under this id, so
    [update_task] and [delete_task] of it raise the not-found error, and
    every task created later has a larger id. *)
Theorem mem_deleted_id_never_returns (s s' : TaskStore.t) (id : Z) (t : Task.t) :
  reachable s ->
  dict_get id (TaskStore.tasks s) = Some t ->
  reaches (exec (Delete id) s) s' ->
  dict_get id (TaskStore.tasks s') = None /\
  (forall title status,
     TaskStore.update_task id title status s'
     = (Raise ValueError_id_not_found, s')) /\
  TaskStore.delete_task id s' = (Raise ValueError_id_not_found, s') /\
  (forall title status,
     id < Task.id (Task.init (TaskStore.next_id s') title status None) /\
     fst (TaskStore.create_task title status s')
     = Ok (Task.init (TaskStore.next_id s') title status None)).
Proof.
  intros Hr Hg Hs'.
  destruct (reachable_ordered s Hr) as [Hs Hf].
  assert (dict_get id (TaskStore.tasks s') = None /\ id < TaskStore.next_id s')
    as [Hn Hlt].
  { apply (mem_id_stays_gone (exec (Delete id) s)); [| |exact Hs'].
    - simpl. rewrite (mem_delete_task_found s id t Hg). simpl.
      now apply dict_del_gone.
    - simpl. rewrite (mem_delete_task_found s id t Hg). simpl.
      apply dict_get_In in Hg.
      destruct (proj1 (Forall_forall _ _) Hf _ Hg) as [H1 _]. exact H1. }
  split; [exact Hn|]. split; [|split].
  - intros title status. unfold TaskStore.update_task. now rewrite Hn.
  - unfold TaskStore.delete_task. now rewrite Hn.
  - intros title status. split; [exact Hlt|reflexivity].
Qed.

Lemma mem_deleted_id_never_returns_witness :
  dict_get 1
    (TaskStore.tasks
       (exec (Create "c" TODO) (exec (Delete 1) example_store))) = None /\
  (forall title status,
     TaskStore.update_task 1 title status
       (exec (Create "c" TODO) (exec (Delete 1) example_store))
     = (Raise ValueError_id_not_found,
        exec (Create "c" TODO) (exec (Delete 1) example_store))) /\
  TaskStore.delete_task 1
    (exec (Create "c" TODO) (exec (Delete 1) example_store))
  = (Raise ValueError_id_not_found,
     exec (Create "c" TODO) (exec (Delete 1) example_store)) /\
  (forall title status,
     1 < Task.id
           (Task.init
              (TaskStore.next_id
                 (exec (Create "c" TODO) (exec (Delete 1) example_store)))
              title status None) /\
     fst (TaskStore.create_task title status
            (exec (Create "c" TODO) (exec (Delete 1) example_store)))
     = Ok (Task.init
             (TaskStore.next_id
                (exec (Create "c" TODO) (exec (Delete 1) example_store)))
             title status None)).
Proof.
  apply (mem_deleted_id_never_returns example_store
           (exec (Create "c" TODO) (exec (Delete 1) example_store)) 1
           (Task.mk 1 "Buy milk" TODO None)).
  - exact example_store_reachable.
  - reflexivity.
  - apply reaches_call, reaches_here.
Defined.

(** X3: in every state that calls lead to, [create_task] returns a task
    with the stripped title, the given status, no notes and the counter as
    its id, which no stored task has; [get_all] then returns the tasks that
    were there, in their order, followed by the new task, and the counter
    has gone up by one. *)
Theorem mem_create_task_appends (s : TaskStore.t) (title : string)
    (status : TaskStatus) :
  reachable s ->
  exists t s',
    TaskStore.create_task title status s = (Ok t, s') /\
    t = Task.mk (TaskStore.next_id s) (strip title) status None /\
    ~ In (Task.id t) (map Task.id (map snd (TaskStore.tasks s))) /\
    TaskStore.get_all s' = (Ok (map snd (TaskStore.tasks s) ++ [t]), s') /\
    TaskStore.next_id s' = TaskStore.next_id s + 1.
Proof.
  intros Hr. destruct (reachable_ordered s Hr) as [Hs Hf].
  eexists. eexists. split; [reflexivity|]. split; [reflexivity|].
  assert (dict_get (TaskStore.next_id s) (TaskStore.tasks s) = None) as Hn.
  { apply dict_get_None_iff. unfold keys. intros Hin.
    apply in_map_iff in Hin as (kv & Hk & Hin).
    destruct (proj1 (Forall_forall _ _) Hf kv Hin) as [H1 _].
    simpl in H1. lia. }
  split; [|split; [|reflexivity]].
  - simpl. rewrite map_map. intros Hin.
    apply in_map_iff in Hin as (kv & Hk & Hin).
    destruct (proj1 (Forall_forall _ _) Hf kv Hin) as [H1 H2].
    simpl in H1, H2. lia.
  - unfold TaskStore.get_all. simpl.
    now rewrite (dict_set_new _ _ _ Hn), map_app.
Qed.

Lemma mem_create_task_appends_witness :
  exists t s',
    TaskStore.create_task " Read " DONE example_store = (Ok t, s') /\
    t = Task.mk 3 "Read" DONE None /\
    ~ In (Task.id t) (map Task.id (map snd (TaskStore.tasks example_store))) /\
    TaskStore.get_all s'
    = (Ok (map snd (TaskStore.tasks example_store) ++ [t]), s') /\
    TaskStore.next_id s' = 3 + 1.
Proof.
  apply (mem_create_task_appends example_store " Read " DONE
           example_store_reachable).
Defined.

(** ** The file store: what cannot be read, and the loop of delete_task *)


Lemma TaskStatus_of_other (x : string) :
  (forall s, value s <> x) -> TaskStatus_of x = Raise (ValueError_enum x).
Proof.
  intros Hx. unfold TaskStatus_of.
  destruct (String.eqb x "todo") eqn:E1;
    [apply String.eqb_eq in E1; now destruct (Hx TODO)|].
  destruct (String.eqb x "in_progress") eqn:E2;
    [apply String.eqb_eq in E2; now destruct (Hx IN_PROGRESS)|].
  destruct (String.eqb x "done") eqn:E3;
    [apply String.eqb_eq in E3; now destruct (Hx DONE)|].
  reflexivity.
Qed.

Lemma rmap_first_raise {A B} (f : A -> Result B) (l1 l2 : list A) (x : A)
    (e : Exception) :
  Forall (fun y => exists r, f y = Ok r) l1 -> f x = Raise e ->
  rmap f (l1 ++ x :: l2) = Raise e.
Proof.
  intros H Hx. induction H as [|y l1 [r Hy] _ IH]; simpl.
  - now rewrite Hx.
  - now rewrite Hy, IH.
Qed.

(** X4: a file that cannot be read blocks every write.  When the file is
    missing, [get_all] raises [FileNotFoundError]; when an item of the
    document has a status that is no member of the enum, and the items
    before it have one, [get_all] raises the [ValueError] of this status.
    In these cases, and whenever [get_all] raises, [create_task],
    [update_task] and [delete_task] raise the same exception and leave
    the file as it is: a missing file is never created, and no task of a
    file with a bad status can be created, updated or deleted through the
    store. *)
Theorem file_unreadable_blocks_all (f : FileTaskStore.file) (e : Exception) :
  (f = None /\ e = FileNotFoundError) \/
  (exists data l1 item l2,
     f = Some data /\ get_tasks data = l1 ++ item :: l2 /\
     Forall (fun x => exists s, TaskStatus_of (item_status x) = Ok s) l1 /\
     (forall s, value s <> item_status item) /\
     e = ValueError_enum (item_status item)) \/
  fst (FileTaskStore.get_all f) = Raise e ->
  FileTaskStore.get_all f = (Raise e, f) /\
  (forall title status,
     FileTaskStore.create_task title status f = (Raise e, f)) /\
  (forall id title status,
     FileTaskStore.update_task id title status f = (Raise e, f)) /\
  (forall id, FileTaskStore.delete_task id f = (Raise e, f)).
Proof.
  intros H.
  assert (FileTaskStore.get_all f = (Raise e, f)) as Hg.
  { destruct H as [[-> ->]|[(data & l1 & item & l2 & -> & Hd & Hl & Hs & ->)|H]].
    - reflexivity.
    - unfold FileTaskStore.get_all. rewrite Hd.
      rewrite (rmap_first_raise _ l1 l2 item
                 (ValueError_enum (item_status item))); [reflexivity| |].
      + apply (Forall_impl _ (P := fun x =>
                 exists s, TaskStatus_of (item_status x) = Ok s));
          [|exact Hl].
        intros x [s Hx]. unfold FileTaskStore.task_of_item. rewrite Hx.
        simpl. eauto.
      + unfold FileTaskStore.task_of_item.
        now rewrite (TaskStatus_of_other _ Hs).
    - unfold FileTaskStore.get_all in *. destruct f; simpl in *;
        now rewrite H. }
  split; [exact Hg|]. split; [|split].
  - intros title status. unfold FileTaskStore.create_task, bind.
    now rewrite Hg.
  - intros id title status. unfold FileTaskStore.update_task, bind.
    now rewrite Hg.
  - intros id. unfold FileTaskStore.delete_task, bind. now rewrite Hg.
Qed.

Lemma file_unreadable_blocks_all_witness :
  (forall title status,
     FileTaskStore.create_task title status bad_status_file
     = (Raise (ValueError_enum "doing"), bad_status_file)) /\
  (forall id title status,
     FileTaskStore.update_task id title status bad_status_file
     = (Raise (ValueError_enum "doing"), bad_status_file)) /\
  (forall id,
     FileTaskStore.delete_task id bad_status_file
     = (Raise (ValueError_enum "doing"), bad_status_file)).
Proof.
  apply (file_unreadable_blocks_all bad_status_file (ValueError_enum "doing")).
  right. left.
  exists (mkDocument (Some 1)
            (Some [mkItem 1 "Buy milk" "todo" None;
                   mkItem 2 "Learn Go" "doing" None])),
         [mkItem 1 "Buy milk" "todo" None],
         (mkItem 2 "Learn Go" "doing" None), [].
  split; [reflexivity|]. split; [reflexivity|].
  split; [repeat constructor; exists TODO; reflexivity|].
  split; [intros [| |]; discriminate|reflexivity].
Defined.

Lemma pop_app_shift {A} (pre l : list A) (i : nat) :
  pop (List.length pre + i) (pre ++ l) = pre ++ pop i l.
Proof. induction pre as [|a pre IH]; simpl; [reflexivity|]. now rewrite IH. Qed.

(** The loop does not look at what lies before its index. *)
Lemma delete_loop_shift (fuel : nat) (id : Z) (pre l : list Task.t) (i : nat) :
  FileTaskStore.delete_loop fuel id (List.length pre + i) (pre ++ l)
  = pre ++ FileTaskStore.delete_loop fuel id i l.
Proof.
  revert i l. induction fuel as [|fuel IH]; intros i l; simpl; [reflexivity|].
  rewrite nth_error_app2 by lia.
  replace (List.length pre + i - List.length pre)%nat with i by lia.
  destruct (nth_error l i) as [t|]; [|reflexivity].
  replace (S (List.length pre + i)) with (List.length pre + S i)%nat by lia.
  destruct (Task.id t =? id); [rewrite pop_app_shift|]; apply IH.
Qed.

Lemma delete_loop_S (fuel : nat) (id : Z) (index : nat) (l : list Task.t) :
  FileTaskStore.delete_loop (S fuel) id index l
  = match nth_error l index with
    | None => l
    | Some task =>
        if Task.id task =? id
        then FileTaskStore.delete_loop fuel id (S index) (pop index l)
        else FileTaskStore.delete_loop fuel id (S index) l
    end.
Proof. reflexivity. Qed.

Lemma delete_loop_keep (id : Z) (t : Task.t) (r : list Task.t) :
  Task.id t <> id ->
  FileTaskStore.delete_loop (S (List.length (t :: r))) id 0 (t :: r)
  = t :: FileTaskStore.delete_loop (S (List.length r)) id 0 r.
Proof.
  intros Hne. apply Z.eqb_neq in Hne.
  rewrite (delete_loop_S (List.length (t :: r)) id 0 (t :: r)).
  cbn [nth_error]. rewrite Hne.
  apply (delete_loop_shift (S (List.length r)) id [t] r 0).
Qed.

Lemma delete_loop_skip (id : Z) (t u : Task.t) (r : list Task.t) :
  Task.id t = id ->
  FileTaskStore.delete_loop (S (List.length (t :: u :: r))) id 0 (t :: u :: r)
  = u :: FileTaskStore.delete_loop (S (List.length r)) id 0 r.
Proof.
  intros He.
  rewrite (delete_loop_S (List.length (t :: u :: r)) id 0 (t :: u :: r)).
  cbn [nth_error]. rewrite He, Z.eqb_refl. cbn [pop].
  change (FileTaskStore.delete_loop (List.length (t :: u :: r)) id 1 (u :: r))
    with (FileTaskStore.delete_loop (S (S (List.length r))) id
            (List.length [u] + 0) ([u] ++ r)).
  rewrite delete_loop_shift. cbn [app]. f_equal.
  apply delete_loop_enough_fuel; lia.
Qed.

(** X5: the loop of [FileTaskStore.delete_task], run on a list with the
    fuel that [delete_task] gives it: a task with another id is kept and
    the loop goes on with the rest; a task with the id is removed, and then
    the task that follows it is kept without being looked at, whatever its
    id, and the loop goes on after that one. *)
Theorem file_delete_loop_law (id : Z) :
  (forall t r,
     Task.id t <> id ->
     FileTaskStore.delete_loop (S (List.length (t :: r))) id 0 (t :: r)
     = t :: FileTaskStore.delete_loop (S (List.length r)) id 0 r) /\
  (forall t,
     Task.id t = id ->
     FileTaskStore.delete_loop (S (List.length [t])) id 0 [t] = []) /\
  (forall t u r,
     Task.id t = id ->
     FileTaskStore.delete_loop (S (List.length (t :: u :: r))) id 0 (t :: u :: r)
     = u :: FileTaskStore.delete_loop (S (List.length r)) id 0 r).
Proof.
  split; [|split].
  - intros t r. apply delete_loop_keep.
  - intros t He. simpl. now rewrite He, Z.eqb_refl.
  - intros t u r. apply delete_loop_skip.
Qed.

Lemma file_delete_loop_law_witness :
  FileTaskStore.delete_loop 4 2 0
    [Task.mk 2 "b" TODO None; Task.mk 2 "c" DONE None; Task.mk 3 "d" TODO None]
  = Task.mk 2 "c" DONE None
    :: FileTaskStore.delete_loop 2 2 0 [Task.mk 3 "d" TODO None].
Proof.
  apply (proj2 (proj2 (file_delete_loop_law 2))
           (Task.mk 2 "b" TODO None) (Task.mk 2 "c" DONE None)
           [Task.mk 3 "d" TODO None]).
  reflexivity.
Defined.

(** A prefix without the id is passed over. *)
Lemma delete_loop_prefix (id : Z) (l1 l : list Task.t) (fuel : nat) :
  (forall u, In u l1 -> Task.id u <> id) ->
  FileTaskStore.delete_loop (List.length l1 + fuel) id 0 (l1 ++ l)
  = l1 ++ FileTaskStore.delete_loop fuel id 0 l.
Proof.
  induction l1 as [|a l1 IH]; intros H; [reflexivity|].
  cbn [List.length Nat.add app]. rewrite delete_loop_S. cbn [nth_error].
  rewrite (proj2 (Z.eqb_neq _ _) (H a (or_introl eq_refl))).
  rewrite (delete_loop_shift _ id [a] (l1 ++ l) 0). cbn [app]. f_equal.
  apply IH. intros u Hu. apply H. now right.
Qed.

Lemma delete_loop_twin (id : Z) (l1 l2 : list Task.t) (t u : Task.t) :
  (forall v, In v l1 -> Task.id v <> id) -> Task.id t = id ->
  (forall v, In v l2 -> Task.id v <> id) ->
  FileTaskStore.delete_loop (S (List.length (l1 ++ t :: u :: l2))) id 0
    (l1 ++ t :: u :: l2)
  = l1 ++ u :: l2.
Proof.
  intros H1 Ht H2.
  rewrite (delete_loop_enough_fuel _
             (List.length l1 + S (List.length (t :: u :: l2))) id 0)
    by (rewrite length_app; simpl; lia).
  rewrite (delete_loop_prefix id l1 _ _ H1). f_equal.
  rewrite (delete_loop_skip id t u l2 Ht). f_equal.
  apply delete_loop_absent. intros j v _ Hj. apply H2. eapply nth_error_In, Hj.
Qed.

(** X6: [delete_task] of the file store on a file that [get_all] reads,
    for the id of a task [t] that no task before it has.  When no task
    after it has the id either, the task is removed, the others stay in
    their order, and a later [update_task] of the id raises the not-found
    error.  When the next task has the same id and no task after that one,
    only [t] is removed: the second task with the id stays in the file. *)
Theorem file_delete_task_existing (f : FileTaskStore.file)
    (l1 l2 : list Task.t) (t : Task.t) :
  FileTaskStore.get_all f = (Ok (l1 ++ t :: l2), f) ->
  (forall v, In v l1 -> Task.id v <> Task.id t) ->
  ((forall v, In v l2 -> Task.id v <> Task.id t) ->
   exists f',
     FileTaskStore.delete_task (Task.id t) f = (Ok tt, f') /\
     FileTaskStore.get_all f' = (Ok (l1 ++ l2), f') /\
     forall title status,
       FileTaskStore.update_task (Task.id t) title status f'
       = (Raise ValueError_id_not_found, f')) /\
  (forall u l3,
     l2 = u :: l3 -> Task.id u = Task.id t ->
     (forall v, In v l3 -> Task.id v <> Task.id t) ->
     exists f',
       FileTaskStore.delete_task (Task.id t) f = (Ok tt, f') /\
       FileTaskStore.get_all f' = (Ok (l1 ++ u :: l3), f')).
Proof.
  intros H H1.
  pose proof (file_get_all_normal _ _ _ H) as Hn.
  split.
  - intros H2.
    assert (FileTaskStore.get_all (written (l1 ++ l2))
            = (Ok (l1 ++ l2), written (l1 ++ l2))) as Hg.
    { apply file_get_all_written. rewrite <- (pop_app l1 l2 t).
      now apply normal_pop. }
    exists (written (l1 ++ l2)). split; [|split; [exact Hg|]].
    + rewrite (file_delete_task f _ (Task.id t) H). do 2 f_equal.
      apply delete_loop_once;
        [reflexivity| |lia|rewrite length_app; simpl; lia].
      intros v Hv. apply in_app_or in Hv as [Hv|Hv]; auto.
    + intros title status.
      apply (file_update_task_missing _ (l1 ++ l2) _ _ _ Hg).
      apply find_index_absent.
      intros v Hv. apply in_app_or in Hv as [Hv|Hv]; auto.
  - intros u l3 -> Hu H3.
    exists (written (l1 ++ u :: l3)). split.
    + rewrite (file_delete_task f _ (Task.id t) H). do 2 f_equal.
      now apply delete_loop_twin.
    + apply file_get_all_written. rewrite <- (pop_app l1 (u :: l3) t).
      now apply normal_pop.
Qed.

Lemma file_delete_task_existing_witness :
  exists f',
    FileTaskStore.delete_task 2 twin_file = (Ok tt, f') /\
    FileTaskStore.get_all f'
    = (Ok [Task.mk 1 "a" TODO None; Task.mk 2 "c" DONE None;
           Task.mk 3 "d" TODO None], f').
Proof.
  apply (proj2 (file_delete_task_existing twin_file
                  [Task.mk 1 "a" TODO None]
                  [Task.mk 2 "c" DONE None; Task.mk 3 "d" TODO None]
                  (Task.mk 2 "b" TODO None) eq_refl
                  ltac:(intros v [<-|[]]; discriminate))
           (Task.mk 2 "c" DONE None) [Task.mk 3 "d" TODO None]).
  - reflexivity.
  - reflexivity.
  - intros v [<-|[]]. discriminate.
Defined.

(** ** The file store: the form of what it writes *)

Lemma file_update_task_returns f ts id title status t f' :
  FileTaskStore.get_all f = (Ok ts, f) ->
  FileTaskStore.update_task id title status f = (Ok t, f') ->
  exists i t0,
    find_index (fun t => Task.id t =? id) ts = Some (i, t0) /\
    title_arg_ok title /\
    t = updated title status t0 /\ f' = written (set_nth i t ts).
Proof.
  intros H.
  destruct (find_index (fun t => Task.id t =? id) ts) as [[i t0]|] eqn:Ef.
  - destruct (title_arg_ok_dec title) as [Hok|(n & -> & Hbad)].
    + rewrite (file_update_task_ok f ts id i t0 title status H Ef Hok).
      intros [= <- <-]. now exists i, t0.
    + now rewrite (file_update_task_raise f ts id i t0 n status H Ef Hbad).
  - now rewrite (file_update_task_missing f ts id title status H Ef).
Qed.

Lemma written_form (l : list Task.t) :
  normal l ->
  exists items,
    written l = Some (mkDocument (Some 1) (Some items)) /\
    map item_id items = map Task.id l /\
    Sorted Z.le (map item_id items) /\
    Forall (fun it =>
              item_notes it = None /\
              strip (item_title it) = item_title it /\
              exists st, item_status it = value st) items.
Proof.
  intros [Hn Hs]. exists (map FileTaskStore.item_of_task l).
  split; [reflexivity|].
  assert (map item_id (map FileTaskStore.item_of_task l) = map Task.id l) as Hid
    by (rewrite map_map; reflexivity).
  split; [exact Hid|]. split; [now rewrite Hid|].
  apply Forall_map. eapply Forall_impl; [|exact Hn].
  intros t Ht. apply norm_fixed_iff in Ht as [Ht _]. simpl.
  split; [reflexivity|]. split; [exact Ht|]. now exists (Task.status t).
Qed.

(** X7: on a file that [get_all] reads, each call of [create_task],
    [update_task] or [delete_task] that returns leaves a document with
    schema version 1 whose items have ids in ascending order, stripped
    titles, the value of a member of the enum as status and no notes; the
    items carry the ids of the tasks that [get_all] then returns. *)
Theorem file_written_form (f f' : FileTaskStore.file) (ts : list Task.t) :
  FileTaskStore.get_all f = (Ok ts, f) ->
  (exists title status t,
     FileTaskStore.create_task title status f = (Ok t, f')) \/
  (exists id title status t,
     FileTaskStore.update_task id title status f = (Ok t, f')) \/
  (exists id, FileTaskStore.delete_task id f = (Ok tt, f')) ->
  exists items ts',
    f' = Some (mkDocument (Some 1) (Some items)) /\
    FileTaskStore.get_all f' = (Ok ts', f') /\
    map item_id items = map Task.id ts' /\
    Sorted Z.le (map item_id items) /\
    Forall (fun it =>
              item_notes it = None /\
              strip (item_title it) = item_title it /\
              exists st, item_status it = value st) items.
Proof.
  intros H Hop.
  pose proof (file_get_all_normal _ _ _ H) as Hn.
  assert (exists l, normal l /\ f' = written l) as (l & Hl & ->).
  { destruct Hop as [(title & status & t & Hc)|
                     [(id & title & status & t & Hu)|(id & Hd)]].
    - rewrite (file_create_task f ts title status H) in Hc.
      injection Hc as <- <-. eexists. split; [|reflexivity].
      now apply normal_snoc.
    - destruct (file_update_task_returns _ _ _ _ _ _ _ H Hu)
        as (i & t0 & Hf & Hok & -> & ->).
      eexists. split; [|reflexivity].
      apply find_index_some in Hf as (Hnth & _ & _).
      apply (normal_set_nth i t0); [exact Hnth|apply updated_id| |exact Hn].
      apply updated_norm.
      exact (proj1 (Forall_forall _ _) (proj1 Hn) t0 (nth_error_In _ _ Hnth)).
    - rewrite (file_delete_task f ts id H) in Hd. injection Hd as <-.
      eexists. split; [|reflexivity].
      apply (delete_loop_keeps normal normal_pop (S (List.length ts)) id O ts Hn). }
  destruct (written_form l Hl) as (items & Hw & Hid & Hs & Hf).
  exists items, l. split; [exact Hw|]. split; [now apply file_get_all_written|].
  auto.
Qed.

Lemma file_written_form_witness :
  exists items ts',
    snd (FileTaskStore.delete_task 7 example_file)
    = Some (mkDocument (Some 1) (Some items)) /\
    FileTaskStore.get_all (snd (FileTaskStore.delete_task 7 example_file))
    = (Ok ts', snd (FileTaskStore.delete_task 7 example_file)) /\
    map item_id items = map Task.id ts' /\
    Sorted Z.le (map item_id items) /\
    Forall (fun it =>
              item_notes it = None /\
              strip (item_title it) = item_title it /\
              exists st, item_status it = value st) items.
Proof.
  apply (file_written_form example_file
           (snd (FileTaskStore.delete_task 7 example_file)) example_tasks).
  - reflexivity.
  - right. right. exists 7. reflexivity.
Defined.

(** ** The remote store: a missing key, errors before the PUT, delete *)

Ltac keyless Hr Hd :=
  unfold bind at 1; rewrite (fetch_payload_delivered _ Hr); cbv beta iota;
  unfold bind at 1; unfold lift, index_tasks; cbn [JsonBinClient.bin];
  rewrite Hd; reflexivity.

(** X8: when the document of the bin has no ["tasks"] key and the GET is
    delivered, [get_all] returns the empty list, but [create_task],
    [update_task] and [delete_task] raise [KeyError] for the key and leave
    the bin as it is: an empty store cannot be filled through the store. *)
Theorem remote_missing_tasks_key (w : JsonBinClient.world) :
  reliable 1 (JsonBinClient.net w) = true ->
  doc_tasks (JsonBinClient.bin w) = None ->
  exists w',
    JsonBinClient.bin w' = JsonBinClient.bin w /\
    RemoteTaskStore.get_all w = (Ok [], w') /\
    (forall title status,
       RemoteTaskStore.create_task title status w
       = (Raise (KeyError "tasks"), w')) /\
    (forall id title status notes,
       RemoteTaskStore.update_task id title status notes w
       = (Raise (KeyError "tasks"), w')) /\
    (forall id,
       RemoteTaskStore.delete_task id w = (Raise (KeyError "tasks"), w')).
Proof.
  intros Hr Hd.
  exists (JsonBinClient.mk (JsonBinClient.bin w) (tl (JsonBinClient.net w))).
  split; [reflexivity|]. split; [|split; [|split]].
  - rewrite (remote_get_all_delivered w Hr). unfold get_tasks. now rewrite Hd.
  - intros title status. unfold RemoteTaskStore.create_task. keyless Hr Hd.
  - intros id title status notes. unfold RemoteTaskStore.update_task.
    keyless Hr Hd.
  - intros id. unfold RemoteTaskStore.delete_task. keyless Hr Hd.
Qed.

Lemma remote_missing_tasks_key_witness :
  exists w',
    JsonBinClient.bin w' = JsonBinClient.bin keyless_world /\
    RemoteTaskStore.get_all keyless_world = (Ok [], w') /\
    (forall title status,
       RemoteTaskStore.create_task title status keyless_world
       = (Raise (KeyError "tasks"), w')) /\
    (forall id title status notes,
       RemoteTaskStore.update_task id title status notes keyless_world
       = (Raise (KeyError "tasks"), w')) /\
    (forall id,
       RemoteTaskStore.delete_task id keyless_world
       = (Raise (KeyError "tasks"), w')).
Proof. apply (remote_missing_tasks_key keyless_world); reflexivity. Defined.

Lemma remote_create_task_raise title status w e w' :
  RemoteTaskStore.create_task title status w = (Raise e, w') ->
  is_TransportError e = false ->
  JsonBinClient.bin w' = JsonBinClient.bin w /\
  JsonBinClient.net w' = tl (JsonBinClient.net w).
Proof.
  unfold RemoteTaskStore.create_task. unfold bind at 1.
  destruct (JsonBinClient.fetch_payload w) as [r0 w0] eqn:E0.
  apply fetch_payload_effect in E0 as (Hb0 & Hn0 & Hr0).
  destruct Hr0 as [->|(e0 & -> & He0)]; [|intros [= <- <-]; congruence].
  unfold bind at 1. unfold lift, index_tasks.
  destruct (doc_tasks (JsonBinClient.bin w)) as [items|] eqn:Ed.
  - unfold bind at 1.
    destruct (JsonBinClient.push_payload _ w0) as [r1 w1] eqn:E1.
    apply push_payload_effect in E1 as (Hn1 & [[-> Hb1]|[(e1 & -> & He1) Hb1]]).
    + discriminate.
    + intros [= <- <-]. congruence.
  - intros [= <- <-] _. auto.
Qed.

Lemma remote_update_task_raise_early id title status notes w e w' :
  RemoteTaskStore.update_task id title status notes w = (Raise e, w') ->
  is_TransportError e = false ->
  JsonBinClient.bin w' = JsonBinClient.bin w /\
  JsonBinClient.net w' = tl (JsonBinClient.net w).
Proof.
  unfold RemoteTaskStore.update_task. unfold bind at 1.
  destruct (JsonBinClient.fetch_payload w) as [r0 w0] eqn:E0.
  apply fetch_payload_effect in E0 as (Hb0 & Hn0 & Hr0).
  destruct Hr0 as [->|(e0 & -> & He0)]; [|intros [= <- <-]; congruence].
  unfold bind at 1. unfold lift, index_tasks.
  destruct (doc_tasks (JsonBinClient.bin w)) as [items|] eqn:Ed;
    [|intros [= <- <-] _; auto].
  destruct (find_index (fun t => item_id t =? id) items) as [[i it]|] eqn:Ef;
    [|unfold raise; intros [= <- <-] _; auto].
  unfold bind at 1. unfold RemoteTaskStore.task_of_item.
  destruct (TaskStatus_of (item_status it)) as [st|e0] eqn:Es; simpl rbind.
  - fold (setters title status).
    destruct (title_arg_ok_dec title) as [Ha|(n & -> & Hbad)].
    + rewrite (setters_ok title status _ Ha).
      unfold bind at 1.
      destruct (JsonBinClient.push_payload _ w0) as [r1 w1] eqn:E1.
      apply push_payload_effect in E1
        as (Hn1 & [[-> Hb1]|[(e1 & -> & He1) Hb1]]).
      * discriminate.
      * intros [= <- <-]. congruence.
    + rewrite (setters_raise n status _ Hbad). unfold raise.
      intros [= <- <-] _. auto.
  - intros [= <- <-] _. auto.
Qed.

Lemma remote_delete_task_raise_early id w e w' :
  RemoteTaskStore.delete_task id w = (Raise e, w') ->
  is_TransportError e = false ->
  JsonBinClient.bin w' = JsonBinClient.bin w /\
  JsonBinClient.net w' = tl (JsonBinClient.net w).
Proof.
  unfold RemoteTaskStore.delete_task. unfold bind at 1.
  destruct (JsonBinClient.fetch_payload w) as [r0 w0] eqn:E0.
  apply fetch_payload_effect in E0 as (Hb0 & Hn0 & Hr0).
  destruct Hr0 as [->|(e0 & -> & He0)]; [|intros [= <- <-]; congruence].
  unfold bind at 1. unfold lift, index_tasks.
  destruct (doc_tasks (JsonBinClient.bin w)) as [items|] eqn:Ed;
    [|intros [= <- <-] _; auto].
  destruct (find_index (fun t => item_id t =? id) items) as [[i it]|] eqn:Ef;
    [|unfold raise; intros [= <- <-] _; auto].
  destruct (JsonBinClient.push_payload _ w0) as [r1 w1] eqn:E1.
  apply push_payload_effect in E1 as (Hn1 & [[-> Hb1]|[(e1 & -> & He1) Hb1]]).
  - discriminate.
  - intros [= <- <-]. congruence.
Qed.

(** X9: no write before an error that is not of the transport.  Whatever
    the network does, when [create_task], [update_task] or [delete_task]
    of the remote store raises an exception that is not a transport
    error, it was raised after the GET and before any PUT: the bin is as
    it was, and one network event was used. *)
Theorem remote_errors_before_write (w w' : JsonBinClient.world) (e : Exception) :
  is_TransportError e = false ->
  (exists title status,
     RemoteTaskStore.create_task title status w = (Raise e, w')) \/
  (exists id title status notes,
     RemoteTaskStore.update_task id title status notes w = (Raise e, w')) \/
  (exists id, RemoteTaskStore.delete_task id w = (Raise e, w')) ->
  JsonBinClient.bin w' = JsonBinClient.bin w /\
  JsonBinClient.net w' = tl (JsonBinClient.net w).
Proof.
  intros He [(title & status & H)|[(id & title & status & notes & H)|(id & H)]].
  - exact (remote_create_task_raise _ _ _ _ _ H He).
  - exact (remote_update_task_raise_early _ _ _ _ _ _ _ H He).
  - exact (remote_delete_task_raise_early _ _ _ _ H He).
Qed.

Lemma remote_errors_before_write_witness :
  JsonBinClient.bin
    (snd (RemoteTaskStore.update_task 2 (Some "  ") None None
            (JsonBinClient.mk (JsonBinClient.bin example_world)
               [Delivered; Dropped])))
  = JsonBinClient.bin example_world /\
  JsonBinClient.net
    (snd (RemoteTaskStore.update_task 2 (Some "  ") None None
            (JsonBinClient.mk (JsonBinClient.bin example_world)
               [Delivered; Dropped])))
  = [Dropped].
Proof.
  apply (remote_errors_before_write
           (JsonBinClient.mk (JsonBinClient.bin example_world)
              [Delivered; Dropped])
           (snd (RemoteTaskStore.update_task 2 (Some "  ") None None
                   (JsonBinClient.mk (JsonBinClient.bin example_world)
                      [Delivered; Dropped])))
           ValueError_title eq_refl).
  right. left. exists 2, (Some "  "), None, None. reflexivity.
Defined.

(** X10: [delete_task] of the remote store, its two requests delivered,
    for the id of an item that no earlier item has: the item is removed
    and every other item stays in its place, also a later item with the
    same id, and the other keys of the document stay; when no later item
    has the id, a second [delete_task] of it raises the not-found error
    and leaves the bin as it is. *)
Theorem remote_delete_task_first (w : JsonBinClient.world) (l1 l2 : list Item)
    (it : Item) :
  reliable 2 (JsonBinClient.net w) = true ->
  doc_tasks (JsonBinClient.bin w) = Some (l1 ++ it :: l2) ->
  (forall u, In u l1 -> item_id u <> item_id it) ->
  exists w',
    RemoteTaskStore.delete_task (item_id it) w = (Ok tt, w') /\
    JsonBinClient.bin w'
    = mkDocument (schema_version (JsonBinClient.bin w)) (Some (l1 ++ l2)) /\
    ((forall u, In u l2 -> item_id u <> item_id it) ->
     reliable 3 (JsonBinClient.net w) = true ->
     exists w'',
       RemoteTaskStore.delete_task (item_id it) w'
       = (Raise ValueError_id_not_found, w'') /\
       JsonBinClient.bin w'' = JsonBinClient.bin w').
Proof.
  intros Hr Hd H1.
  assert (find_index (fun t => item_id t =? item_id it) (l1 ++ it :: l2)
          = Some (List.length l1, it)) as Hf.
  { apply find_index_app; [|apply Z.eqb_refl].
    intros y Hy. now apply Z.eqb_neq, H1. }
  eexists. split; [apply (remote_delete_task_delivered _ w _ _ _ Hr Hd Hf)|].
  rewrite pop_app. split; [reflexivity|].
  intros H2 Hr3. eexists. split.
  - apply (remote_delete_task_missing _ _ (l1 ++ l2)).
    + cbn [JsonBinClient.net]. now apply reliable_tl, reliable_tl.
    + reflexivity.
    + apply find_index_absent. intros x Hx.
      apply in_app_or in Hx as [Hx|Hx]; auto.
  - reflexivity.
Qed.

Lemma remote_delete_task_first_witness :
  exists w',
    RemoteTaskStore.delete_task 1 example_world = (Ok tt, w') /\
    JsonBinClient.bin w'
    = mkDocument (Some 1) (Some [mkItem 2 "Learn Go" "done" (Some "plan")]) /\
    exists w'',
      RemoteTaskStore.delete_task 1 w' = (Raise ValueError_id_not_found, w'') /\
      JsonBinClient.bin w'' = JsonBinClient.bin w'.
Proof.
  destruct (remote_delete_task_first example_world []
              [mkItem 2 "Learn Go" "done" (Some "plan")]
              (mkItem 1 "Buy milk" "todo" None) eq_refl eq_refl
              ltac:(intros u []))
    as (w' & H1 & H2 & H3).
  exists w'. split; [exact H1|]. split; [exact H2|].
  apply H3; [|reflexivity]. intros u [<-|[]]. discriminate.
Defined.

(** ** The enrichment service: what it adds to creation *)

Section EnrichmentOutcome.

Variable str : Json -> string.

Lemma generate_plan_stripped ai prompt p :
  CloudflareAIClient.generate_plan str ai prompt = Ok (Some p) -> strip p = p.
Proof.
  unfold CloudflareAIClient.generate_plan.
  destruct (CloudflareAIClient.post ai prompt) as [resp|]; simpl;
    [|discriminate].
  destruct (json resp [200]) as [data|e]; simpl; [|discriminate].
  destruct data as [| | | | |members]; try discriminate.
  destruct (match member "result" members with
            | Some r => r
            | None => JObject []
            end) as [| | | | |fields]; try discriminate.
  destruct (member "response" fields) as [response|]; [|discriminate].
  intros [= <-]. apply strip_idem.
Qed.

Lemma enrich_without_plan ai title status :
  (CloudflareAIClient.generate_plan str ai (TaskService._build_prompt title)
   = Ok None \/
   CloudflareAIClient.generate_plan str ai (TaskService._build_prompt title)
   = Ok (Some "")) ->
  forall w,
    TaskService.create_task_and_enrich str ai title status w
    = RemoteTaskStore.create_task title status w.
Proof.
  intros Hg w. unfold TaskService.create_task_and_enrich. unfold bind at 1.
  destruct (RemoteTaskStore.create_task title status w) as [[task|e] w1];
    [|reflexivity].
  unfold try_except, bind, lift. now destruct Hg as [-> | ->].
Qed.

(** X11: a plan that [generate_plan] returns has no space at either end;
    when the ["response"] of the endpoint is empty once turned into a
    string and stripped, the plan is the empty string, and
    [create_task_and_enrich] then does what [create_task] of the store does
    and nothing more: no notes, no update of the bin. *)
Theorem blank_response_gives_no_notes (ai : CloudflareAIClient.t)
    (title : string) (status : TaskStatus) (members fields : list (string * Json))
    (response : Json) :
  CloudflareAIClient.post ai (TaskService._build_prompt title)
  = Some (mkResponse 200 (Some (JObject members))) ->
  member "result" members = Some (JObject fields) ->
  member "response" fields = Some response ->
  strip (str response) = "" ->
  CloudflareAIClient.generate_plan str ai (TaskService._build_prompt title)
  = Ok (Some "") /\
  (forall w,
     TaskService.create_task_and_enrich str ai title status w
     = RemoteTaskStore.create_task title status w) /\
  (forall prompt p,
     CloudflareAIClient.generate_plan str ai prompt = Ok (Some p) ->
     strip p = p).
Proof.
  intros Hp Hr Hf Hs.
  assert (CloudflareAIClient.generate_plan str ai
            (TaskService._build_prompt title) = Ok (Some "")) as Hg.
  { unfold CloudflareAIClient.generate_plan. rewrite Hp. simpl.
    now rewrite Hr, Hf, Hs. }
  split; [exact Hg|]. split.
  - apply enrich_without_plan. now right.
  - intros prompt p. apply generate_plan_stripped.
Qed.

(** X12: [create_task_and_enrich] raises exactly when [create_task] of the
    store raises, with the same exception and the same state of the bin
    and the network.  When [create_task] returns a task, the service
    returns a task with the same id, title and status, whatever the AI
    client and the network do; its notes are [None], or a plan that is not
    empty and has no space at either end, and then the bin holds an item
    with the id of the task and this plan as notes. *)
Theorem enrichment_keeps_creation (ai : CloudflareAIClient.t) (title : string)
    (status : TaskStatus) (w : JsonBinClient.world) :
  (forall e w0,
     RemoteTaskStore.create_task title status w = (Raise e, w0) ->
     TaskService.create_task_and_enrich str ai title status w = (Raise e, w0)) /\
  (forall t w0,
     RemoteTaskStore.create_task title status w = (Ok t, w0) ->
     exists t' w',
       TaskService.create_task_and_enrich str ai title status w = (Ok t', w') /\
       Task.id t' = Task.id t /\ Task.title t' = Task.title t /\
       Task.status t' = Task.status t /\
       (Task.notes t' = None \/
        exists p,
          Task.notes t' = Some p /\ truthy p = true /\ strip p = p /\
          exists item,
            In item (get_tasks (JsonBinClient.bin w')) /\
            item_id item = Task.id t /\ item_notes item = Some p)).
Proof.
  split.
  - intros e w0 Hc. unfold TaskService.create_task_and_enrich.
    unfold bind at 1. now rewrite Hc.
  - intros t w0 Hc.
    destruct (remote_create_task_notes _ _ _ _ _ Hc) as (Hn & _ & _ & _).
    unfold TaskService.create_task_and_enrich. unfold bind at 1. rewrite Hc.
    unfold try_except. unfold bind at 1. unfold lift.
    destruct (CloudflareAIClient.generate_plan str ai
                (TaskService._build_prompt title)) as [[p|]|e] eqn:Hg.
    + destruct (truthy p) eqn:Hp.
      * unfold bind.
        destruct (RemoteTaskStore.update_task (Task.id t) None None (Some p) w0)
          as [[obj|e] w2] eqn:Hu.
        -- exists (Task.set_notes t (Some p)), w2.
           split; [reflexivity|]. repeat split. right. exists p.
           split; [reflexivity|]. split; [exact Hp|].
           split; [exact (generate_plan_stripped _ _ _ Hg)|].
           apply remote_update_task_effect in Hu.
           destruct Hu as [[_ [e He]]|(items & i & it & st & Hd & Hf & Hs & _ & Hb & _)];
             [discriminate|].
           apply find_index_some in Hf as (Hnth & Hid & _).
           exists (remote_item None None (Some p) it st).
           rewrite Hb. unfold get_tasks. simpl.
           split; [eapply set_nth_In_new, Hnth|].
           split; [now apply Z.eqb_eq|reflexivity].
        -- exists t, w2. split; [reflexivity|]. auto.
      * exists t, w0. split; [reflexivity|]. auto.
    + exists t, w0. split; [reflexivity|]. auto.
    + exists t, w0. split; [reflexivity|]. auto.
Qed.

End EnrichmentOutcome.

Lemma blank_response_gives_no_notes_witness :
  CloudflareAIClient.generate_plan example_str
    (ai_answers (JObject [("result", JObject [("response", JString "  ")])]))
    (TaskService._build_prompt "Learn Go")
  = Ok (Some "") /\
  TaskService.create_task_and_enrich example_str
    (ai_answers (JObject [("result", JObject [("response", JString "  ")])]))
    "Learn Go" TODO example_world
  = RemoteTaskStore.create_task "Learn Go" TODO example_world.
Proof.
  destruct (blank_response_gives_no_notes example_str
              (ai_answers (JObject [("result", JObject [("response", JString "  ")])]))
              "Learn Go" TODO
              [("result", JObject [("response", JString "  ")])]
              [("response", JString "  ")] (JString "  ")
              eq_refl eq_refl eq_refl eq_refl) as (H1 & H2 & _).
  split; [exact H1|apply H2].
Defined.

Lemma enrichment_keeps_creation_witness :
  exists t' w',
    TaskService.create_task_and_enrich example_str
      (ai_answers (JObject [("result", JObject [("response", JString "Step 1...")])]))
      "Learn Go" TODO example_world = (Ok t', w') /\
    Task.id t' = 3 /\ Task.title t' = "Learn Go" /\ Task.status t' = TODO /\
    (Task.notes t' = None \/
     exists p,
       Task.notes t' = Some p /\ truthy p = true /\ strip p = p /\
       exists item,
         In item (get_tasks (JsonBinClient.bin w')) /\
         item_id item = 3 /\ item_notes item = Some p).
Proof.
  apply (proj2 (enrichment_keeps_creation example_str
                  (ai_answers (JObject [("result", JObject [("response", JString "Step 1...")])]))
                  "Learn Go" TODO example_world)
           (Task.mk 3 "Learn Go" TODO None)
           (JsonBinClient.mk
              (mkDocument (Some 1)
                 (Some (example_items ++ [mkItem 3 "Learn Go" "todo" None])))
              [])).
  reflexivity.
Defined.

(** ** The status enum: values and members *)

(** X13: [TaskStatus(s.value)] is [s] for every member [s]; [TaskStatus(x)]
    returns a member only for a string that is the value of that member,
    and raises for every other string; two members with the same value
    are the same member. *)
Theorem TaskStatus_round_trip :
  (forall s, TaskStatus_of (value s) = Ok s) /\
  (forall x s, TaskStatus_of x = Ok s -> value s = x) /\
  (forall x, (forall s, value s <> x) ->
             TaskStatus_of x = Raise (ValueError_enum x)) /\
  (forall s1 s2, value s1 = value s2 -> s1 = s2).
Proof.
  split; [exact TaskStatus_of_value|]. split; [exact value_TaskStatus_of|].
  split.
  - intros x Hx. destruct (TaskStatus_of x) as [s|e] eqn:E.
    + apply value_TaskStatus_of in E. now destruct (Hx s).
    + unfold TaskStatus_of in E.
      destruct (String.eqb x "todo"); [discriminate|].
      destruct (String.eqb x "in_progress"); [discriminate|].
      destruct (String.eqb x "done"); [discriminate|]. now symmetry.
  - intros s1 s2 H.
    pose proof (TaskStatus_of_value s1) as H1. rewrite H in H1.
    rewrite TaskStatus_of_value in H1. congruence.
Qed.

Lemma TaskStatus_round_trip_witness :
  TaskStatus_of "Done" = Raise (ValueError_enum "Done").
Proof.
  apply (proj1 (proj2 (proj2 TaskStatus_round_trip)) "Done").
  intros [| |]; discriminate.
Defined.

(** ** The urls of the HTTP clients *)

Lemma rstrip_chars_snoc (chars s : string) (c : ascii) :
  char_in c chars = true ->
  rstrip_chars chars (s ++ String c "") = rstrip_chars chars s.
Proof.
  intros Hc. induction s as [|a s IH]; simpl; [now rewrite Hc|].
  now rewrite IH.
Qed.

Lemma rstrip_chars_end (chars s t : string) (c : ascii) :
  char_in c chars = true ->
  rstrip_chars chars s <> (t ++ String c "")%string.
Proof.
  intros Hc. revert t. induction s as [|a s IH]; intros t; simpl.
  - now destruct t.
  - destruct (rstrip_chars chars s) as [|d r] eqn:E.
    + destruct (char_in a chars) eqn:Ea; [now destruct t|].
      destruct t as [|b t]; simpl.
      * intros [= ->]. congruence.
      * intros [= _ H]. now destruct t.
    + destruct t as [|b t]; simpl; [discriminate|].
      intros [= _ H]. exact (IH t H).
Qed.

Lemma lstrip_chars_head (chars s : string) (c : ascii) (r : string) :
  lstrip_chars chars s = String c r -> char_in c chars = false.
Proof.
  induction s as [|a s IH]; simpl; [discriminate|].
  destruct (char_in a chars) eqn:Ea; [exact IH|].
  now intros [= <- _].
Qed.

Lemma lstrip_slash_relative (s : string) :
  startswith (lstrip_chars "/" s) "/" = false.
Proof.
  destruct (lstrip_chars "/" s) as [|c r] eqn:E; [reflexivity|].
  apply lstrip_chars_head in E. unfold startswith. cbn [prefix].
  destruct (ascii_dec "/" c) as [<-|_]; [discriminate E|reflexivity].
Qed.

(** X14: the urls that [BaseHTTPClient] builds.  The base url kept by
    [__init__] never ends with a slash, and slashes at the end of the
    given base url make no difference.  The empty path gives the base url,
    a path that starts with [http://] or [https://] is returned as it is,
    and every other path is joined to the base url by one slash, slashes
    at its start being dropped, so that one more slash in front of it
    makes no difference.  [fetch_payload] asks for
    [base/b/<bin_id>/latest], [push_payload] for [base/b/<bin_id>] and
    [generate_plan] for the base url. *)
Theorem url_joining (base path bin_id : string) :
  (forall t, BaseHTTPClient.base_url (BaseHTTPClient.init base)
             <> (t ++ "/")%string) /\
  BaseHTTPClient.init (base ++ "/") = BaseHTTPClient.init base /\
  BaseHTTPClient._url (BaseHTTPClient.init base) ""
  = BaseHTTPClient.base_url (BaseHTTPClient.init base) /\
  (startswith path "http://" = true \/ startswith path "https://" = true ->
   BaseHTTPClient._url (BaseHTTPClient.init base) path = path) /\
  (path <> "" ->
   startswith path "http://" = false -> startswith path "https://" = false ->
   BaseHTTPClient._url (BaseHTTPClient.init base) path
   = (BaseHTTPClient.base_url (BaseHTTPClient.init base) ++ "/"
      ++ lstrip_chars "/" path)%string /\
   startswith (lstrip_chars "/" path) "/" = false /\
   BaseHTTPClient._url (BaseHTTPClient.init base) ("/" ++ path)
   = BaseHTTPClient._url (BaseHTTPClient.init base) path) /\
  JsonBinRequests.fetch_url (BaseHTTPClient.init base) bin_id
  = (BaseHTTPClient.base_url (BaseHTTPClient.init base)
     ++ "/b/" ++ bin_id ++ "/latest")%string /\
  JsonBinRequests.push_url (BaseHTTPClient.init base) bin_id
  = (BaseHTTPClient.base_url (BaseHTTPClient.init base)
     ++ "/b/" ++ bin_id)%string /\
  CloudflareRequests.generate_plan_url (BaseHTTPClient.init base)
  = BaseHTTPClient.base_url (BaseHTTPClient.init base).
Proof.
  split; [|split; [|split; [|split; [|split; [|split; [|split]]]]]].
  - intros t. now apply rstrip_chars_end.
  - unfold BaseHTTPClient.init. now rewrite rstrip_chars_snoc.
  - reflexivity.
  - intros H. unfold BaseHTTPClient._url.
    destruct path as [|c r]; [destruct H as [H|H]; discriminate H|].
    simpl truthy. simpl negb. cbv iota.
    destruct H as [-> | ->]; [reflexivity|now rewrite orb_true_r].
  - intros Hne H1 H2.
    assert (BaseHTTPClient._url (BaseHTTPClient.init base) path
            = (BaseHTTPClient.base_url (BaseHTTPClient.init base) ++ "/"
               ++ lstrip_chars "/" path)%string) as Hu.
    { unfold BaseHTTPClient._url. destruct path as [|c r]; [congruence|].
      simpl truthy. simpl negb. cbv iota. now rewrite H1, H2. }
    split; [exact Hu|]. split; [apply lstrip_slash_relative|].
    rewrite Hu. reflexivity.
  - reflexivity.
  - reflexivity.
  - reflexivity.
Qed.

Lemma url_joining_witness :
  BaseHTTPClient._url (BaseHTTPClient.init "https://api.jsonbin.io/v3/")
    "//b/42/latest"
  = "https://api.jsonbin.io/v3/b/42/latest" /\
  BaseHTTPClient._url (BaseHTTPClient.init "https://api.jsonbin.io/v3/")
    "https://example.org/x"
  = "https://example.org/x".
Proof.
  destruct (url_joining "https://api.jsonbin.io/v3/" "//b/42/latest" "42")
    as (_ & _ & _ & _ & H & _).
  destruct (url_joining "https://api.jsonbin.io/v3/" "https://example.org/x" "42")
    as (_ & _ & _ & H' & _).
  split.
  - apply (proj1 (H ltac:(discriminate) eq_refl eq_refl)).
  - apply H'. right. reflexivity.
Defined.

(** ** The headers of the HTTP clients *)

Lemma headers_get_set (k k' v : string) (d : headers) :
  headers_get k (headers_set k' v d)
  = if String.eqb k' k then Some v else headers_get k d.
Proof.
  induction d as [|[k0 v0] d IH]; simpl.
  - reflexivity.
  - destruct (String.eqb k0 k') eqn:E0; simpl.
    + apply String.eqb_eq in E0. subst k0.
      now destruct (String.eqb k' k).
    + destruct (String.eqb k0 k) eqn:E1; [|exact IH].
      apply String.eqb_eq in E1. subst k0.
      now rewrite String.eqb_sym, E0.
Qed.

Lemma headers_get_absent (k : string) (d : headers) :
  ~ In k (map fst d) -> headers_get k d = None.
Proof.
  induction d as [|[k0 v0] d IH]; simpl; [reflexivity|].
  intros H. destruct (String.eqb k0 k) eqn:E.
  - apply String.eqb_eq in E. tauto.
  - apply IH. tauto.
Qed.

Lemma headers_get_fold (k : string) (extra auth : headers) :
  NoDup (map fst extra) ->
  headers_get k
    (fold_left (fun d kv => headers_set (fst kv) (snd kv) d) extra auth)
  = match headers_get k extra with
    | Some v => Some v
    | None => headers_get k auth
    end.
Proof.
  revert auth. induction extra as [|[k0 v0] extra IH]; intros auth Hn; simpl.
  - reflexivity.
  - inversion Hn as [|? ? Hk Hn']; subst. rewrite (IH _ Hn').
    destruct (String.eqb k0 k) eqn:E.
    + apply String.eqb_eq in E. subst k0.
      rewrite (headers_get_absent _ _ Hk), headers_get_set.
      now rewrite String.eqb_refl.
    + destruct (headers_get k extra); [reflexivity|].
      rewrite headers_get_set. simpl. now rewrite E.
Qed.

(** X15: the headers that [request] sends.  A header of the caller
    replaces the header of [auth_headers] with the same name, and every
    other header of [auth_headers] is sent as it is (the names of the
    caller's headers are distinct, as the keys of a dict are).  So
    [fetch_payload] sends the master key, the content type and
    [X-Bin-Meta: false], [push_payload] the master key and the content
    type, and [generate_plan] the token after [Bearer ] and the content
    type. *)
Theorem merged_headers_law (auth extra : headers) (k : string) :
  NoDup (map fst extra) ->
  headers_get k (BaseHTTPClient.merged_headers auth (Some extra))
  = match headers_get k extra with
    | Some v => Some v
    | None => headers_get k auth
    end /\
  BaseHTTPClient.merged_headers auth None = auth /\
  (forall key,
     JsonBinRequests.fetch_headers key
     = [("X-Master-Key", key); ("Content-Type", "application/json");
        ("X-Bin-Meta", "false")] /\
     JsonBinRequests.push_headers key
     = [("X-Master-Key", key); ("Content-Type", "application/json")]) /\
  (forall token,
     CloudflareRequests.generate_plan_headers token
     = [("Authorization", ("Bearer " ++ token)%string);
        ("Content-Type", "application/json")]).
Proof.
  intros Hn. split; [|split; [|split]].
  - unfold BaseHTTPClient.merged_headers. now apply headers_get_fold.
  - reflexivity.
  - intros key. split; reflexivity.
  - intros token. reflexivity.
Qed.

Lemma merged_headers_law_witness :
  headers_get "Content-Type"
    (BaseHTTPClient.merged_headers (JsonBinRequests.auth_headers "key")
       (Some [("X-Bin-Meta", "false"); ("Content-Type", "text/plain")]))
  = Some "text/plain".
Proof.
  refine (proj1 (merged_headers_law (JsonBinRequests.auth_headers "key")
                   [("X-Bin-Meta", "false"); ("Content-Type", "text/plain")]
                   "Content-Type" _)).
  repeat constructor; simpl; intuition discriminate.
Defined.

(** ** The API as a whole: the notes never show *)

Lemma same_visible_inv w1 w2 :
  same_visible w1 w2 <->
  JsonBinClient.net w1 = JsonBinClient.net w2 /\
  forget_notes (JsonBinClient.bin w1) = forget_notes (JsonBinClient.bin w2).
Proof.
  unfold same_visible, hide_notes. split.
  - intros H. split.
    + exact (f_equal JsonBinClient.net H).
    + exact (f_equal JsonBinClient.bin H).
  - intros [-> ->]. reflexivity.
Qed.

Lemma same_visible_mk d1 d2 n :
  forget_notes d1 = forget_notes d2 ->
  same_visible (JsonBinClient.mk d1 n) (JsonBinClient.mk d2 n).
Proof. intros H. apply same_visible_inv. now split. Qed.

Lemma same_visible_sym w1 w2 : same_visible w1 w2 -> same_visible w2 w1.
Proof. unfold same_visible. congruence. Qed.

Lemma same_visible_trans w1 w2 w3 :
  same_visible w1 w2 -> same_visible w2 w3 -> same_visible w1 w3.
Proof. unfold same_visible. congruence. Qed.

(** *** Computations that cannot be told apart *)

Lemma sim_ret {A B} (Q : A -> B -> Prop) a b : Q a b -> sim Q (ret a) (ret b).
Proof. intros H w1 w2 Hw. now split. Qed.

Lemma sim_raise {A B} (Q : A -> B -> Prop) e : sim Q (raise e) (raise e).
Proof. intros w1 w2 Hw. now split. Qed.

Lemma sim_lift {A B} (Q : A -> B -> Prop) r1 r2 :
  match r1, r2 with
  | Ok a, Ok b => Q a b
  | Raise e1, Raise e2 => e1 = e2
  | _, _ => False
  end ->
  sim Q (lift r1) (lift r2).
Proof. intros H w1 w2 Hw. now split. Qed.

Lemma sim_bind {A B A' B'} (Q : A -> B -> Prop) (Q' : A' -> B' -> Prop)
    c1 c2 k1 k2 :
  sim Q c1 c2 -> (forall a b, Q a b -> sim Q' (k1 a) (k2 b)) ->
  sim Q' (bind c1 k1) (bind c2 k2).
Proof.
  intros Hc Hk w1 w2 Hw. specialize (Hc w1 w2 Hw). unfold bind.
  destruct (c1 w1) as [[a|e1] w1'], (c2 w2) as [[b|e2] w2'];
    destruct Hc as [Hw' Hr]; simpl in Hw', Hr; try contradiction.
  - now apply Hk.
  - now split.
Qed.

Lemma sim_try {A B} (Q : A -> B -> Prop) c1 c2 h1 h2 :
  sim Q c1 c2 -> (forall e, sim Q (h1 e) (h2 e)) ->
  sim Q (try_except c1 h1) (try_except c2 h2).
Proof.
  intros Hc Hh w1 w2 Hw. specialize (Hc w1 w2 Hw). unfold try_except.
  destruct (c1 w1) as [[a|e1] w1'], (c2 w2) as [[b|e2] w2'];
    destruct Hc as [Hw' Hr]; simpl in Hw', Hr; try contradiction.
  - now split.
  - subst e2. now apply Hh.
Qed.

Lemma sim_fetch_payload :
  sim (fun d1 d2 => forget_notes d1 = forget_notes d2)
    JsonBinClient.fetch_payload JsonBinClient.fetch_payload.
Proof.
  intros w1 w2 Hw. apply same_visible_inv in Hw as [Hn Hb].
  unfold JsonBinClient.fetch_payload, JsonBinClient.request. run.
  rewrite Hn. destruct (JsonBinClient.net w2) as [|[| | |code] rest]; simpl.
  1-4: split; simpl; [now apply same_visible_mk|auto].
  destruct (code =? 200); simpl;
    (split; simpl; [now apply same_visible_mk|auto]).
Qed.

Lemma sim_push_payload p1 p2 :
  forget_notes p1 = forget_notes p2 ->
  sim (fun _ _ => True)
    (JsonBinClient.push_payload p1) (JsonBinClient.push_payload p2).
Proof.
  intros Hp w1 w2 Hw. apply same_visible_inv in Hw as [Hn Hb].
  unfold JsonBinClient.push_payload, JsonBinClient.request. run.
  rewrite Hn. destruct (JsonBinClient.net w2) as [|[| | |code] rest]; simpl.
  1-4: split; simpl; [now apply same_visible_mk|auto].
  destruct (code =? 200), (code =? 201); simpl;
    (split; simpl; [now apply same_visible_mk|auto]).
Qed.

(** *** Documents that differ in the notes *)

Lemma forget_index_tasks d1 d2 :
  forget_notes d1 = forget_notes d2 ->
  schema_version d1 = schema_version d2 /\
  map forget_item (get_tasks d1) = map forget_item (get_tasks d2) /\
  match index_tasks d1, index_tasks d2 with
  | Ok l1, Ok l2 => map forget_item l1 = map forget_item l2
  | Raise e1, Raise e2 => e1 = e2
  | _, _ => False
  end.
Proof.
  unfold forget_notes, get_tasks, index_tasks. intros H.
  pose proof (f_equal schema_version H) as Hs.
  pose proof (f_equal doc_tasks H) as Ht. simpl in Hs, Ht.
  split; [exact Hs|].
  destruct (doc_tasks d1), (doc_tasks d2); simpl in Ht;
    try discriminate; [injection Ht as Ht|]; auto.
Qed.

Lemma forget_with_tasks d1 d2 l1 l2 :
  schema_version d1 = schema_version d2 ->
  map forget_item l1 = map forget_item l2 ->
  forget_notes (RemoteTaskStore.with_tasks d1 l1)
  = forget_notes (RemoteTaskStore.with_tasks d2 l2).
Proof.
  intros Hs Hl. unfold forget_notes, RemoteTaskStore.with_tasks. simpl.
  now rewrite Hs, Hl.
Qed.

Lemma forget_item_id l1 l2 :
  map forget_item l1 = map forget_item l2 -> map item_id l1 = map item_id l2.
Proof.
  intros H. apply (f_equal (map item_id)) in H.
  now rewrite !map_map in H.
Qed.

Lemma forget_find_index (id : Z) l1 l2 :
  map forget_item l1 = map forget_item l2 ->
  match find_index (fun t => item_id t =? id) l1,
        find_index (fun t => item_id t =? id) l2 with
  | Some (i1, t1), Some (i2, t2) => i1 = i2 /\ forget_item t1 = forget_item t2
  | None, None => True
  | _, _ => False
  end.
Proof.
  revert l2. induction l1 as [|a l1 IH]; intros [|b l2]; simpl;
    try discriminate; [trivial|].
  intros H.
  assert (forget_item a = forget_item b) as Hab by congruence.
  assert (map forget_item l1 = map forget_item l2) as Hl by congruence.
  clear H. specialize (IH _ Hl).
  replace (item_id b) with (item_id a)
    by exact (f_equal item_id Hab).
  destruct (item_id a =? id); [now split|].
  destruct (find_index _ l1) as [[i1 t1]|], (find_index _ l2) as [[i2 t2]|];
    try contradiction; [|trivial].
  destruct IH as [-> Ht]. now split.
Qed.

Lemma map_set_nth {A B} (f : A -> B) (i : nat) (x : A) (l : list A) :
  map f (set_nth i x l) = set_nth i (f x) (map f l).
Proof.
  revert i. induction l as [|a l IH]; intros [|i]; simpl; try reflexivity.
  now rewrite IH.
Qed.

Lemma task_out_set_notes t n : main.task_out (Task.set_notes t n) = main.task_out t.
Proof. reflexivity. Qed.

Lemma forget_task_of_item t1 t2 :
  forget_item t1 = forget_item t2 ->
  match RemoteTaskStore.task_of_item t1, RemoteTaskStore.task_of_item t2 with
  | Ok o1, Ok o2 => main.task_out o1 = main.task_out o2
  | Raise e1, Raise e2 => e1 = e2
  | _, _ => False
  end.
Proof.
  intros H. unfold RemoteTaskStore.task_of_item.
  pose proof (f_equal item_id H) as Hi.
  pose proof (f_equal item_title H) as Ht.
  pose proof (f_equal item_status H) as Hs. simpl in Hi, Ht, Hs.
  rewrite Hs. destruct (TaskStatus_of (item_status t2)); simpl; [|reflexivity].
  unfold main.task_out, Task.init. simpl. now rewrite Hi, Ht.
Qed.

Lemma forget_rmap_task_of_item l1 l2 :
  map forget_item l1 = map forget_item l2 ->
  match rmap RemoteTaskStore.task_of_item l1,
        rmap RemoteTaskStore.task_of_item l2 with
  | Ok r1, Ok r2 => map main.task_out r1 = map main.task_out r2
  | Raise e1, Raise e2 => e1 = e2
  | _, _ => False
  end.
Proof.
  revert l2. induction l1 as [|a l1 IH]; intros [|b l2]; simpl;
    try discriminate; [reflexivity|].
  intros H.
  assert (forget_item a = forget_item b) as Hab by congruence.
  assert (map forget_item l1 = map forget_item l2) as Hl by congruence.
  clear H. specialize (IH _ Hl).
  pose proof (forget_task_of_item a b Hab) as Ht.
  destruct (RemoteTaskStore.task_of_item a) as [o1|e1],
           (RemoteTaskStore.task_of_item b) as [o2|e2];
    simpl; try contradiction; [|exact Ht].
  destruct (rmap RemoteTaskStore.task_of_item l1) as [r1|e1],
           (rmap RemoteTaskStore.task_of_item l2) as [r2|e2];
    simpl; try contradiction; [|exact IH].
  now rewrite Ht, IH.
Qed.

Lemma task_out_setters title status o1 o2 :
  main.task_out o1 = main.task_out o2 ->
  match setters title status o1, setters title status o2 with
  | (Ok _, o1'), (Ok _, o2') =>
      main.task_out o1' = main.task_out o2' /\
      Task.notes o1' = Task.notes o1 /\ Task.notes o2' = Task.notes o2
  | (Raise e1, _), (Raise e2, _) => e1 = e2
  | _, _ => False
  end.
Proof.
  intros H. destruct (title_arg_ok_dec title) as [Ha|(n & -> & Hbad)].
  - rewrite !(setters_ok title status _ Ha). rewrite !updated_notes.
    split; [|now split]. unfold main.task_out in *.
    injection H as Hi Ht Hs. unfold updated.
    destruct title, status; simpl; congruence.
  - now rewrite !(setters_raise n status _ Hbad).
Qed.

(** *** The operations of the remote store *)

Lemma sim_index_tasks d1 d2 :
  forget_notes d1 = forget_notes d2 ->
  sim (fun l1 l2 => map forget_item l1 = map forget_item l2)
    (lift (index_tasks d1)) (lift (index_tasks d2)).
Proof.
  intros Hd. apply sim_lift. now apply forget_index_tasks.
Qed.

Lemma sim_get_all :
  sim (fun l1 l2 => map main.task_out l1 = map main.task_out l2)
    RemoteTaskStore.get_all RemoteTaskStore.get_all.
Proof.
  unfold RemoteTaskStore.get_all.
  eapply sim_bind; [apply sim_fetch_payload|]. intros d1 d2 Hd.
  apply sim_lift. apply forget_rmap_task_of_item.
  now apply forget_index_tasks.
Qed.

Lemma sim_create_task title status :
  sim eq (RemoteTaskStore.create_task title status)
    (RemoteTaskStore.create_task title status).
Proof.
  unfold RemoteTaskStore.create_task.
  eapply sim_bind; [apply sim_fetch_payload|]. intros d1 d2 Hd.
  eapply sim_bind; [apply (sim_index_tasks _ _ Hd)|]. intros l1 l2 Hl.
  cbv zeta. rewrite (forget_item_id _ _ Hl).
  eapply sim_bind; [|intros _ _ _; now apply sim_ret].
  apply sim_push_payload. apply forget_with_tasks.
  - now apply forget_index_tasks.
  - rewrite !map_app. now rewrite Hl.
Qed.

Lemma sim_delete_task id :
  sim (fun _ _ => True) (RemoteTaskStore.delete_task id)
    (RemoteTaskStore.delete_task id).
Proof.
  unfold RemoteTaskStore.delete_task.
  eapply sim_bind; [apply sim_fetch_payload|]. intros d1 d2 Hd.
  eapply sim_bind; [apply (sim_index_tasks _ _ Hd)|]. intros l1 l2 Hl.
  pose proof (forget_find_index id _ _ Hl) as Hf.
  destruct (find_index _ l1) as [[i1 t1]|], (find_index _ l2) as [[i2 t2]|];
    try contradiction; [|apply sim_raise].
  destruct Hf as [-> _].
  apply sim_push_payload. apply forget_with_tasks.
  - now apply forget_index_tasks.
  - rewrite !map_pop. now rewrite Hl.
Qed.

Lemma sim_update_task id title status notes1 notes2 :
  sim (fun o1 o2 => main.task_out o1 = main.task_out o2)
    (RemoteTaskStore.update_task id title status notes1)
    (RemoteTaskStore.update_task id title status notes2).
Proof.
  unfold RemoteTaskStore.update_task.
  eapply sim_bind; [apply sim_fetch_payload|]. intros d1 d2 Hd.
  eapply sim_bind; [apply (sim_index_tasks _ _ Hd)|]. intros l1 l2 Hl.
  pose proof (forget_find_index id _ _ Hl) as Hf.
  destruct (find_index _ l1) as [[i1 t1]|], (find_index _ l2) as [[i2 t2]|];
    try contradiction; [|apply sim_raise].
  destruct Hf as [-> Ht].
  eapply sim_bind;
    [apply sim_lift; exact (forget_task_of_item _ _ Ht)|].
  cbv beta. intros o1 o2 Ho. cbv zeta. fold (setters title status).
  pose proof (task_out_setters title status o1 o2 Ho) as Hs.
  destruct (setters title status o1) as [[[]|e1] o1'],
           (setters title status o2) as [[[]|e2] o2'];
    try contradiction; [|subst e2; apply sim_raise].
  destruct Hs as (Ho' & _ & _).
  eapply sim_bind.
  - apply sim_push_payload. apply forget_with_tasks.
    + now apply forget_index_tasks.
    + rewrite !map_set_nth. rewrite Hl. f_equal.
      unfold main.task_out in Ho'. injection Ho' as Hi Hti Hst.
      pose proof (f_equal item_id Ht) as Hid. simpl in Hid.
      destruct notes1, notes2; unfold forget_item; simpl;
        now rewrite Hid, Hti, Hst.
  - intros _ _ _. apply sim_ret.
    destruct notes1, notes2; now rewrite ?task_out_set_notes.
Qed.

Lemma same_outcome_refl {A} (Q : A -> A -> Prop) o :
  (forall a, Q a a) -> same_outcome Q o o.
Proof.
  intros HQ. split; [reflexivity|]. destruct (fst o); auto.
Qed.

Lemma same_outcome_sym {A B} (Q : A -> B -> Prop) (Q' : B -> A -> Prop) o1 o2 :
  (forall a b, Q a b -> Q' b a) -> same_outcome Q o1 o2 -> same_outcome Q' o2 o1.
Proof.
  intros HQ [Hw Hr]. split; [now apply same_visible_sym|].
  destruct (fst o1), (fst o2); auto.
Qed.

Lemma same_outcome_trans {A B C} (Q1 : A -> B -> Prop) (Q2 : B -> C -> Prop)
    (Q3 : A -> C -> Prop) o1 o2 o3 :
  (forall a b c, Q1 a b -> Q2 b c -> Q3 a c) ->
  same_outcome Q1 o1 o2 -> same_outcome Q2 o2 o3 -> same_outcome Q3 o1 o3.
Proof.
  intros HQ [Hw1 Hr1] [Hw2 Hr2].
  split; [exact (same_visible_trans _ _ _ Hw1 Hw2)|].
  destruct (fst o1), (fst o2), (fst o3); try contradiction; eauto.
  congruence.
Qed.

Lemma answered_same {A B} (Q : A -> B -> Prop) f g o1 o2 :
  (forall a b, Q a b -> f a = g b) -> same_outcome Q o1 o2 ->
  fst (answered f o1) = fst (answered g o2) /\
  same_visible (snd (answered f o1)) (snd (answered g o2)).
Proof.
  intros HQ [Hw Hr]. destruct o1 as [[a|e1] w1], o2 as [[b|e2] w2];
    simpl in *; try contradiction; split; auto. now subst.
Qed.

(** *** The network stays reliable *)

Lemma keeps_ret {A} P (a : A) : keeps P (ret a).
Proof. intros w H. exact H. Qed.

Lemma keeps_raise {A} P e : keeps P (@raise _ A e).
Proof. intros w H. exact H. Qed.

Lemma keeps_lift {A} P (r : Result A) : keeps P (lift r).
Proof. intros w H. exact H. Qed.

Lemma keeps_bind {A B} P (c : M JsonBinClient.world A)
    (k : A -> M JsonBinClient.world B) :
  keeps P c -> (forall a, keeps P (k a)) -> keeps P (bind c k).
Proof.
  intros Hc Hk w H. specialize (Hc w H). unfold bind.
  destruct (c w) as [[a|e] w']; simpl in Hc; [now apply Hk|exact Hc].
Qed.

Lemma keeps_try {A} P (c : M JsonBinClient.world A) h :
  keeps P c -> (forall e, keeps P (h e)) -> keeps P (try_except c h).
Proof.
  intros Hc Hh w H. specialize (Hc w H). unfold try_except.
  destruct (c w) as [[a|e] w']; simpl in Hc; [exact Hc|now apply Hh].
Qed.

Lemma keeps_request m :
  keeps (fun w => JsonBinClient.net w = []) (JsonBinClient.request m).
Proof.
  intros w H. unfold JsonBinClient.request. now rewrite H.
Qed.

Ltac keeps_steps :=
  repeat first
    [ apply keeps_ret | apply keeps_raise | apply keeps_lift
    | apply keeps_request
    | apply keeps_bind; [|intros ?]
    | apply keeps_try; [|intros ?] ].

Lemma keeps_fetch_payload :
  keeps (fun w => JsonBinClient.net w = []) JsonBinClient.fetch_payload.
Proof. unfold JsonBinClient.fetch_payload. keeps_steps. Qed.

Lemma keeps_push_payload p :
  keeps (fun w => JsonBinClient.net w = []) (JsonBinClient.push_payload p).
Proof. unfold JsonBinClient.push_payload. keeps_steps. Qed.

Lemma keeps_get_all :
  keeps (fun w => JsonBinClient.net w = []) RemoteTaskStore.get_all.
Proof.
  unfold RemoteTaskStore.get_all.
  apply keeps_bind; [apply keeps_fetch_payload|intros ?; apply keeps_lift].
Qed.

Lemma keeps_create_task title status :
  keeps (fun w => JsonBinClient.net w = [])
    (RemoteTaskStore.create_task title status).
Proof.
  unfold RemoteTaskStore.create_task.
  apply keeps_bind; [apply keeps_fetch_payload|intros d].
  apply keeps_bind; [apply keeps_lift|intros l]. cbv zeta.
  apply keeps_bind; [apply keeps_push_payload|intros ?; apply keeps_ret].
Qed.

Lemma keeps_update_task id title status notes :
  keeps (fun w => JsonBinClient.net w = [])
    (RemoteTaskStore.update_task id title status notes).
Proof.
  unfold RemoteTaskStore.update_task.
  apply keeps_bind; [apply keeps_fetch_payload|intros d].
  apply keeps_bind; [apply keeps_lift|intros l].
  destruct (find_index _ l) as [[i t]|]; [|apply keeps_raise].
  apply keeps_bind; [apply keeps_lift|intros obj]. cbv zeta.
  match goal with |- context [match ?s with _ => _ end] =>
    destruct s as [[[]|e] obj'] end; [|apply keeps_raise].
  apply keeps_bind; [apply keeps_push_payload|intros ?; apply keeps_ret].
Qed.

Lemma keeps_delete_task id :
  keeps (fun w => JsonBinClient.net w = []) (RemoteTaskStore.delete_task id).
Proof.
  unfold RemoteTaskStore.delete_task.
  apply keeps_bind; [apply keeps_fetch_payload|intros d].
  apply keeps_bind; [apply keeps_lift|intros l].
  destruct (find_index _ l) as [[i t]|];
    [apply keeps_push_payload|apply keeps_raise].
Qed.

Lemma keeps_answered {A} P (f : A -> Answer) (c : M JsonBinClient.world A) w :
  keeps P c -> P w -> P (snd (answered f (c w))).
Proof.
  intros Hc H. specialize (Hc w H). now destruct (c w) as [[a|e] w'].
Qed.

Section Api.

Variable str : Json -> string.

(** *** The service and the endpoints *)

Lemma sim_create_task_and_enrich ai title status :
  sim (fun t1 t2 => main.task_out t1 = main.task_out t2)
    (TaskService.create_task_and_enrich str ai title status)
    (TaskService.create_task_and_enrich str ai title status).
Proof.
  unfold TaskService.create_task_and_enrich.
  eapply sim_bind; [apply sim_create_task|]. intros task _ <-.
  apply sim_try; [|intros e; now apply sim_ret].
  eapply sim_bind; [apply (sim_lift eq)|].
  { destruct (CloudflareAIClient.generate_plan _ _ _); reflexivity. }
  intros plan _ <-. destruct plan as [p|]; [|now apply sim_ret].
  destruct (truthy p); [|now apply sim_ret].
  eapply sim_bind; [apply sim_update_task|].
  intros _ _ _. now apply sim_ret.
Qed.

(** The task that the service returns shows as the task that the store
    created, whatever the AI endpoint does. *)
Lemma enrich_shows_created ai title status w :
  match fst (TaskService.create_task_and_enrich str ai title status w),
        fst (RemoteTaskStore.create_task title status w) with
  | Ok t', Ok t => main.task_out t' = main.task_out t
  | Raise e', Raise e => e' = e
  | _, _ => False
  end.
Proof.
  unfold TaskService.create_task_and_enrich. unfold bind at 1.
  destruct (RemoteTaskStore.create_task title status w) as [[t|e] w0];
    [|reflexivity].
  unfold try_except. unfold bind at 1. unfold lift.
  destruct (CloudflareAIClient.generate_plan str ai
              (TaskService._build_prompt title)) as [[p|]|e];
    [|reflexivity|reflexivity].
  destruct (truthy p); [|reflexivity]. unfold bind.
  now destruct (RemoteTaskStore.update_task (Task.id t) None None (Some p) w0)
    as [[obj|e] w2].
Qed.

(** Over a reliable network the enrichment changes the notes of the bin
    and nothing else. *)
Lemma enrich_reliable ai title status w :
  JsonBinClient.net w = [] ->
  same_outcome (fun t' t => main.task_out t' = main.task_out t)
    (TaskService.create_task_and_enrich str ai title status w)
    (RemoteTaskStore.create_task title status w).
Proof.
  intros Hn.
  assert (forall n, reliable n (JsonBinClient.net w) = true) as Hr
    by (intros [|n]; now rewrite Hn).
  unfold TaskService.create_task_and_enrich. unfold bind at 1.
  destruct (doc_tasks (JsonBinClient.bin w)) as [items|] eqn:Hd.
  - set (task0 := Task.init (next_free_id (map item_id items)) title status None).
    pose proof (remote_create_task_delivered title status w items (Hr 2%nat) Hd)
      as Hc.
    cbv zeta in Hc. fold task0 in Hc. rewrite Hc. rewrite Hn. simpl tl.
    match goal with |- context [(Ok task0, ?x)] => set (w1 := x) end.
    unfold try_except. unfold bind at 1. unfold lift.
    destruct (CloudflareAIClient.generate_plan str ai
                (TaskService._build_prompt title)) as [[p|]|e];
      [|now apply same_outcome_refl|now apply same_outcome_refl].
    destruct (truthy p); [|now apply same_outcome_refl].
    assert (find_index (fun t => item_id t =? Task.id task0)
              (items ++ [new_item task0])
            = Some (List.length items, new_item task0)) as Hf.
    { apply find_index_app; [|apply Z.eqb_refl].
      intros y Hy. apply Z.eqb_neq.
      pose proof (next_free_id_gt (map item_id items) _ (in_map item_id _ _ Hy)).
      simpl. lia. }
    pose proof (remote_update_task_delivered (Task.id task0) None None (Some p)
                  w1 (items ++ [new_item task0]) (List.length items)
                  (new_item task0) status eq_refl eq_refl Hf
                  (TaskStatus_of_value status) I) as Hu.
    rewrite set_nth_app in Hu.
    assert (remote_obj None None (Some p) (new_item task0) status
            = Task.set_notes task0 (Some p)) as Hobj
      by (apply remote_obj_of_new_item;
          [reflexivity|apply strip_idem|reflexivity]).
    rewrite Hobj in Hu. unfold bind. rewrite Hu.
    split; [|reflexivity]. simpl. apply same_visible_mk.
    apply forget_with_tasks; [reflexivity|].
    rewrite !map_app. f_equal. simpl. f_equal.
    unfold remote_item. now rewrite Hobj.
  - assert (RemoteTaskStore.create_task title status w
            = (Raise (KeyError "tasks"), JsonBinClient.mk (JsonBinClient.bin w) []))
      as Hc.
    { unfold RemoteTaskStore.create_task. unfold bind at 1.
      rewrite (fetch_payload_delivered w (Hr 1%nat)). cbv beta iota.
      unfold bind at 1. unfold lift, index_tasks. simpl JsonBinClient.bin.
      now rewrite Hd, Hn. }
    rewrite Hc. now apply same_outcome_refl.
Qed.

Lemma sim_main_get_tasks : sim eq main.get_tasks main.get_tasks.
Proof.
  unfold main.get_tasks. eapply sim_bind; [apply sim_get_all|].
  intros l1 l2 Hl. now apply sim_ret.
Qed.

Lemma sim_main_create_task cf payload :
  sim eq (main.create_task str cf payload) (main.create_task str cf payload).
Proof.
  unfold main.create_task.
  eapply sim_bind; [apply sim_create_task_and_enrich|].
  intros t1 t2 Ht. now apply sim_ret.
Qed.

Lemma sim_main_update_task task_id title status notes1 notes2 :
  sim eq (main.update_task task_id (TaskUpdate.mk title status notes1))
    (main.update_task task_id (TaskUpdate.mk title status notes2)).
Proof.
  unfold main.update_task. simpl.
  eapply sim_bind; [apply sim_update_task|].
  intros t1 t2 Ht. now apply sim_ret.
Qed.

Lemma sim_main_delete_task task_id :
  sim eq (main.delete_task task_id) (main.delete_task task_id).
Proof.
  unfold main.delete_task. eapply sim_bind; [apply sim_delete_task|].
  intros _ _ _. now apply sim_ret.
Qed.

Lemma main_create_task_outcome cf payload w :
  main.create_task str cf payload w
  = match TaskService.create_task_and_enrich str cf
            (TaskCreate.title payload) (TaskCreate.status payload) w with
    | (Ok t, w') => (Ok (main.task_out t), w')
    | (Raise e, w') => (Raise e, w')
    end.
Proof. reflexivity. Qed.

(** The answer to a POST and the visible part of the bin it leaves, over
    a reliable network: those of [create_task] of the store. *)
Lemma main_create_task_reliable cf payload w :
  JsonBinClient.net w = [] ->
  same_outcome (fun s t => s = main.task_out t)
    (main.create_task str cf payload w)
    (RemoteTaskStore.create_task (TaskCreate.title payload)
       (TaskCreate.status payload) w).
Proof.
  intros Hn. rewrite main_create_task_outcome.
  destruct (enrich_reliable cf (TaskCreate.title payload)
              (TaskCreate.status payload) w Hn) as [Hw Hr].
  destruct (TaskService.create_task_and_enrich _ _ _ _ w) as [[t|e] w'];
    split; assumption.
Qed.

Lemma serve_call_same c1 c2 w1 w2 :
  without_notes c1 = without_notes c2 -> same_visible w1 w2 ->
  fst (serve_call str c1 w1) = fst (serve_call str c2 w2) /\
  same_visible (snd (serve_call str c1 w1)) (snd (serve_call str c2 w2)).
Proof.
  intros Hc Hw.
  destruct c1 as [|cf1 p1|id1 [ti1 st1 no1]|id1],
           c2 as [|cf2 p2|id2 [ti2 st2 no2]|id2];
    try discriminate Hc; simpl in Hc.
  - apply (answered_same eq); [congruence|]. now apply sim_main_get_tasks.
  - injection Hc as -> ->.
    apply (answered_same eq); [congruence|].
    now apply sim_main_create_task.
  - injection Hc as -> -> ->.
    apply (answered_same eq); [congruence|].
    now apply sim_main_update_task.
  - injection Hc as ->.
    apply (answered_same eq); [congruence|].
    now apply sim_main_delete_task.
Qed.

Lemma serve_call_reliable c w :
  JsonBinClient.net w = [] ->
  JsonBinClient.net (snd (serve_call str c w)) = [].
Proof.
  intros Hn.
  destruct c as [|cf p|id p|id]; simpl;
    apply (keeps_answered (fun w => JsonBinClient.net w = [])); try exact Hn.
  - unfold main.get_tasks.
    apply keeps_bind; [apply keeps_get_all|intros ?; apply keeps_ret].
  - unfold main.create_task, TaskService.create_task_and_enrich.
    apply keeps_bind; [|intros ?; apply keeps_ret].
    apply keeps_bind; [apply keeps_create_task|intros t].
    apply keeps_try; [|intros ?; apply keeps_ret].
    apply keeps_bind; [apply keeps_lift|intros [plan|]];
      [|apply keeps_ret].
    destruct (truthy plan); [|apply keeps_ret].
    apply keeps_bind; [apply keeps_update_task|intros ?; apply keeps_ret].
  - unfold main.update_task.
    apply keeps_bind; [apply keeps_update_task|intros ?; apply keeps_ret].
  - unfold main.delete_task.
    apply keeps_bind; [apply keeps_delete_task|intros ?; apply keeps_ret].
Qed.

Lemma serve_call_same_reliable c1 c2 w1 w2 :
  without_ai (without_notes c1) = without_ai (without_notes c2) ->
  same_visible w1 w2 -> JsonBinClient.net w1 = [] ->
  fst (serve_call str c1 w1) = fst (serve_call str c2 w2) /\
  same_visible (snd (serve_call str c1 w1)) (snd (serve_call str c2 w2)).
Proof.
  intros Hc Hw Hn.
  destruct c1 as [|cf1 p1|id1 [ti1 st1 no1]|id1],
           c2 as [|cf2 p2|id2 [ti2 st2 no2]|id2];
    try discriminate Hc; simpl in Hc.
  - now apply serve_call_same.
  - injection Hc as ->.
    assert (JsonBinClient.net w2 = []) as Hn2
      by (apply same_visible_inv in Hw as [<- _]; exact Hn).
    apply (answered_same eq); [congruence|].
    pose proof (main_create_task_reliable cf1 p2 w1 Hn) as H1.
    pose proof (main_create_task_reliable cf2 p2 w2 Hn2) as H2.
    pose proof (sim_create_task (TaskCreate.title p2) (TaskCreate.status p2)
                  w1 w2 Hw) as H3.
    apply (same_outcome_sym _ (fun t s => s = main.task_out t)) in H2; [|auto].
    eapply same_outcome_trans; [|exact H1|].
    2: eapply same_outcome_trans; [|exact H3|exact H2].
    + intros a b c Hab Hbc. exact (eq_trans Hab Hbc).
    + intros a b c -> ->. reflexivity.
  - apply serve_call_same; [|exact Hw]. simpl. congruence.
  - now apply serve_call_same.
Qed.

(** X16: the answer to one request.  The answer to a POST is the task as
    [create_task] of the store returned it, or the exception that it
    raised: nothing that the AI endpoint does changes the answer.  So two
    requests that differ at most in the notes of a PUT body and in what
    the AI endpoint does, served on bins that differ at most in the notes
    of their items, get the same answer, whatever the network does. *)
Theorem answer_shows_no_notes (c1 c2 : Call) (w1 w2 : JsonBinClient.world) :
  without_ai (without_notes c1) = without_ai (without_notes c2) ->
  hide_notes w1 = hide_notes w2 ->
  fst (serve_call str c1 w1) = fst (serve_call str c2 w2) /\
  (forall cf payload,
     fst (main.create_task str cf payload w1)
     = match fst (RemoteTaskStore.create_task (TaskCreate.title payload)
                    (TaskCreate.status payload) w1) with
       | Ok t => Ok (main.task_out t)
       | Raise e => Raise e
       end).
Proof.
  intros Hc Hw.
  assert (forall cf payload w,
            fst (main.create_task str cf payload w)
            = match fst (RemoteTaskStore.create_task (TaskCreate.title payload)
                           (TaskCreate.status payload) w) with
              | Ok t => Ok (main.task_out t)
              | Raise e => Raise e
              end) as Hpost.
  { intros cf payload w. rewrite main_create_task_outcome.
    pose proof (enrich_shows_created cf (TaskCreate.title payload)
                  (TaskCreate.status payload) w) as H.
    destruct (TaskService.create_task_and_enrich _ _ _ _ w) as [[t'|e'] w'],
             (RemoteTaskStore.create_task _ _ w) as [[t|e] w0];
      simpl in *; try contradiction; congruence. }
  split; [|intros cf payload; apply Hpost].
  destruct c1 as [|cf1 p1|id1 [ti1 st1 no1]|id1],
           c2 as [|cf2 p2|id2 [ti2 st2 no2]|id2];
    try discriminate Hc; simpl in Hc.
  - now apply serve_call_same.
  - injection Hc as ->. simpl.
    pose proof (Hpost cf1 p2 w1) as H1. pose proof (Hpost cf2 p2 w2) as H2.
    destruct (sim_create_task (TaskCreate.title p2) (TaskCreate.status p2)
                w1 w2 Hw) as [_ H3].
    destruct (main.create_task str cf1 p2 w1) as [[a1|e1] w1'],
             (main.create_task str cf2 p2 w2) as [[a2|e2] w2'],
             (RemoteTaskStore.create_task _ _ w1) as [[t1|x1] v1],
             (RemoteTaskStore.create_task _ _ w2) as [[t2|x2] v2];
      simpl in *; try contradiction; congruence.
  - apply serve_call_same; [|exact Hw]. simpl. congruence.
  - now apply serve_call_same.
Qed.

(** X17: the notes never show.  Two sequences of requests that differ at
    most in the notes of the PUT bodies, served one request after the
    other on bins that differ at most in the notes of their items, get
    the same answers, whatever the network does to the requests to the
    bin. *)
Theorem notes_never_show (cs1 cs2 : list Call) (w1 w2 : JsonBinClient.world) :
  map without_notes cs1 = map without_notes cs2 ->
  hide_notes w1 = hide_notes w2 ->
  serve_all str cs1 w1 = serve_all str cs2 w2.
Proof.
  fold (same_visible w1 w2). revert cs2 w1 w2.
  induction cs1 as [|c1 cs1 IH]; intros [|c2 cs2] w1 w2 Hc Hw;
    try discriminate Hc; [reflexivity|].
  simpl in Hc. injection Hc as Hc Hcs.
  destruct (serve_call_same c1 c2 w1 w2 Hc Hw) as [Ha Hw'].
  simpl. destruct (serve_call str c1 w1) as [a1 w1'],
                  (serve_call str c2 w2) as [a2 w2'].
  simpl in Ha, Hw'. subst a2. f_equal. now apply IH.
Qed.

(** X18: over a network that delivers every request to the bin, the AI
    endpoint makes no difference to the answers either: two such
    sequences get the same answers also when the AI endpoint answers
    differently, or not at all, in one of them. *)
Theorem reliable_answers_ignore_ai (cs1 cs2 : list Call)
    (w1 w2 : JsonBinClient.world) :
  map (fun c => without_ai (without_notes c)) cs1
  = map (fun c => without_ai (without_notes c)) cs2 ->
  hide_notes w1 = hide_notes w2 ->
  JsonBinClient.net w1 = [] ->
  serve_all str cs1 w1 = serve_all str cs2 w2.
Proof.
  fold (same_visible w1 w2). revert cs2 w1 w2.
  induction cs1 as [|c1 cs1 IH]; intros [|c2 cs2] w1 w2 Hc Hw Hn;
    try discriminate Hc; [reflexivity|].
  simpl in Hc. injection Hc as Hc Hcs.
  destruct (serve_call_same_reliable c1 c2 w1 w2 Hc Hw Hn) as [Ha Hw'].
  pose proof (serve_call_reliable c1 w1 Hn) as Hn'.
  simpl. destruct (serve_call str c1 w1) as [a1 w1'],
                  (serve_call str c2 w2) as [a2 w2'].
  simpl in Ha, Hw', Hn'. subst a2. f_equal. now apply IH.
Qed.

End Api.

Lemma answer_shows_no_notes_witness :
  fst (serve_call example_str
         (CPost (ai_answers (JObject [("result",
                                       JObject [("response", JString "Step 1...")])]))
            (TaskCreate.mk " Learn Rust " TODO))
         (JsonBinClient.mk (JsonBinClient.bin noted_world)
            [Delivered; Delivered; Dropped]))
  = fst (serve_call example_str
           (CPost ai_down (TaskCreate.mk " Learn Rust " TODO))
           (JsonBinClient.mk (JsonBinClient.bin example_world)
              [Delivered; Delivered; Dropped])).
Proof.
  apply (answer_shows_no_notes example_str
           (CPost (ai_answers (JObject [("result",
                                         JObject [("response", JString "Step 1...")])]))
              (TaskCreate.mk " Learn Rust " TODO))
           (CPost ai_down (TaskCreate.mk " Learn Rust " TODO))
           (JsonBinClient.mk (JsonBinClient.bin noted_world)
            [Delivered; Delivered; Dropped])
           (JsonBinClient.mk (JsonBinClient.bin example_world)
              [Delivered; Delivered; Dropped])); reflexivity.
Defined.

Lemma notes_never_show_witness :
  serve_all example_str
    [CPut 1 (TaskUpdate.mk None (Some DONE) (Some "ask Ann")); CGet;
     CDelete 2; CGet]
    (JsonBinClient.mk (JsonBinClient.bin noted_world)
       [Delivered; Delivered; Delivered; Delivered; ReplyLost])
  = serve_all example_str
      [CPut 1 (TaskUpdate.mk None (Some DONE) None); CGet; CDelete 2; CGet]
      (JsonBinClient.mk (JsonBinClient.bin example_world)
         [Delivered; Delivered; Delivered; Delivered; ReplyLost]).
Proof.
  apply (notes_never_show example_str
           [CPut 1 (TaskUpdate.mk None (Some DONE) (Some "ask Ann")); CGet;
            CDelete 2; CGet]
           [CPut 1 (TaskUpdate.mk None (Some DONE) None); CGet; CDelete 2; CGet]
           (JsonBinClient.mk (JsonBinClient.bin noted_world)
       [Delivered; Delivered; Delivered; Delivered; ReplyLost])
           (JsonBinClient.mk (JsonBinClient.bin example_world)
              [Delivered; Delivered; Delivered; Delivered; ReplyLost])); reflexivity.
Defined.

Lemma reliable_answers_ignore_ai_witness :
  serve_all example_str
    [CPost (ai_answers (JObject [("result",
                                  JObject [("response", JString "Step 1...")])]))
       (TaskCreate.mk "Learn Rust" TODO);
     CPut 3 (TaskUpdate.mk (Some "Learn Coq") None (Some "soon")); CGet]
    noted_world
  = serve_all example_str
      [CPost ai_down (TaskCreate.mk "Learn Rust" TODO);
       CPut 3 (TaskUpdate.mk (Some "Learn Coq") None None); CGet]
      example_world.
Proof.
  apply (reliable_answers_ignore_ai example_str
           [CPost (ai_answers (JObject [("result",
                                         JObject [("response", JString "Step 1...")])]))
              (TaskCreate.mk "Learn Rust" TODO);
            CPut 3 (TaskUpdate.mk (Some "Learn Coq") None (Some "soon")); CGet]
           [CPost ai_down (TaskCreate.mk "Learn Rust" TODO);
            CPut 3 (TaskUpdate.mk (Some "Learn Coq") None None); CGet]
           noted_world example_world); reflexivity.
Defined.

(** ** An update made twice *)

Lemma updated_idem title status t :
  updated title status (updated title status t) = updated title status t.
Proof. now destruct title, status. Qed.

Lemma find_index_set_nth {A} (p : A -> bool) (l : list A) (i : nat) (x x' : A) :
  find_index p l = Some (i, x) -> p x' = true ->
  find_index p (set_nth i x' l) = Some (i, x').
Proof.
  revert i. induction l as [|a l IH]; intros i; simpl; [discriminate|].
  destruct (p a) eqn:E.
  - intros [= <- <-] Hx. simpl. now rewrite Hx.
  - destruct (find_index p l) as [[j y]|] eqn:Ef; [|discriminate].
    intros [= <- <-] Hx. simpl. rewrite E. now rewrite (IH j eq_refl Hx).
Qed.

Lemma set_nth_set_nth {A} (i : nat) (x y : A) (l : list A) :
  set_nth i y (set_nth i x l) = set_nth i y l.
Proof.
  revert i. induction l as [|a l IH]; intros [|i]; simpl; try reflexivity.
  now rewrite IH.
Qed.

Lemma remote_obj_again title status notes it st :
  remote_obj title status notes (remote_item title status notes it st)
    (Task.status (remote_obj title status notes it st))
  = remote_obj title status notes it st.
Proof.
  pose proof (remote_obj_title_stripped title status notes it st) as Hs.
  pose proof (remote_obj_id title status notes it st) as Hi.
  unfold remote_item.
  destruct (remote_obj title status notes it st) as [i ti s no] eqn:E.
  simpl in Hs, Hi. subst i. unfold remote_obj at 1. simpl.
  unfold Task.init. rewrite Hs.
  assert (ti = match title with Some n => strip n | None => ti end) as Hti.
  { apply (f_equal Task.title) in E. simpl in E. rewrite <- E.
    unfold remote_obj. destruct title as [n|]; [|reflexivity].
    destruct notes; simpl; now rewrite updated_title_Some. }
  assert (s = match status with Some x => x | None => s end) as Hst.
  { apply (f_equal Task.status) in E. simpl in E. rewrite <- E.
    unfold remote_obj. destruct status as [x|]; [|reflexivity].
    destruct notes, title; reflexivity. }
  assert (no = match notes with Some n => Some n | None => no end) as Hno.
  { apply (f_equal Task.notes) in E. simpl in E. rewrite <- E.
    unfold remote_obj. destruct notes as [n|]; reflexivity. }
  destruct title, status, notes; unfold updated, Task.set_notes,
    Task.set_title, Task.set_status; simpl; congruence.
Qed.

Lemma remote_update_task_reliable id title status notes b r w' :
  RemoteTaskStore.update_task id title status notes (JsonBinClient.mk b [])
  = (r, w') ->
  (w' = JsonBinClient.mk b [] /\ exists e, r = Raise e) \/
  exists items i it st,
    doc_tasks b = Some items /\
    find_index (fun t => item_id t =? id) items = Some (i, it) /\
    TaskStatus_of (item_status it) = Ok st /\
    title_arg_ok title /\
    r = Ok (remote_obj title status notes it st) /\
    w' = JsonBinClient.mk
           (RemoteTaskStore.with_tasks b
              (set_nth i (remote_item title status notes it st) items)) [].
Proof.
  destruct (doc_tasks b) as [items|] eqn:Hd.
  - destruct (find_index (fun t => item_id t =? id) items) as [[i it]|] eqn:Hf.
    + destruct (TaskStatus_of (item_status it)) as [st|e] eqn:Hs.
      * destruct (title_arg_ok_dec title) as [Ha|(n & -> & Hbad)].
        -- rewrite (remote_update_task_delivered id title status notes
                      (JsonBinClient.mk b []) items i it st eq_refl Hd Hf Hs
                      Ha).
           intros [= <- <-]. right. exists items, i, it, st. auto 10.
        -- rewrite (remote_update_task_raise id n status notes
                      (JsonBinClient.mk b []) items i it st eq_refl Hd Hf Hs
                      Hbad).
           intros [= <- <-]. left. eauto.
      * unfold RemoteTaskStore.update_task. unfold bind at 1.
        rewrite (fetch_payload_delivered (JsonBinClient.mk b []) eq_refl). cbv beta iota.
        unfold bind at 1. unfold lift, index_tasks. simpl JsonBinClient.bin.
        rewrite Hd, Hf. cbv beta iota.
        unfold bind at 1. unfold RemoteTaskStore.task_of_item.
        rewrite Hs. simpl. intros [= <- <-]. left. eauto.
    + unfold RemoteTaskStore.update_task. unfold bind at 1.
      rewrite (fetch_payload_delivered (JsonBinClient.mk b []) eq_refl). cbv beta iota.
      unfold bind at 1. unfold lift, index_tasks. simpl JsonBinClient.bin.
      rewrite Hd, Hf. simpl. intros [= <- <-]. left. eauto.
  - unfold RemoteTaskStore.update_task. unfold bind at 1.
    rewrite (fetch_payload_delivered (JsonBinClient.mk b []) eq_refl). cbv beta iota.
    unfold bind at 1. unfold lift, index_tasks. simpl JsonBinClient.bin.
    rewrite Hd. simpl. intros [= <- <-]. left. eauto.
Qed.

(** X19: an update made twice is an update made once.  In each of the
    three stores, when [update_task] has returned or raised, the same call
    once more returns the same task or raises the same exception and
    leaves the store as the first call left it; for the remote store,
    over a network that delivers every request. *)
Theorem update_task_twice (id : Z) (title : option string)
    (status : option TaskStatus) :
  (forall s r s',
     TaskStore.update_task id title status s = (r, s') ->
     TaskStore.update_task id title status s' = (r, s')) /\
  (forall f r f',
     FileTaskStore.update_task id title status f = (r, f') ->
     FileTaskStore.update_task id title status f' = (r, f')) /\
  (forall notes w r w',
     JsonBinClient.net w = [] ->
     RemoteTaskStore.update_task id title status notes w = (r, w') ->
     RemoteTaskStore.update_task id title status notes w' = (r, w')).
Proof.
  split; [|split].
  - intros s r s'. rewrite !mem_update_task_setters.
    destruct (dict_get id (TaskStore.tasks s)) as [task|] eqn:Eg.
    + destruct (title_arg_ok_dec (given title)) as [Ha|(n & Hn & Hbad)].
      * rewrite (setters_ok _ status task Ha). intros [= <- <-]. simpl.
        rewrite dict_get_set_same, (setters_ok _ status _ Ha), updated_idem.
        now rewrite (dict_set_same_value _ _ _ (dict_get_set_same _ _ _)).
      * rewrite Hn, (setters_raise n status task Hbad). intros [= <- <-].
        simpl. rewrite dict_get_set_same, (setters_raise n status task Hbad).
        now rewrite (dict_set_same_value _ _ _ (dict_get_set_same _ _ _)).
    + intros [= <- <-]. now rewrite Eg.
  - intros f r f'.
    destruct (FileTaskStore.get_all f) as [[ts|e] f0] eqn:Eg.
    + assert (f0 = f) as ->
        by (unfold FileTaskStore.get_all in Eg; destruct f; now injection Eg).
      destruct (find_index (fun t => Task.id t =? id) ts) as [[i t]|] eqn:Ef.
      * destruct (title_arg_ok_dec title) as [Ha|(n & -> & Hbad)].
        -- rewrite (file_update_task_ok f ts id i t title status Eg Ef Ha).
           intros [= <- <-].
           pose proof (file_get_all_updated f ts id i t title status Eg Ef)
             as Hg. cbv zeta in Hg.
           assert (find_index (fun t => Task.id t =? id)
                     (set_nth i (updated title status t) ts)
                   = Some (i, updated title status t)) as Hf'.
           { apply (find_index_set_nth _ _ _ t); [exact Ef|].
             rewrite updated_id. now apply find_index_some in Ef. }
           rewrite (file_update_task_ok _ _ id i _ title status Hg Hf' Ha).
           now rewrite updated_idem, set_nth_set_nth.
        -- rewrite (file_update_task_raise f ts id i t n status Eg Ef Hbad).
           intros [= <- <-].
           exact (file_update_task_raise f ts id i t n status Eg Ef Hbad).
      * rewrite (file_update_task_missing f ts id title status Eg Ef).
        intros [= <- <-].
        exact (file_update_task_missing f ts id title status Eg Ef).
    + assert (f0 = f) as ->
        by (unfold FileTaskStore.get_all in Eg; destruct f; now injection Eg).
      assert (FileTaskStore.update_task id title status f = (Raise e, f)) as Hu
        by (unfold FileTaskStore.update_task, bind; now rewrite Eg).
      rewrite Hu. intros [= <- <-]. exact Hu.
  - intros notes [b n] r w'. simpl. intros -> Hu.
    destruct (remote_update_task_reliable _ _ _ _ _ _ _ Hu)
      as [[-> _]|(items & i & it & st & Hd & Hf & Hs & Ha & -> & ->)];
      [exact Hu|].
    rewrite (remote_update_task_delivered id title status notes
               (JsonBinClient.mk
                  (RemoteTaskStore.with_tasks b
                     (set_nth i (remote_item title status notes it st) items))
                  [])
               (set_nth i (remote_item title status notes it st) items) i
               (remote_item title status notes it st)
               (Task.status (remote_obj title status notes it st))
               eq_refl eq_refl).
    + rewrite remote_obj_again. f_equal. simpl. f_equal.
      unfold RemoteTaskStore.with_tasks. simpl. f_equal. f_equal.
      rewrite set_nth_set_nth. f_equal.
      unfold remote_item at 1. rewrite remote_obj_again. reflexivity.
    + apply (find_index_set_nth _ _ _ it); [exact Hf|].
      simpl. now apply find_index_some in Hf.
    + simpl. apply TaskStatus_of_value.
    + exact Ha.
Qed.

Lemma update_task_twice_witness :
  exists r w',
    RemoteTaskStore.update_task 2 (Some " Learn Rust ") None (Some "soon")
      example_world = (Ok r, w') /\
    Task.title r = "Learn Rust" /\
    RemoteTaskStore.update_task 2 (Some " Learn Rust ") None (Some "soon") w'
    = (Ok r, w').
Proof.
  eexists. eexists. split; [cbv; reflexivity|]. split; [reflexivity|].
  apply (proj2 (proj2 (update_task_twice 2 (Some " Learn Rust ") None))
           (Some "soon") example_world); cbv; reflexivity.
Defined.

(** ** The file store and the remote store on one document *)

Lemma file_task_of_item_remote (item : Item) :
  FileTaskStore.task_of_item item
  = rbind (RemoteTaskStore.task_of_item item) (fun t => Ok (norm t)).
Proof.
  unfold FileTaskStore.task_of_item, RemoteTaskStore.task_of_item.
  destruct (TaskStatus_of (item_status item)); simpl; [|reflexivity].
  unfold norm, Task.init. simpl. now rewrite strip_idem.
Qed.

Lemma file_rmap_remote (l : list Item) :
  rmap FileTaskStore.task_of_item l
  = rbind (rmap RemoteTaskStore.task_of_item l) (fun r => Ok (map norm r)).
Proof.
  induction l as [|a l IH]; simpl; [reflexivity|].
  rewrite file_task_of_item_remote, IH.
  destruct (RemoteTaskStore.task_of_item a); simpl; [|reflexivity].
  now destruct (rmap RemoteTaskStore.task_of_item l).
Qed.

(** X20: what the remote store reads, the file store reads.  When
    [get_all] of the remote store, its request delivered, returns the
    tasks of a document, their ids are the ids of the items in the order
    of the document, and [get_all] of the file store on the same document
    returns the same tasks without their notes, sorted by id, so in the
    same order when the ids of the document ascend. *)
Theorem stores_read_alike (d : Document) (l : list Task.t) :
  fst (RemoteTaskStore.get_all (JsonBinClient.mk d [])) = Ok l ->
  fst (FileTaskStore.get_all (Some d)) = Ok (sorted (map norm l)) /\
  map Task.id l = map item_id (get_tasks d) /\
  (Sorted Z.le (map item_id (get_tasks d)) ->
   fst (FileTaskStore.get_all (Some d)) = Ok (map norm l)).
Proof.
  rewrite (remote_get_all_delivered (JsonBinClient.mk d []) eq_refl).
  unfold FileTaskStore.get_all. simpl. rewrite file_rmap_remote.
  intros Hl. rewrite Hl. simpl. split; [reflexivity|].
  assert (map Task.id l = map item_id (get_tasks d)) as Hid.
  { apply rmap_Forall2 in Hl. induction Hl as [|x y xs ys Hxy _ IH];
      [reflexivity|]. simpl. rewrite IH. f_equal.
    apply remote_task_of_item_inv in Hxy as (st & _ & ->). reflexivity. }
  split; [exact Hid|]. intros Hs. f_equal. apply sorted_fixed.
  replace (map Task.id (map norm l)) with (map Task.id l)
    by (rewrite map_map; now apply map_ext).
  now rewrite Hid.
Qed.

Lemma stores_read_alike_witness :
  fst (FileTaskStore.get_all (Some (JsonBinClient.bin example_world)))
  = Ok (map norm
          [Task.mk 1 "Buy milk" TODO None;
           Task.mk 2 "Learn Go" DONE (Some "plan")]).
Proof.
  destruct (stores_read_alike (JsonBinClient.bin example_world)
              [Task.mk 1 "Buy milk" TODO None;
               Task.mk 2 "Learn Go" DONE (Some "plan")] eq_refl)
    as (_ & _ & H).
  apply H. simpl. repeat constructor; lia.
Defined.

(** ** A task created in the file *)

(** X21: when the file can be read, [create_task] of the file store
    returns a task whose id is above every id of the file, with the given
    title stripped, the given status and no notes, and a [get_all] that
    follows returns the tasks as before with this task at the end. *)
Theorem file_create_task_appends (f : FileTaskStore.file) (ts : list Task.t)
    (title : string) (status : TaskStatus) :
  fst (FileTaskStore.get_all f) = Ok ts ->
  exists t f',
    FileTaskStore.create_task title status f = (Ok t, f') /\
    Forall (fun u => Task.id u < Task.id t) ts /\
    Task.title t = strip title /\ Task.status t = status /\
    Task.notes t = None /\
    FileTaskStore.get_all f' = (Ok (ts ++ [t]), f').
Proof.
  intros H.
  assert (FileTaskStore.get_all f = (Ok ts, f)) as Hg.
  { unfold FileTaskStore.get_all in *. destruct f; simpl in *; now rewrite H. }
  pose proof (file_create_task f ts title status Hg) as Hc. cbv zeta in Hc.
  eexists. eexists. split; [exact Hc|]. split; [|repeat split].
  - apply Forall_forall. intros u Hu. simpl.
    apply next_free_id_gt. now apply in_map.
  - apply file_get_all_written. apply normal_snoc.
    exact (file_get_all_normal _ _ _ Hg).
Qed.

Lemma file_create_task_appends_witness :
  exists t f',
    FileTaskStore.create_task " Learn Rust " DONE gap_file = (Ok t, f') /\
    Task.title t = "Learn Rust" /\
    FileTaskStore.get_all f'
    = (Ok [Task.mk 1 "a" TODO None; Task.mk 3 "c" TODO None; t], f').
Proof.
  destruct (file_create_task_appends gap_file
              [Task.mk 1 "a" TODO None; Task.mk 3 "c" TODO None]
              " Learn Rust " DONE eq_refl)
    as (t & f' & Hc & _ & Ht & _ & _ & Hg).
  exists t, f'. split; [exact Hc|]. split; [exact Ht|exact Hg].
Defined.
